(** * Maya-Mocap: the TRC import pipeline of [maya_trc.py]

    A shallow embedding of [df_from_trc], [increment_labels], [analyze_data],
    [set_markers] and [set_skeleton], and the properties of the import
    pipeline proved (or refuted) on it.

    Python strings are [string]; Python lists are [list]; the pandas
    [DataFrame] is a record of column names and rows; a cell of a table
    handed to the scene functions is a scalar of the dtype of its column
    ([value]: a 64-bit integer, a binary64 float, a boolean or a [str]);
    the Maya host ([maya.cmds]) is a small instrumented scene that records
    every command it receives. *)

From Stdlib Require Import Ascii String Floats DecimalString.
From stdpp Require Import base list strings gmap.

(** ** Python string helpers *)

Module Py.

(** [str(n)] for a non-negative [int]: the decimal numeral. *)
Definition str (n : nat) : string := NilEmpty.string_of_uint (Nat.to_uint n).

(** [c in '0123456789'], the character class [[0-9]] of [re]. *)
Definition is_digit (c : ascii) : bool :=
  let n := nat_of_ascii c in (48 <=? n)%nat && (n <=? 57)%nat.

(** [re.sub(r'[0-9]', '', s)]: every ASCII digit is deleted. *)
Fixpoint re_sub_digits (s : string) : string :=
  match s with
  | EmptyString => EmptyString
  | String c s' =>
      if is_digit c then re_sub_digits s' else String c (re_sub_digits s')
  end.

(** [s[:-1]]: all but the last character; the empty string stays empty. *)
Fixpoint drop_last (s : string) : string :=
  match s with
  | EmptyString => EmptyString
  | String c EmptyString => EmptyString
  | String c s' => String c (drop_last s')
  end.

(** [s[:-2]]. *)
Definition drop_last2 (s : string) : string :=
  match String.length s with
  | 0 | 1 => EmptyString
  | _ => drop_last (drop_last s)
  end.

(** No character of [s] is an ASCII digit. *)
Fixpoint no_digit (s : string) : bool :=
  match s with
  | EmptyString => true
  | String c s' => negb (is_digit c) && no_digit s'
  end.

(** [l[2::3]]: the elements at positions 2, 5, 8, ... *)
Fixpoint every_third {A} (l : list A) : list A :=
  match l with
  | [] => []
  | x :: l' =>
      x :: match l' with
           | _ :: _ :: l'' => every_third l''
           | _ => []
           end
  end.

Definition slice_2_step3 {A} (l : list A) : list A := every_third (drop 2 l).

(** [l[2:-1:3]]: positions 2, 5, 8, ... strictly before the last one. *)
Definition slice_2_m1_step3 {A} (l : list A) : list A :=
  every_third (drop 2 (removelast l)).

End Py.

(** ** Label de-duplication ([increment_labels], lines 109-122)

    [objs] is the answer of [cmds.ls(type='transform')]: the names of the
    transforms already in the scene. *)

Definition collides (objs : list string) (l : string) (cnt : nat) : bool :=
  bool_decide (l +:+ Py.str cnt ∈ objs)
  || bool_decide ((l +:+ "J") +:+ Py.str cnt ∈ objs).

(** The [for l in labels] loop: one pass, [cnt] bumped when the current
    label collides at the current [cnt]. *)
Fixpoint probe (objs : list string) (labels : list string) (cnt : nat) : nat :=
  match labels with
  | [] => cnt
  | l :: labels' =>
      if collides objs l cnt then probe objs labels' (S cnt)
      else probe objs labels' cnt
  end.

Definition increment_labels (objs : list string) (labels : list string)
  : string * list string :=
  let cnt := probe objs labels 1 in
  let str_cnt := Py.str cnt in
  let labels_cnt := map (fun l => l +:+ str_cnt) labels in
  (str_cnt, labels_cnt).

(** ** Skeleton definition (lines 49-85)

    [anytree.Node]: a name and an ordered list of children. *)

#[local] Set Warnings "-register-all".
Inductive Node : Type := mkNode (name : string) (children : list Node).

Definition name (n : Node) : string := let 'mkNode s _ := n in s.
Definition children (n : Node) : list Node := let 'mkNode _ ch := n in ch.

(** The OpenPose body_25b hierarchy. *)
Definition root : Node :=
  mkNode "CHipJ" [
    mkNode "RHipJ" [
      mkNode "RKneeJ" [
        mkNode "RAnkleJ" [
          mkNode "RBigToeJ" [
            mkNode "RSmallToeJ" []
          ];
          mkNode "RHeelJ" []
        ]
      ]
    ];
    mkNode "LHipJ" [
      mkNode "LKneeJ" [
        mkNode "LAnkleJ" [
          mkNode "LBigToeJ" [
            mkNode "LSmallToeJ" []
          ];
          mkNode "LHeelJ" []
        ]
      ]
    ];
    mkNode "NeckJ" [
      mkNode "HeadJ" [
        mkNode "NoseJ" []
      ];
      mkNode "RShoulderJ" [
        mkNode "RElbowJ" [
          mkNode "RWristJ" []
        ]
      ];
      mkNode "LShoulderJ" [
        mkNode "LElbowJ" [
          mkNode "LWristJ" []
        ]
      ]
    ]
  ].

(** Iterating [RenderTree(root)] yields the nodes in depth-first pre-order;
    each node is paired here with its [node.parent] ([None] for the root). *)
Fixpoint render (parent : option Node) (n : Node) : list (option Node * Node) :=
  match n with
  | mkNode _ ch => (parent, n) :: flat_map (render (Some n)) ch
  end.

Definition RenderTree (n : Node) : list (option Node * Node) := render None n.

(** ** Exceptions and results *)

Inductive exn : Type :=
| KeyError
| IndexError
| EmptyDataError
| ParserError
| ValueError
| TypeError.

Definition result (A : Type) : Type := exn + A.

#[global] Instance result_ret : MRet result := fun A x => inr x.
#[global] Instance result_bind : MBind result := fun A B f m =>
  match m with
  | inl e => inl e
  | inr x => f x
  end.

Definition raise {A} (e : exn) : result A := inl e.

(** [l[i]] for an in-range, non-negative index; [IndexError] otherwise. *)
Definition index {A} (l : list A) (i : nat) : result A :=
  match l !! i with
  | Some x => inr x
  | None => raise IndexError
  end.

(** ** Cell values and their arithmetic ([numpy])

    What [data.iloc[i, k]] and [data.loc[i, c]] return from a table that
    [read_csv] built: a scalar of the dtype inferred for the column, that
    is a [numpy.int64], a [numpy.uint64], a [numpy.float64] or a
    [numpy.bool_]; in a column of dtype [object] a cell is a [str], or
    the float NaN where the field was missing. *)

Inductive value : Type :=
| I64 (z : Z)
| U64 (z : Z)
| F64 (f : float)
| Bool (b : bool)
| Str (s : string).

(** A cell that is no text. *)
Definition numeric (v : value) : bool :=
  match v with
  | Str _ => false
  | _ => true
  end.

Module np.

(** Two's complement wrap-around of [int64], and [uint64] modulo 2^64. *)
Definition wrap_int64 (z : Z) : Z := ((z + 2 ^ 63) `mod` 2 ^ 64 - 2 ^ 63)%Z.
Definition wrap_uint64 (z : Z) : Z := (z `mod` 2 ^ 64)%Z.

(** An integer as a [float64]: the nearest binary64, ties to even. *)
Definition float_of_Z (z : Z) : float :=
  SF2Prim (SpecFloat.binary_normalize 53 1024 z 0 false).

Definition Z_of_bool (b : bool) : Z := if b then 1%Z else 0%Z.

(** The [float64] a numeric scalar converts to. *)
Definition to_float64 (v : value) : result float :=
  match v with
  | I64 z | U64 z => inr (float_of_Z z)
  | F64 f => inr f
  | Bool b => inr (float_of_Z (Z_of_bool b))
  | Str _ => raise TypeError
  end.

(** [np.add(a, b)] on two scalars: the sum in the common type of the
    operands.  Two [int64] (or two [uint64]) add with wrap-around; an
    [int64] and a [uint64], or a float and any number, add as [float64];
    two booleans give their disjunction; a boolean and an integer add as
    integers.  There is no sum of a [str] and a number, a [TypeError];
    where a [numpy] concatenates two [str], the division by 2 that
    follows in [set_skeleton] raises the [TypeError]. *)
Definition add (a b : value) : result value :=
  match a, b with
  | Str _, _ | _, Str _ => raise TypeError
  | F64 x, _ => y ← to_float64 b; mret (F64 (x + y))
  | _, F64 y => x ← to_float64 a; mret (F64 (x + y))
  | I64 x, I64 y => mret (I64 (wrap_int64 (x + y)))
  | U64 x, U64 y => mret (U64 (wrap_uint64 (x + y)))
  | I64 x, U64 y | U64 x, I64 y => mret (F64 (float_of_Z x + float_of_Z y))
  | Bool x, Bool y => mret (Bool (x || y))
  | Bool x, I64 y | I64 y, Bool x => mret (I64 (wrap_int64 (Z_of_bool x + y)))
  | Bool x, U64 y | U64 y, Bool x => mret (U64 (wrap_uint64 (Z_of_bool x + y)))
  end.

(** [x / 2]: true division, always a [float64]. *)
Definition div2 (x : value) : result value :=
  f ← to_float64 x; mret (F64 (f / 2)).

End np.

(** ** The table ([pandas.DataFrame])

    Column names in order and the rows in order; the row index is the
    default [RangeIndex], so row label [i] is row position [i]. *)

Record DataFrame (A : Type) : Type := mkDataFrame {
  columns : list string;
  rows : list (list A)
}.
Arguments mkDataFrame {A} _ _.
Arguments columns {A} _.
Arguments rows {A} _.

(** [data.shape[0]] *)
Definition shape0 {A} (data : DataFrame A) : nat := length (rows data).

(** [data.iloc[i, k]]: by position; out of bounds is an [IndexError]. *)
Definition iloc {A} (data : DataFrame A) (i k : nat) : result A :=
  match rows data !! i with
  | None => raise IndexError
  | Some r =>
      match r !! k with
      | None => raise IndexError
      | Some v => inr v
      end
  end.

(** Position of a column label ([data.columns.get_loc]). *)
Definition get_loc (cols : list string) (c : string) : option nat :=
  fst <$> list_find (fun x => x = c) cols.

(** [data.loc[i, c]]: by row label and column label; an unknown label is a
    [KeyError].  Column labels are unique in every table [read_csv] builds
    from [names]. *)
Definition loc {A} (data : DataFrame A) (i : nat) (c : string) : result A :=
  match get_loc (columns data) c with
  | None => raise KeyError
  | Some k =>
      match rows data !! i with
      | None => raise KeyError
      | Some r =>
          match r !! k with
          | None => raise KeyError
          | Some v => inr v
          end
      end
  end.

(** [data.iloc[:, 2:]] *)
Definition iloc_cols_from2 {A} (data : DataFrame A) : DataFrame A :=
  mkDataFrame (drop 2 (columns data)) (map (drop 2) (rows data)).

(** ** Reading the file ([pandas.read_csv], as [df_from_trc] calls it)

    A file is the list of its physical lines, terminators removed.  The
    three calls of [df_from_trc] all use [sep="\t"] and pandas' default C
    tokenizer, modelled here as far as these calls exercise it:
    - [skiprows=k] drops the first [k] physical lines, blank or not;
    - a line made of spaces only is blank and is skipped
      ([skip_blank_lines=True]);
    - every other line is cut at the tabs into its fields;
    - after the line that fixes the width (the first record, or the
      longer of the first record and [names] when names are given), a
      line with more fields than that width is a [ParserError], a line
      with fewer is padded with NaN.
    Quoting, comments, character decoding and the conversion of field
    text to numbers are not modelled: a cell keeps the text of its field. *)

Module Csv.

Definition tab : ascii := "009"%char.

Fixpoint split_tab (line : string) : list string :=
  match line with
  | EmptyString => [EmptyString]
  | String c line' =>
      if Ascii.eqb c tab then EmptyString :: split_tab line'
      else match split_tab line' with
           | f :: fs => String c f :: fs
           | [] => [String c EmptyString]
           end
  end.

Fixpoint blank (line : string) : bool :=
  match line with
  | EmptyString => true
  | String c line' => Ascii.eqb c " "%char && blank line'
  end.

(** The records left after [skiprows] and blank-line skipping. *)
Definition records (skiprows : nat) (file : list string) : list (list string) :=
  map split_tab (filter (fun l => blank l = false) (drop skiprows file)).

(** A cell of a parsed table: the text of a field, or NaN where the line
    had no such field. *)
Inductive cell : Type :=
| Field (text : string)
| NaN.

#[global] Instance cell_eq_dec : EqDecision cell.
Proof. solve_decision. Defined.

Definition too_wide (w : nat) (recs : list (list string)) : bool :=
  existsb (fun r => (w <? length r)%nat) recs.

(** A record as a table row of exactly [w] cells. *)
Definition to_row (w : nat) (r : list string) : list cell :=
  resize w NaN (map Field r).

(** Header names as pandas reads them: an empty name at position [i]
    becomes [Unnamed: i], and a name seen before gets [.1], [.2], ...
    appended until it is new ([mangle_dupe_cols]). *)
Definition unnamed (i : nat) (nm : string) : string :=
  if decide (nm = "") then "Unnamed: " +:+ Py.str i else nm.

Fixpoint dedup (fuel : nat) (counts : gmap string nat) (nm : string)
  : string * gmap string nat :=
  let count := default 0 (counts !! nm) in
  match fuel with
  | 0 => (nm, counts)
  | S fuel' =>
      if (0 <? count)%nat
      then dedup fuel' (<[nm := S count]> counts) (nm +:+ "." +:+ Py.str count)
      else (nm, counts)
  end.

Fixpoint mangle_go (i : nat) (counts : gmap string nat) (fields : list string)
  : list string :=
  match fields with
  | [] => []
  | f :: fs =>
      let '(nm, counts') := dedup (S (size counts)) counts (unnamed i f) in
      let count := default 0 (counts' !! nm) in
      nm :: mangle_go (S i) (<[nm := S count]> counts') fs
  end.

Definition mangle (fields : list string) : list string := mangle_go 0 ∅ fields.

(** [pd.read_csv(path, sep="\t", skiprows=1, header=None, nrows=2)]:
    the first record fixes the width. *)
Definition read_header_rows (file : list string) : result (DataFrame cell) :=
  match take 2 (records 1 file) with
  | [] => raise EmptyDataError
  | r1 :: rest =>
      let w := length r1 in
      if too_wide w rest then raise ParserError
      else mret (mkDataFrame (map Py.str (seq 0 w)) (map (to_row w) (r1 :: rest)))
  end.

(** [pd.read_csv(path, sep="\t", skiprows=3, nrows=1).columns.tolist()]:
    the first record is the header line. *)
Definition read_columns (file : list string) : result (list string) :=
  match records 3 file with
  | [] => raise EmptyDataError
  | hdr :: _ => mret (mangle hdr)
  end.

(** [pd.read_csv(path, sep="\t", skiprows=5, index_col=False, header=None,
    names=names)]: duplicate [names] are refused; with no record left the
    table is empty; otherwise the tokenizer expects
    [max(len(names), fields of the first record)] fields, a later record
    with more is a [ParserError], and every row is cut or padded to
    [len(names)]. *)
Definition read_data (names : list string) (file : list string)
  : result (DataFrame cell) :=
  if bool_decide (NoDup names) then
    match records 5 file with
    | [] => mret (mkDataFrame names [])
    | r1 :: rest =>
        if too_wide (Nat.max (length r1) (length names)) rest then raise ParserError
        else mret (mkDataFrame names (map (to_row (length names)) (r1 :: rest)))
    end
  else raise ValueError.

End Csv.

(** [df.iloc[i].tolist()] *)
Definition iloc_row {A} (data : DataFrame A) (i : nat) : result (list A) :=
  index (rows data) i.

(** [labels_XYZ]: three column names per label. *)
Definition labels_XYZ (labels : list string) : list string :=
  flat_map (fun l => [l +:+ "_X"; l +:+ "_Y"; l +:+ "_Z"]) labels.

(** Lines 94-95 of [df_from_trc]: the [header] dict, given by the
    key/value pairs [dict(zip(...))] is built from, in order. *)
Definition trc_header (trc : list string) : result (list (Csv.cell * Csv.cell)) :=
  df_header ← Csv.read_header_rows trc;
  keys ← iloc_row df_header 0;
  vals ← iloc_row df_header 1;
  mret (zip keys vals).

(** Lines 98-104 of [df_from_trc]: the labels, the column names and the
    data without its first two columns. *)
Definition trc_data (trc : list string) : result (DataFrame Csv.cell) :=
  cols ← Csv.read_columns trc;
  let labels := Py.slice_2_m1_step3 cols in
  let labels_FTXYZ := ["Frame#"; "Time"] ++ labels_XYZ labels in
  data_df ← Csv.read_data labels_FTXYZ trc;
  mret (iloc_cols_from2 data_df).

(** [df_from_trc] (lines 89-106). *)
Definition df_from_trc (trc : list string)
  : result (list (Csv.cell * Csv.cell) * DataFrame Csv.cell) :=
  header ← trc_header trc;
  data ← trc_data trc;
  mret (header, data).

(** [analyze_data] (lines 125-134), with the scene's transform names
    [objs] that [increment_labels] asks the host for. *)
Definition analyze_data {A} (objs : list string) (data : DataFrame A)
  : list string * string * nat :=
  let numFrames := shape0 data in
  let labels_raw := columns data in
  let labels := map Py.drop_last2 (Py.slice_2_step3 labels_raw) in
  let '(str_cnt, labels) := increment_labels objs labels in
  (labels, str_cnt, numFrames).

(** ** The host ([maya.cmds]) as an instrumented scene

    The scene holds the transforms created so far, each with its parent,
    and the current selection; [log] records every command received, in
    order.  Queries ([ls], [listRelatives]) read the scene and are not
    logged. *)

Inductive call : Type :=
| polySphere (n : string)
| instance (src n : string)
| setKeyframe_at (obj : string) (t : nat) (attr : string) (v : value)
| select (target : option string) (hi : bool)
| joint (n : string)
| move (x y z : value) (obj : string)
| setKeyframe (obj : string) (t : nat)
| joint_orient (target : option (list string)).

Record host : Type := mkHost {
  nodes : list (string * option string);
  selection : list string;
  log : list call
}.

Definition host0 : host := mkHost [] [] [].

(** Commands run in the scene and may raise. *)
Definition M (A : Type) : Type := host → host * result A.

#[global] Instance M_ret : MRet M := fun A x h => (h, inr x).
#[global] Instance M_bind : MBind M := fun A B f m h =>
  match m h with
  | (h', inl e) => (h', inl e)
  | (h', inr x) => f x h'
  end.

Definition lift {A} (r : result A) : M A := fun h => (h, r).

Definition emit (c : call) (h : host) : host :=
  mkHost (nodes h) (selection h) (log h ++ [c]).

(** [for x in xs: body(x)] *)
Fixpoint for_each {A} (xs : list A) (body : A → M unit) : M unit :=
  match xs with
  | [] => mret tt
  | x :: xs' => body x ;; for_each xs' body
  end.

(** [range(lo, hi)] *)
Definition range (lo hi : nat) : list nat := seq lo (hi - lo).

Module cmds.

Definition children_of (ns : list (string * option string)) (p : string)
  : list string :=
  map fst (filter (fun x => x.2 = Some p) ns).

(** The hierarchy below [n], depth first, children in creation order. *)
Fixpoint hierarchy (fuel : nat) (ns : list (string * option string)) (n : string)
  : list string :=
  match fuel with
  | 0 => [n]
  | S fuel' => n :: flat_map (hierarchy fuel' ns) (children_of ns n)
  end.

(** [cmds.select(None)], [cmds.select(n)], [cmds.select(n, hi=True)] *)
Definition select (target : option string) (hi : bool) : M unit := fun h =>
  let sel := match target with
             | None => []
             | Some n => if hi then hierarchy (length (nodes h)) (nodes h) n
                         else [n]
             end in
  (mkHost (nodes h) sel (log h ++ [select target hi]), inr tt).

(** [cmds.joint(name=n)]: the new joint is a child of the selected
    object, if any, and becomes the selection. *)
Definition joint (n : string) : M unit := fun h =>
  (mkHost (nodes h ++ [(n, last (selection h))]) [n] (log h ++ [joint n]), inr tt).

(** [cmds.ls(sl=1)] *)
Definition ls_sl : M (list string) := fun h => (h, inr (selection h)).

(** [cmds.ls(type='transform')] *)
Definition ls_transforms : M (list string) := fun h => (h, inr (map fst (nodes h))).

(** The parent the scene [ns] records for [n]. *)
Definition parent_of (ns : list (string * option string)) (n : string)
  : option (list string) :=
  match list_find (fun x => x.1 = n) ns with
  | Some (_, (_, Some p)) => Some [p]
  | _ => None
  end.

(** [cmds.listRelatives(n, parent=True)]: [None] without a parent. *)
Definition listRelatives_parent (n : string) : M (option (list string)) := fun h =>
  (h, inr (parent_of (nodes h) n)).

(** [cmds.joint(target, e=True, zso=True, oj='xyz', sao='yup')] *)
Definition joint_orient (target : option (list string)) : M unit := fun h =>
  (emit (joint_orient target) h, inr tt).

Definition move (x y z : value) (obj : string) : M unit := fun h =>
  (emit (move x y z obj) h, inr tt).

Definition setKeyframe (obj : string) (t : nat) : M unit := fun h =>
  (emit (setKeyframe obj t) h, inr tt).

Definition setKeyframe_at (obj : string) (t : nat) (attr : string) (v : value)
  : M unit := fun h =>
  (emit (setKeyframe_at obj t attr v) h, inr tt).

Definition polySphere (n : string) : M unit := fun h =>
  (mkHost (nodes h ++ [(n, None)]) [n] (log h ++ [polySphere n]), inr tt).

Definition instance (src n : string) : M unit := fun h =>
  (mkHost (nodes h ++ [(n, None)]) [n] (log h ++ [instance src n]), inr tt).

End cmds.

(** [increment_labels] as it runs in the scene. *)
Definition increment_labels_m (labels : list string) : M (string * list string) :=
  objs ← cmds.ls_transforms;
  mret (increment_labels objs labels).

(** ** Marker placement ([set_markers], lines 137-153) *)

(** Lines 143-147: the first marker is a sphere, the others instances of it. *)
Definition create_markers (labels : list string) : M unit :=
  for_each (range 0 (length labels)) (fun j =>
    if (j =? 0)%nat then
      l_j ← lift (index labels j);
      cmds.polySphere l_j
    else
      l_0 ← lift (index labels 0);
      l_j ← lift (index labels j);
      cmds.instance l_0 l_j).

(** Lines 151-153: marker [j] at frame [i]. *)
Definition place_marker (data : DataFrame value) (labels : list string) (i j : nat)
  : M unit :=
  l_j ← lift (index labels j);
  v ← lift (iloc data i (3 * j + 2));
  cmds.setKeyframe_at l_j i "translateX" v ;;
  l_j ← lift (index labels j);
  v ← lift (iloc data i (3 * j));
  cmds.setKeyframe_at l_j i "translateY" v ;;
  l_j ← lift (index labels j);
  v ← lift (iloc data i (3 * j + 1));
  cmds.setKeyframe_at l_j i "translateZ" v.

Definition set_markers (data : DataFrame value) (labels : list string)
    (numFrames : nat) : M unit :=
  create_markers labels ;;
  for_each (range 0 numFrames) (fun i =>
    for_each (range 0 (length labels)) (fun j =>
      place_marker data labels i j)).

(** ** Skeleton reconstruction ([set_skeleton], lines 164-197) *)

(** [np.add(a, b) / 2] *)
Definition midpoint (a b : value) : result value :=
  sum ← np.add a b;
  np.div2 sum.

(** Line 188: the marker label of a joint name, "take off numbers +
    letter J from joint name". *)
Definition jnt_of (joint_j : string) : string :=
  Py.drop_last (Py.re_sub_digits joint_j).

(** Lines 182-191: the coordinates of joint [j] at frame [i]. *)
Definition jointCoord (data : DataFrame value) (jointsJ : list string) (i j : nat)
  : result (value * value * value) :=
  if (j =? 0)%nat && negb (bool_decide (Py.drop_last (name root) ∈ columns data)) then
    c0 ← index (children root) 0;
    c1 ← index (children root) 1;
    let RHip := Py.drop_last (name c0) in
    let LHip := Py.drop_last (name c1) in
    rz ← loc data i (RHip +:+ "_Z"); lz ← loc data i (LHip +:+ "_Z");
    jointCoordX ← midpoint rz lz;
    rx ← loc data i (RHip +:+ "_X"); lx ← loc data i (LHip +:+ "_X");
    jointCoordY ← midpoint rx lx;
    ry ← loc data i (RHip +:+ "_Y"); ly ← loc data i (LHip +:+ "_Y");
    jointCoordZ ← midpoint ry ly;
    mret (jointCoordX, jointCoordY, jointCoordZ)
  else
    joint_j ← index jointsJ j;
    let jnt := jnt_of joint_j in
    jointCoordX ← loc data i (jnt +:+ "_Z");
    jointCoordY ← loc data i (jnt +:+ "_X");
    jointCoordZ ← loc data i (jnt +:+ "_Y");
    mret (jointCoordX, jointCoordY, jointCoordZ).

(** Lines 170-177: the joints are created along the tree, then listed by
    a hierarchical selection from the root joint. *)
Definition create_joints (str_cnt : string) : M (list string) :=
  cmds.select None false ;;
  cmds.joint (name root +:+ str_cnt) ;;
  for_each (RenderTree root) (fun '(parent, node) =>
    if decide (name node ≠ name root) then
      cmds.select (Some (from_option name "" parent +:+ str_cnt)) false ;;
      cmds.joint (name node +:+ str_cnt)
    else mret tt) ;;
  cmds.select (Some ("CHipJ" +:+ str_cnt)) true ;;
  cmds.ls_sl.

(** Lines 181-193: one frame's placement of every joint. *)
Definition place_joints (data : DataFrame value) (jointsJ : list string) (i : nat)
  : M unit :=
  for_each (range 0 (length jointsJ)) (fun j =>
    '(x, y, z) ← lift (jointCoord data jointsJ i j);
    joint_j ← lift (index jointsJ j);
    cmds.move x y z joint_j ;;
    joint_j ← lift (index jointsJ j);
    cmds.setKeyframe joint_j i).

(** Lines 195-197: the orientation pass. *)
Definition orient_joints (jointsJ : list string) (i : nat) : M unit :=
  for_each (range 1 (length jointsJ)) (fun j =>
    joint_j ← lift (index jointsJ j);
    parent ← cmds.listRelatives_parent joint_j;
    cmds.joint_orient parent ;;
    joint_j ← lift (index jointsJ j);
    cmds.setKeyframe joint_j i).

(** Lines 180-197: the frame loop. *)
Definition animate_joints (data : DataFrame value) (jointsJ : list string)
    (numFrames : nat) : M unit :=
  for_each (range 0 numFrames) (fun i =>
    place_joints data jointsJ i ;;
    if (i =? 0)%nat then orient_joints jointsJ i else mret tt).

Definition set_skeleton (data : DataFrame value) (str_cnt : string)
    (numFrames : nat) : M unit :=
  jointsJ ← create_joints str_cnt;
  animate_joints data jointsJ numFrames.

(** ** What a run leaves in the log

    The commands a pass sends when nothing raises, written out as lists;
    the theorems below relate the log of a run to them. *)

(** The host after receiving the commands [cs] that only get logged. *)
Definition emit_all (cs : list call) (h : host) : host :=
  mkHost (nodes h) (selection h) (log h ++ cs).

(** The commands a run adds to the log. *)
Definition run_log {A} (m : M A) (h : host) : list call :=
  drop (length (log h)) (log (m h).1).

(** What a command adds to the log, whatever else it does. *)
Definition logs {A} (Q : call → Prop) (m : M A) : Prop :=
  ∀ h, ∃ cs, log (m h).1 = log h ++ cs ∧ Forall Q cs.

(** One frame of [place_joints]: a move and a keyframe for each joint. *)
Definition placement (data : DataFrame value) (jointsJ : list string) (i : nat)
  : list call :=
  flat_map (fun j =>
    match jointCoord data jointsJ i j, jointsJ !! j with
    | inr (x, y, z), Some joint_j => [move x y z joint_j; setKeyframe joint_j i]
    | _, _ => []
    end) (range 0 (length jointsJ)).

(** The orientation pass: an orientation of the parent and a keyframe for
    each joint but the first. *)
Definition orientation (ns : list (string * option string)) (jointsJ : list string)
    (i : nat) : list call :=
  flat_map (fun joint_j =>
    [joint_orient (cmds.parent_of ns joint_j); setKeyframe joint_j i])
    (tail jointsJ).

Definition is_orient (c : call) : bool :=
  match c with
  | joint_orient _ => true
  | _ => false
  end.

Definition not_orient (c : call) : Prop := is_orient c = false.

(** The number of orientation commands in a list of commands. *)
Definition orientations (cs : list call) : nat := length (List.filter is_orient cs).

(** The objects moved by a list of commands, in order. *)
Definition moved (cs : list call) : list string :=
  omap (fun c => match c with move _ _ _ obj => Some obj | _ => None end) cs.

(** The columns [jointCoord] reads to place joint [j]. *)
Definition required_columns (data : DataFrame value) (jointsJ : list string) (j : nat)
  : list string :=
  if (j =? 0)%nat && negb (bool_decide (Py.drop_last (name root) ∈ columns data)) then
    ["RHip_Z"; "LHip_Z"; "RHip_X"; "LHip_X"; "RHip_Y"; "LHip_Y"]
  else
    match jointsJ !! j with
    | Some joint_j =>
        [jnt_of joint_j +:+ "_Z"; jnt_of joint_j +:+ "_X"; jnt_of joint_j +:+ "_Y"]
    | None => []
    end.

(** The exceptions of the coordinate lookup of lines 182-191: a label
    that is no column or a frame that is no row ([KeyError]), or hip
    samples that [np.add(...) / 2] does not accept ([TypeError]). *)
Definition lookup_error (e : exn) : Prop := e = KeyError ∨ e = TypeError.

(** The scene and the joint list [set_skeleton] works with once the
    joints are created. *)
Definition created (str_cnt : string) (h : host) : host := (create_joints str_cnt h).1.
Definition jointsJ_of (str_cnt : string) (h : host) : list string :=
  selection (created str_cnt h).
#[global] Arguments create_joints : simpl never.
#[global] Arguments created : simpl never.
#[global] Arguments jointsJ_of : simpl never.

(** The joints of the hierarchy with their parents, the same under the
    suffix of an import, and the joint names in pre-order. *)
Definition tree_scene : list (string * option string) :=
  map (fun '(parent, node) => (name node, name <$> parent)) (RenderTree root).

Definition suffixed (str_cnt : string) (x : string * option string)
  : string * option string :=
  (x.1 +:+ str_cnt, (fun p => p +:+ str_cnt) <$> x.2).

Definition joint_names : list string := map (fun pn => name pn.2) (RenderTree root).

(** ** Tables

    The suffixes of the column names, and the tables used below. *)

Definition axis_suffix (s : string) : Prop := s = "_X" ∨ s = "_Y" ∨ s = "_Z".

(** A table with no column and no frame. *)
Definition empty_table : DataFrame value := mkDataFrame [] [].

(** A one-frame table with a root marker: CHip at (1,2,3), RHip at
    (10,20,30), LHip at (30,40,50), in file column order. *)
Definition table_with_root : DataFrame value :=
  mkDataFrame (labels_XYZ ["CHip"; "RHip"; "LHip"])
    [map F64 [1; 2; 3; 10; 20; 30; 30; 40; 50]%float].

(** A two-frame table with every marker of the hierarchy: each marker is
    at (1,2,3) at frame 0 and at (4,5,6) at frame 1, in file column order. *)
Definition body_25b_labels : list string :=
  map (fun pn => Py.drop_last (name pn.2)) (RenderTree root).

Definition body_25b_table : DataFrame value :=
  mkDataFrame (labels_XYZ body_25b_labels)
    [flat_map (fun _ => map F64 [1; 2; 3]%float) body_25b_labels;
     flat_map (fun _ => map F64 [4; 5; 6]%float) body_25b_labels].

(** ** Trajectory files, as text

    A line written from its fields, and the files used below. *)

(** ["\t".join(fields)] *)
Fixpoint join_tab (fields : list string) : string :=
  match fields with
  | [] => ""
  | [f] => f
  | f :: fs => f +:+ String Csv.tab (join_tab fs)
  end.

(** No character of [s] is a tab. *)
Fixpoint tab_free (s : string) : bool :=
  match s with
  | EmptyString => true
  | String c s' => negb (Ascii.eqb c Csv.tab) && tab_free s'
  end.

(** The fields of the column header line: [Frame#], [Time], then each
    marker label followed by two empty fields. *)
Definition header_fields (labels : list string) : list string :=
  "Frame#" :: "Time" :: flat_map (fun l => [l; ""; ""]) labels.

(** The names pandas gives these fields before any de-duplication. *)
Definition header_names (labels : list string) : list string :=
  imap Csv.unnamed (header_fields labels).

Definition banner_line : string := join_tab ["PathFileType"; "4"; "(X/Y/Z)"; "walk.trc"].
Definition keys_line : string :=
  join_tab ["DataRate"; "CameraRate"; "NumFrames"; "NumMarkers"; "Units";
            "OrigDataRate"; "OrigDataStartFrame"; "OrigNumFrames"].
Definition values_line (numFrames numMarkers : string) : string :=
  join_tab ["60"; "60"; numFrames; numMarkers; "m"; "60"; "0"; numFrames].

(** One marker, one frame, laid out with row 4 blank, row 5 the column
    headers, row 6 the sub-labels and row 7 the frame. *)
Definition blank_row4_file : list string :=
  [ banner_line;
    keys_line;
    values_line "1" "1";
    "";
    join_tab (header_fields ["M1"]);
    join_tab [""; ""; "X1"; "Y1"; "Z1"];
    join_tab ["1"; "0.0"; "0.1"; "0.2"; "0.3"] ].

(** One marker, two frames, with row 4 the column headers, row 5 the
    sub-labels, row 6 blank and the frames from row 7. *)
Definition one_marker_file (keys values : string) : list string :=
  [ banner_line;
    keys;
    values;
    join_tab (header_fields ["M1"]);
    join_tab [""; ""; "X1"; "Y1"; "Z1"];
    "";
    join_tab ["1"; "0.0"; "0.1"; "0.2"; "0.3"];
    join_tab ["2"; "0.5"; "1.1"; "1.2"; "1.3"] ].

(** The same file announcing seven markers, under keys that are not the
    expected ones. *)
Definition bad_metadata_file : list string :=
  one_marker_file (join_tab ["Rate"; "Markers"]) (join_tab ["60"; "7"]).

(** The table read from [one_marker_file] and from [bad_metadata_file]. *)
Definition one_marker_table : DataFrame Csv.cell :=
  mkDataFrame ["M1_X"; "M1_Y"; "M1_Z"]
    [[Csv.Field "0.1"; Csv.Field "0.2"; Csv.Field "0.3"];
     [Csv.Field "1.1"; Csv.Field "1.2"; Csv.Field "1.3"]].

(** Two markers, one frame, the column header line ending with the
    second label; and the table read from it. *)
Definition short_header_file : list string :=
  [ banner_line;
    keys_line;
    values_line "1" "2";
    join_tab (header_fields ["A"] ++ ["B"]);
    join_tab [""; ""; "X1"; "Y1"; "Z1"; "X2"; "Y2"; "Z2"];
    join_tab ["1"; "0.0"; "1"; "2"; "3"; "4"; "5"; "6"] ].

Definition short_header_table : DataFrame Csv.cell :=
  mkDataFrame ["A_X"; "A_Y"; "A_Z"] [[Csv.Field "1"; Csv.Field "2"; Csv.Field "3"]].

(** ** What [set_markers] leaves in the log *)

(** Lines 143-147: a sphere for the first label, an instance of it for
    each of the others. *)
Definition creation_calls (labels : list string) : list call :=
  match labels with
  | [] => []
  | l_0 :: rest => polySphere l_0 :: map (instance l_0) rest
  end.

(** Lines 150-153 for one frame: three keyframes for each marker. *)
Definition marker_keys (data : DataFrame value) (labels : list string) (i : nat)
  : list call :=
  flat_map (fun j =>
    match labels !! j, iloc data i (3 * j + 2), iloc data i (3 * j),
          iloc data i (3 * j + 1) with
    | Some l_j, inr x, inr y, inr z =>
        [setKeyframe_at l_j i "translateX" x;
         setKeyframe_at l_j i "translateY" y;
         setKeyframe_at l_j i "translateZ" z]
    | _, _, _, _ => []
    end) (range 0 (length labels)).

(** A command that changes nothing in the scene but its log. *)
Definition only_logs {A} (m : M A) : Prop :=
  ∀ h, ∃ cs, (m h).1 = emit_all cs h.

(** ** Where the log places a joint

    The commands of one round of the placement loop (lines 182-193), of
    one frame (lines 181-197), and the statement that the log of
    [set_skeleton] places a joint at a position. *)

Definition joint_calls (data : DataFrame value) (jointsJ : list string) (i j : nat)
  : list call :=
  match jointCoord data jointsJ i j, jointsJ !! j with
  | inr (x, y, z), Some joint_j => [move x y z joint_j; setKeyframe joint_j i]
  | _, _ => []
  end.

Definition frame_log (data : DataFrame value) (jointsJ : list string)
    (ns : list (string * option string)) (i : nat) : list call :=
  placement data jointsJ i
  ++ if (i =? 0)%nat then orientation ns jointsJ 0 else [].

(** Joint number [j], named [joint], is placed at [(x, y, z)] at frame
    [i]: after the creation of the joints, the frames before [i] and the
    joints before [j] of frame [i], the log goes on with the move of the
    joint to [(x, y, z)] and its keyframe at [i]. *)
Definition joint_placed (data : DataFrame value) (s : string) (numFrames : nat)
    (h : host) (i j : nat) (x y z : value) (joint : string) : Prop :=
  ∃ post,
    run_log (set_skeleton data s numFrames) h
    = run_log (create_joints s) h
      ++ flat_map (frame_log data (jointsJ_of s h) (nodes (created s h))) (range 0 i)
      ++ flat_map (joint_calls data (jointsJ_of s h) i) (range 0 j)
      ++ move x y z joint :: setKeyframe joint i :: post.

(** ** Tables [set_skeleton] can animate *)

(** The samples of the two hip markers are numbers: no cell of their
    columns is text. *)
Definition hips_numeric (data : DataFrame value) : Prop :=
  ∀ c i v, c ∈ ["RHip_Z"; "LHip_Z"; "RHip_X"; "LHip_X"; "RHip_Y"; "LHip_Y"] →
           loc data i c = inr v → numeric v = true.

(** The table has the three columns of each of its labels, a cell for
    every column in every row, the marker of every joint below the root
    among its labels, and numbers as hip samples. *)
Definition animable (data : DataFrame value) (labels : list string) : Prop :=
  columns data = labels_XYZ labels
  ∧ NoDup labels
  ∧ (∀ row, row ∈ rows data → length row = 3 * length labels)
  ∧ (∀ n, n ∈ tail joint_names → Py.drop_last n ∈ labels)
  ∧ hips_numeric data.

(** No object of the scene is a child of one of the names the joints of
    the import [s] get. *)
Definition clash_free (s : string) (h : host) : Prop :=
  ∀ x p, x ∈ nodes h → x.2 = Some p → p ∉ map (fun n => n +:+ s) joint_names.

(** ** The average of two samples

    The componentwise average the specification asks for, as a binary64:
    of two [float64] samples, [(a + b) / 2]; of two [int64] samples, the
    double nearest to their exact sum, halved.  [exact_sum] says that the
    sum of two [int64] samples is itself an [int64]. *)
Definition average (a b : value) : option float :=
  match a, b with
  | F64 x, F64 y => Some ((x + y) / 2)%float
  | I64 x, I64 y => Some (np.float_of_Z (x + y) / 2)%float
  | _, _ => None
  end.

Definition exact_sum (a b : value) : Prop :=
  match a, b with
  | I64 x, I64 y => (- 2 ^ 63 ≤ x + y < 2 ^ 63)%Z
  | _, _ => True
  end.

(** A one-frame table of [int64] samples with RHip and LHip at
    (0, 0, 2^62), in file column order. *)
Definition int64_hips_table : DataFrame value :=
  mkDataFrame (labels_XYZ ["RHip"; "LHip"])
    [map I64 [0; 0; 2 ^ 62; 0; 0; 2 ^ 62]%Z].

(** A one-frame table with every marker of the hierarchy at (1,2,3),
    except CHip at (7,8,9), in file column order. *)
Definition body_25b_table_CHip : DataFrame value :=
  mkDataFrame (labels_XYZ body_25b_labels)
    [flat_map (fun l => if decide (l = "CHip") then map F64 [7; 8; 9]%float
                        else map F64 [1; 2; 3]%float) body_25b_labels].

(** A one-frame table of text cells, as [read_csv] leaves a file whose
    first data line is a line of sub-labels: RHip and LHip at
    ("X1","Y1","Z1") and ("X2","Y2","Z2"). *)
Definition text_hips_table : DataFrame value :=
  mkDataFrame (labels_XYZ ["RHip"; "LHip"])
    [map Str ["X1"; "Y1"; "Z1"; "X2"; "Y2"; "Z2"]].

(** One round of the placement loop of [place_joints], and one round of
    the frame loop of [animate_joints]. *)
Definition place_joint (data : DataFrame value) (jointsJ : list string) (i j : nat)
  : M unit :=
  '(x, y, z) ← lift (jointCoord data jointsJ i j);
  joint_j ← lift (index jointsJ j);
  cmds.move x y z joint_j ;;
  joint_j ← lift (index jointsJ j);
  cmds.setKeyframe joint_j i.

Definition animate_frame (data : DataFrame value) (jointsJ : list string) (i : nat)
  : M unit :=
  place_joints data jointsJ i ;;
  if (i =? 0)%nat then orient_joints jointsJ i else mret tt.

(** * Properties *)

(** ** Strings *)

Section py_strings.

Lemma append_String (c : ascii) (s t : string) :
  String c s +:+ t = String c (s +:+ t).
Proof. reflexivity. Qed.

Lemma re_sub_digits_app (a b : string) :
  Py.re_sub_digits (a +:+ b) = Py.re_sub_digits a +:+ Py.re_sub_digits b.
Proof.
  induction a as [|c a IH]; simpl; [reflexivity|].
  rewrite IH. destruct (Py.is_digit c); reflexivity.
Qed.

Lemma re_sub_digits_no_digit (s : string) :
  Py.no_digit s = true → Py.re_sub_digits s = s.
Proof.
  induction s as [|c s IH]; simpl; [reflexivity|].
  intros [Hc Hs]%andb_true_iff.
  destruct (Py.is_digit c); [discriminate|]. by rewrite IH.
Qed.

Lemma re_sub_digits_uint (d : Decimal.uint) :
  Py.re_sub_digits (NilEmpty.string_of_uint d) = "".
Proof. induction d; simpl; assumption || reflexivity. Qed.

Lemma re_sub_digits_str (n : nat) : Py.re_sub_digits (Py.str n) = "".
Proof. apply re_sub_digits_uint. Qed.

Lemma drop_last_snoc (s : string) (c : ascii) :
  Py.drop_last (s +:+ String c "") = s.
Proof.
  induction s as [|c' s IH]; simpl; [reflexivity|].
  rewrite IH. destruct s; reflexivity.
Qed.

Lemma app_empty_r (s : string) : s +:+ "" = s.
Proof.
  induction s as [|c s IH]; [reflexivity|]. by rewrite append_String, IH.
Qed.

End py_strings.

(** ** Label de-duplication *)

Lemma probe_bounds (objs labels : list string) (cnt : nat) :
  cnt ≤ probe objs labels cnt ≤ cnt + length labels.
Proof.
  revert cnt. induction labels as [|l labels IH]; intros cnt; simpl; [lia|].
  destruct (collides objs l cnt).
  - specialize (IH (S cnt)). lia.
  - specialize (IH cnt). lia.
Qed.

(** C10: [increment_labels] is one structural pass over [labels]; the
    counter it returns is the decimal numeral of some [n] with
    [1 <= n <= len(labels) + 1], whatever names the scene holds. *)
Theorem increment_labels_counter_bounds (objs labels : list string) :
  ∃ n : nat,
    increment_labels objs labels = (Py.str n, map (fun l => l +:+ Py.str n) labels)
    ∧ n = probe objs labels 1
    ∧ 1 ≤ n ≤ length labels + 1.
Proof.
  exists (probe objs labels 1). split; [reflexivity|]. split; [reflexivity|].
  pose proof (probe_bounds objs labels 1). lia.
Qed.

(** C1 (failing input): with ["A1"] and ["A2"] already in the scene, the
    single label ["A"] gets counter 2 and the adjusted label ["A2"], which
    is one of the existing names. *)
Theorem increment_labels_collision :
  let objs := ["A1"; "A2"] in
  increment_labels objs ["A"] = ("2", ["A2"]) ∧ "A2" ∈ objs.
Proof.
  split; [reflexivity|]. set_solver.
Qed.

(** ** Name normalization *)

(** C7 (as stated, refuted): a label with digits loses them; the joint of
    marker ["T10"] in import 1 is normalized to ["T"]. *)
Lemma jnt_of_digit_label :
  ¬ (∀ (label : string) (n : nat), jnt_of ((label +:+ "J") +:+ Py.str n) = label).
Proof. intros H. specialize (H "T10" 1). discriminate H. Qed.

(** C7 (amended): for a marker label without digit characters, the joint
    name [label + 'J' + str(n)] is normalized back to [label]. *)
Theorem jnt_of_joint_name (label : string) (n : nat) :
  Py.no_digit label = true →
  jnt_of ((label +:+ "J") +:+ Py.str n) = label.
Proof.
  intros Hl. unfold jnt_of.
  rewrite !re_sub_digits_app, re_sub_digits_str, app_empty_r.
  rewrite (re_sub_digits_no_digit label Hl). simpl.
  apply drop_last_snoc.
Qed.

Lemma jnt_of_joint_name_witness :
  Py.no_digit "CHip" = true ∧ jnt_of (("CHip" +:+ "J") +:+ Py.str 12) = "CHip".
Proof.
  split; [reflexivity|]. apply (jnt_of_joint_name "CHip" 12). reflexivity.
Defined.

(** ** Running commands in the scene *)

Section runs.

Lemma emit_all_nil (h : host) : emit_all [] h = h.
Proof. destruct h. unfold emit_all. simpl. by rewrite app_nil_r. Qed.

Lemma log_emit_all (cs : list call) (h : host) : log (emit_all cs h) = log h ++ cs.
Proof. reflexivity. Qed.

Lemma emit_all_app (cs1 cs2 : list call) (h : host) :
  emit_all cs2 (emit_all cs1 h) = emit_all (cs1 ++ cs2) h.
Proof. unfold emit_all. simpl. by rewrite app_assoc. Qed.

Lemma bind_inr {A B} (m : M A) (f : A → M B) (h h' : host) (x : A) :
  m h = (h', inr x) → (m ≫= f) h = f x h'.
Proof. intros H. unfold mbind, M_bind. by rewrite H. Qed.

Lemma bind_inl {A B} (m : M A) (f : A → M B) (h h' : host) (e : exn) :
  m h = (h', inl e) → (m ≫= f) h = (h', inl e).
Proof. intros H. unfold mbind, M_bind. by rewrite H. Qed.

Lemma for_each_app {A} (xs ys : list A) (body : A → M unit) (h : host) :
  for_each (xs ++ ys) body h = (for_each xs body ;; for_each ys body) h.
Proof.
  revert h. induction xs as [|x xs IH]; intros h; [reflexivity|].
  simpl. unfold mbind, M_bind in *.
  destruct (body x h) as [h1 [e|[]]]; [reflexivity|]. apply IH.
Qed.

(** A loop whose every round only logs [calls x] logs them all in order. *)
Lemma for_each_ok {A} (P : host → Prop) (xs : list A) (body : A → M unit)
    (calls : A → list call) :
  (∀ h cs, P h → P (emit_all cs h)) →
  (∀ x h, x ∈ xs → P h → body x h = (emit_all (calls x) h, inr tt)) →
  ∀ h, P h → for_each xs body h = (emit_all (flat_map calls xs) h, inr tt).
Proof.
  intros HP. induction xs as [|x xs IH]; intros Hbody h Hh; simpl.
  - by rewrite emit_all_nil.
  - erewrite bind_inr; [|apply Hbody; [left|done]].
    rewrite IH; [by rewrite emit_all_app| |by apply HP].
    intros y h' Hy. apply Hbody. by right.
Qed.

(** The loop stops at the first round that raises. *)
Lemma for_each_raise {A} (P : host → Prop) (pre post : list A) (y : A)
    (body : A → M unit) (calls : A → list call) (cs : list call) (e : exn) :
  (∀ h cs, P h → P (emit_all cs h)) →
  (∀ x h, x ∈ pre → P h → body x h = (emit_all (calls x) h, inr tt)) →
  (∀ h, P h → body y h = (emit_all cs h, inl e)) →
  ∀ h, P h →
    for_each (pre ++ y :: post) body h
    = (emit_all (flat_map calls pre ++ cs) h, inl e).
Proof.
  intros HP Hpre Hy h Hh. rewrite for_each_app.
  erewrite bind_inr; [|by apply (for_each_ok P)].
  simpl. erewrite bind_inl; [|apply Hy; by apply HP].
  by rewrite emit_all_app.
Qed.

Lemma logs_ret {A} (Q : call → Prop) (x : A) : logs Q (mret x).
Proof. intros h. exists []. simpl. by rewrite app_nil_r. Qed.

Lemma logs_lift {A} (Q : call → Prop) (r : result A) : logs Q (lift r).
Proof. intros h. exists []. simpl. by rewrite app_nil_r. Qed.

Lemma logs_bind {A B} (Q : call → Prop) (m : M A) (f : A → M B) :
  logs Q m → (∀ x, logs Q (f x)) → logs Q (m ≫= f).
Proof.
  intros Hm Hf h. destruct (Hm h) as (cs1 & E1 & Q1).
  unfold mbind, M_bind. destruct (m h) as [h1 [e|x]]; simpl in *.
  - by exists cs1.
  - destruct (Hf x h1) as (cs2 & E2 & Q2). exists (cs1 ++ cs2).
    rewrite E2, E1, app_assoc. split; [done|]. by apply Forall_app.
Qed.

Lemma logs_for_each {A} (Q : call → Prop) (xs : list A) (body : A → M unit) :
  (∀ x, x ∈ xs → logs Q (body x)) → logs Q (for_each xs body).
Proof.
  induction xs as [|x xs IH]; intros H; simpl; [apply logs_ret|].
  apply logs_bind; [apply H; by left|]. intros _. apply IH.
  intros y Hy. apply H. by right.
Qed.

Lemma logs_emit (Q : call → Prop) (c : call) (m : M unit) :
  (∀ h, log (m h).1 = log h ++ [c]) → Q c → logs Q m.
Proof. intros Hm Hc h. exists [c]. split; [apply Hm|]. by constructor. Qed.


(** A loop of rounds that never raise never raises. *)
Lemma for_each_total {A} (xs : list A) (body : A → M unit) (h : host) :
  (∀ x h, x ∈ xs → (body x h).2 = inr tt) → (for_each xs body h).2 = inr tt.
Proof.
  revert h. induction xs as [|x xs IH]; intros h H; [reflexivity|].
  simpl. unfold mbind, M_bind.
  pose proof (H x h ltac:(by left)) as Hx.
  destruct (body x h) as [h1 [e|[]]]; simpl in Hx; [discriminate|].
  apply IH. intros y h' Hy. apply H. by right.
Qed.

(** In a loop whose rounds raise nothing but [e], a round that always
    raises makes the loop raise [e]. *)
Lemma for_each_some_raise {A} (xs : list A) (body : A → M unit) (e : exn) (y : A) :
  (∀ x h, x ∈ xs → (body x h).2 = inr tt ∨ (body x h).2 = inl e) →
  y ∈ xs → (∀ h, (body y h).2 = inl e) →
  ∀ h, (for_each xs body h).2 = inl e.
Proof.
  induction xs as [|x xs IH]; intros Hall Hy Hraise h.
  - by apply elem_of_nil in Hy.
  - simpl. unfold mbind, M_bind.
    destruct (Hall x h ltac:(by left)) as [Hx|Hx];
      destruct (body x h) as [h1 [e'|[]]] eqn:E; simpl in Hx; try discriminate.
    + apply elem_of_cons in Hy as [->|Hy].
      * specialize (Hraise h). rewrite E in Hraise. discriminate.
      * apply IH; [|done|done]. intros z h' Hz. apply Hall. by right.
    + simpl. congruence.
Qed.

End runs.

(** ** Column labels and positions *)

Section columns.

Lemma append_length (a b : string) :
  String.length (a +:+ b) = String.length a + String.length b.
Proof.
  induction a as [|c a IH]; [reflexivity|].
  rewrite append_String. simpl. by rewrite IH.
Qed.

Lemma append_inj_len (a b s t : string) :
  String.length s = String.length t → a +:+ s = b +:+ t → a = b ∧ s = t.
Proof.
  intros Hlen. revert b. induction a as [|c a IH]; intros [|c' b] H.
  - done.
  - exfalso. change ("" +:+ s) with s in H. subst s.
    rewrite append_String in Hlen. simpl in Hlen. rewrite append_length in Hlen. lia.
  - exfalso. change ("" +:+ t) with t in H. subst t.
    rewrite append_String in Hlen. simpl in Hlen. rewrite append_length in Hlen. lia.
  - rewrite !append_String in H. injection H as Hc H. subst c'.
    destruct (IH b H) as [-> ->]. done.
Qed.

Lemma axis_label_inj (l m s t : string) :
  axis_suffix s → axis_suffix t → l +:+ s = m +:+ t → l = m ∧ s = t.
Proof.
  intros Hs Ht. apply append_inj_len.
  destruct Hs as [-> | [-> | ->]], Ht as [-> | [-> | ->]]; reflexivity.
Qed.

(** No column of a parsed table carries the bare root label. *)
Lemma root_label_not_a_column (labels : list string) :
  Py.drop_last (name root) ∉ labels_XYZ labels.
Proof.
  change (Py.drop_last (name root)) with ("CH" +:+ "ip").
  unfold labels_XYZ. intros H. apply list_elem_of_In, in_flat_map in H.
  destruct H as (l & _ & Hl). simpl in Hl.
  destruct Hl as [H|[H|[H|[]]]];
    apply append_inj_len in H; try reflexivity; destruct H as [_ H]; discriminate H.
Qed.

Lemma get_loc_cons_ne (c x : string) (cols : list string) :
  x ≠ c → get_loc (x :: cols) c = S <$> get_loc cols c.
Proof.
  intros Hne. unfold get_loc. simpl. rewrite decide_False by done.
  destruct (list_find _ cols) as [[k y]|]; reflexivity.
Qed.

Lemma get_loc_cons_eq (c : string) (cols : list string) :
  get_loc (c :: cols) c = Some 0.
Proof. unfold get_loc. simpl. by rewrite decide_True. Qed.

Lemma get_loc_None (c : string) (cols : list string) :
  c ∉ cols → get_loc cols c = None.
Proof.
  intros Hc. unfold get_loc.
  destruct (list_find _ cols) as [[k y]|] eqn:E; [|reflexivity].
  apply list_find_Some in E as (Hk & -> & _).
  exfalso. apply Hc. by eapply list_elem_of_lookup_2.
Qed.

Lemma get_loc_Some (c : string) (cols : list string) (k : nat) :
  get_loc cols c = Some k → cols !! k = Some c.
Proof.
  unfold get_loc. destruct (list_find _ cols) as [[k' y]|] eqn:E; [|discriminate].
  intros [= <-]. by apply list_find_Some in E as (Hk & -> & _).
Qed.

(** In a table laid out by [labels_XYZ], the three columns of the marker
    at position [k] are at positions [3k], [3k+1], [3k+2]. *)
Lemma get_loc_labels_XYZ (labels : list string) (k : nat) (m : string) :
  NoDup labels → labels !! k = Some m →
  get_loc (labels_XYZ labels) (m +:+ "_X") = Some (3 * k)
  ∧ get_loc (labels_XYZ labels) (m +:+ "_Y") = Some (3 * k + 1)
  ∧ get_loc (labels_XYZ labels) (m +:+ "_Z") = Some (3 * k + 2).
Proof.
  intros Hnd. revert k. induction Hnd as [|l labels Hl Hnd IH]; intros k Hk.
  - discriminate.
  - change (labels_XYZ (l :: labels))
      with ((l +:+ "_X") :: (l +:+ "_Y") :: (l +:+ "_Z") :: labels_XYZ labels).
    destruct k as [|k]; simpl in Hk.
    + injection Hk as Hk. subst m.
      assert (∀ s t, axis_suffix s → axis_suffix t → s ≠ t → l +:+ s ≠ l +:+ t) as Hd.
      { intros s t Hs Ht Hne H. by apply axis_label_inj in H as [_ ?]. }
      repeat split.
      * apply get_loc_cons_eq.
      * rewrite get_loc_cons_ne by (apply Hd; unfold axis_suffix; auto).
        by rewrite get_loc_cons_eq.
      * rewrite !get_loc_cons_ne by (apply Hd; unfold axis_suffix; auto).
        by rewrite get_loc_cons_eq.
    + assert (l ≠ m) as Hne.
      { intros ->. apply Hl. by eapply list_elem_of_lookup_2. }
      destruct (IH k Hk) as (HX & HY & HZ).
      assert (∀ s t, axis_suffix s → axis_suffix t → l +:+ s ≠ m +:+ t) as Hd.
      { intros s t Hs Ht H. by apply axis_label_inj in H as [? _]. }
      repeat split; rewrite !get_loc_cons_ne by (apply Hd; unfold axis_suffix; auto).
      * rewrite HX. simpl. f_equal. lia.
      * rewrite HY. simpl. f_equal. lia.
      * rewrite HZ. simpl. f_equal. lia.
Qed.

Lemma loc_at {A} (data : DataFrame A) (i k : nat) (c : string) (row : list A) (v : A) :
  get_loc (columns data) c = Some k → rows data !! i = Some row → row !! k = Some v →
  loc data i c = inr v.
Proof. intros Hc Hr Hv. unfold loc. by rewrite Hc, Hr, Hv. Qed.

Lemma loc_missing {A} (data : DataFrame A) (i : nat) (c : string) :
  c ∉ columns data → loc data i c = inl KeyError.
Proof. intros Hc. unfold loc. by rewrite get_loc_None. Qed.

Lemma loc_error {A} (data : DataFrame A) (i : nat) (c : string) (e : exn) :
  loc data i c = inl e → e = KeyError.
Proof.
  unfold loc, raise. destruct (get_loc _ c); [|congruence].
  destruct (rows data !! i) as [r|]; [|congruence].
  destruct (r !! _); congruence.
Qed.

Lemma loc_inr_column {A} (data : DataFrame A) (i : nat) (c : string) (v : A) :
  loc data i c = inr v → c ∈ columns data.
Proof.
  unfold loc. destruct (get_loc _ c) as [k|] eqn:E; [|discriminate].
  intros _. apply get_loc_Some in E. by eapply list_elem_of_lookup_2.
Qed.

End columns.

(** ** Joint coordinates *)

Section coordinates.

(** Lines 183-186 once the test of line 182 has chosen the synthesis. *)
Lemma jointCoord_root_synthesis (data : DataFrame value) (jointsJ : list string) (i : nat) :
  Py.drop_last (name root) ∉ columns data →
  jointCoord data jointsJ i 0
  = (rz ← loc data i "RHip_Z"; lz ← loc data i "LHip_Z";
     x ← midpoint rz lz;
     rx ← loc data i "RHip_X"; lx ← loc data i "LHip_X";
     y ← midpoint rx lx;
     ry ← loc data i "RHip_Y"; ly ← loc data i "LHip_Y";
     z ← midpoint ry ly;
     mret (x, y, z)).
Proof.
  intros H. unfold jointCoord. rewrite bool_decide_eq_false_2 by done. reflexivity.
Qed.

(** Lines 188-191 when the lookup is direct. *)
Lemma jointCoord_direct (data : DataFrame value) (jointsJ : list string) (i j : nat)
    (joint_j : string) :
  j ≠ 0 ∨ Py.drop_last (name root) ∈ columns data →
  jointsJ !! j = Some joint_j →
  jointCoord data jointsJ i j
  = (x ← loc data i (jnt_of joint_j +:+ "_Z");
     y ← loc data i (jnt_of joint_j +:+ "_X");
     z ← loc data i (jnt_of joint_j +:+ "_Y");
     mret (x, y, z)).
Proof.
  intros H Hj. unfold jointCoord, index. rewrite Hj.
  destruct H as [H|H].
  - destruct j; [done|]. reflexivity.
  - rewrite bool_decide_eq_true_2 by done. by rewrite andb_false_r.
Qed.

(** The sample of the marker at position [k] of a parsed table, by name. *)
Lemma loc_sample (data : DataFrame value) (labels : list string) (i k : nat)
    (m : string) (row : list value) (a b c : value) :
  columns data = labels_XYZ labels → NoDup labels → labels !! k = Some m →
  rows data !! i = Some row →
  row !! (3 * k) = Some a → row !! (3 * k + 1) = Some b → row !! (3 * k + 2) = Some c →
  loc data i (m +:+ "_X") = inr a
  ∧ loc data i (m +:+ "_Y") = inr b
  ∧ loc data i (m +:+ "_Z") = inr c.
Proof.
  intros Hcols Hnd Hk Hrow Ha Hb Hc.
  destruct (get_loc_labels_XYZ labels k m Hnd Hk) as (HX & HY & HZ).
  rewrite <- Hcols in HX, HY, HZ.
  repeat split; eapply loc_at; eauto.
Qed.

End coordinates.

(** C2 (failing input): the table has a CHip marker at (1,2,3), yet the
    root is placed at the midpoint of RHip and LHip, (40,20,30) after the
    axis remapping, and not at CHip's remapped sample (3,1,2): line 182
    looks for a column named ["CHip"], and the columns are named
    ["CHip_X"], ["CHip_Y"], ["CHip_Z"]. *)
Theorem root_marker_ignored :
  (loc table_with_root 0 "CHip_Z", loc table_with_root 0 "CHip_X",
   loc table_with_root 0 "CHip_Y") = (inr (F64 3), inr (F64 1), inr (F64 2))
  ∧ jointCoord table_with_root (jointsJ_of "1" host0) 0 0
    = inr (F64 40, F64 20, F64 30)
  ∧ run_log (set_skeleton table_with_root "1" 1) host0 !! 45
    = Some (move (F64 40) (F64 20) (F64 30) "CHipJ1").
Proof. repeat split; vm_compute; reflexivity. Qed.

(** Every table the parser lays out sends the root to the synthesis of
    lines 183-186, with or without a CHip marker. *)
Lemma root_always_synthesized (data : DataFrame value) (labels jointsJ : list string)
    (i : nat) :
  columns data = labels_XYZ labels →
  jointCoord data jointsJ i 0
  = (rz ← loc data i "RHip_Z"; lz ← loc data i "LHip_Z";
     x ← midpoint rz lz;
     rx ← loc data i "RHip_X"; lx ← loc data i "LHip_X";
     y ← midpoint rx lx;
     ry ← loc data i "RHip_Y"; ly ← loc data i "LHip_Y";
     z ← midpoint ry ly;
     mret (x, y, z)).
Proof.
  intros Hcols. apply jointCoord_root_synthesis.
  rewrite Hcols. apply root_label_not_a_column.
Qed.

(** ** Creating the joints *)

Section creation.

Lemma bind_total {B} (m : M unit) (k : unit → M B) (h : host) :
  (m h).2 = inr tt → (m ≫= k) h = k tt (m h).1.
Proof.
  intros H. unfold mbind, M_bind. destruct (m h) as [h' [e|[]]]; simpl in *;
    [discriminate|reflexivity].
Qed.

Lemma hierarchy_head (fuel : nat) (ns : list (string * option string)) (n : string) :
  ∃ tl, cmds.hierarchy fuel ns n = n :: tl.
Proof. destruct fuel; simpl; eauto. Qed.

(** Creating the joints never raises; it ends with the hierarchical
    selection from the root joint and returns that selection. *)
Lemma create_joints_selection (str_cnt : string) (h : host) :
  ∃ h3 : host,
    create_joints str_cnt h
    = (mkHost (nodes h3)
         (cmds.hierarchy (length (nodes h3)) (nodes h3) ("CHipJ" +:+ str_cnt))
         (log h3 ++ [select (Some ("CHipJ" +:+ str_cnt)) true]),
       inr (cmds.hierarchy (length (nodes h3)) (nodes h3) ("CHipJ" +:+ str_cnt))).
Proof.
  unfold create_joints.
  rewrite bind_total by reflexivity.
  rewrite bind_total by reflexivity.
  rewrite bind_total.
  2:{ apply for_each_total. intros [p n] h' _. by destruct (decide _). }
  rewrite bind_total by reflexivity.
  eexists. reflexivity.
Qed.

Lemma create_joints_run (str_cnt : string) (h : host) :
  create_joints str_cnt h = (created str_cnt h, inr (jointsJ_of str_cnt h)).
Proof.
  unfold jointsJ_of, created.
  destruct (create_joints_selection str_cnt h) as [h3 ->]. reflexivity.
Qed.

Lemma jointsJ_of_head (str_cnt : string) (h : host) :
  ∃ tl, jointsJ_of str_cnt h = ("CHipJ" +:+ str_cnt) :: tl.
Proof.
  unfold jointsJ_of, created.
  destruct (create_joints_selection str_cnt h) as [h3 ->]. apply hierarchy_head.
Qed.

End creation.

(** ** Missing markers *)

Section missing.

Lemma for_each_only_in {A} (E : exn → Prop) (xs : list A) (body : A → M unit) :
  (∀ x h, x ∈ xs → (body x h).2 = inr tt ∨ ∃ e, (body x h).2 = inl e ∧ E e) →
  ∀ h, (for_each xs body h).2 = inr tt ∨ ∃ e, (for_each xs body h).2 = inl e ∧ E e.
Proof.
  induction xs as [|x xs IH]; intros Hall h; [by left|].
  simpl. unfold mbind, M_bind.
  destruct (Hall x h ltac:(by left)) as [Hx|(e & Hx & He)];
    destruct (body x h) as [h1 [e'|[]]]; simpl in Hx; try discriminate.
  - apply IH. intros y h' Hy. apply Hall. by right.
  - right. exists e. simpl. split; [congruence|done].
Qed.

Lemma for_each_some_raise_in {A} (E : exn → Prop) (xs : list A) (body : A → M unit)
    (y : A) :
  (∀ x h, x ∈ xs → (body x h).2 = inr tt ∨ ∃ e, (body x h).2 = inl e ∧ E e) →
  y ∈ xs → (∀ h, ∃ e, (body y h).2 = inl e ∧ E e) →
  ∀ h, ∃ e, (for_each xs body h).2 = inl e ∧ E e.
Proof.
  induction xs as [|x xs IH]; intros Hall Hy Hraise h.
  - by apply elem_of_nil in Hy.
  - simpl. unfold mbind, M_bind.
    destruct (Hall x h ltac:(by left)) as [Hx|(e & Hx & He)];
      destruct (body x h) as [h1 [e'|[]]] eqn:Eb; simpl in Hx; try discriminate.
    + apply elem_of_cons in Hy as [->|Hy].
      * destruct (Hraise h) as (e & He & _). rewrite Eb in He. discriminate.
      * apply IH; [|done|done]. intros z h' Hz. apply Hall. by right.
    + exists e. simpl. split; [congruence|done].
Qed.

Lemma to_float64_error (v : value) (e : exn) : np.to_float64 v = inl e → e = TypeError.
Proof. destruct v; first [discriminate | by intros [= <-]]. Qed.

Lemma add_error (a b : value) (e : exn) : np.add a b = inl e → e = TypeError.
Proof. destruct a, b; first [discriminate | by intros [= <-]]. Qed.

(** [np.add(a, b) / 2] raises nothing but [TypeError]. *)
Lemma midpoint_error (a b : value) (e : exn) : midpoint a b = inl e → e = TypeError.
Proof.
  unfold midpoint, mbind, result_bind.
  destruct (np.add a b) as [e'|sum] eqn:Ea.
  - intros [= <-]. by eapply add_error.
  - unfold np.div2, mbind, result_bind.
    destruct (np.to_float64 sum) as [e'|f] eqn:Ef; [|discriminate].
    intros [= <-]. by eapply to_float64_error.
Qed.

(** On numbers it gives a [float64]. *)
Lemma midpoint_numeric (a b : value) :
  numeric a = true → numeric b = true → ∃ f, midpoint a b = inr (F64 f).
Proof. destruct a, b; try discriminate; intros _ _; by eexists. Qed.

Lemma midpoint_inr_numeric (a b v : value) :
  midpoint a b = inr v → numeric a = true ∧ numeric b = true.
Proof. destruct a, b; try discriminate; by intros _. Qed.

Lemma jointCoord_error (data : DataFrame value) (jointsJ : list string) (i j : nat)
    (e : exn) :
  j < length jointsJ → jointCoord data jointsJ i j = inl e → lookup_error e.
Proof.
  intros Hj. destruct (lookup_lt_is_Some_2 jointsJ j Hj) as [joint_j Hjj].
  destruct (decide (j ≠ 0 ∨ Py.drop_last (name root) ∈ columns data)) as [Hd|Hd].
  - rewrite (jointCoord_direct data jointsJ i j joint_j Hd Hjj).
    unfold mbind, result_bind.
    repeat match goal with
           | |- context [loc ?d ?k ?c] =>
               let E := fresh "E" in
               destruct (loc d k c) eqn:E;
               [intros [= <-]; left; by apply loc_error in E|]
           end.
    discriminate.
  - assert (j = 0) as -> by (destruct j; [done|exfalso; apply Hd; by left]).
    rewrite jointCoord_root_synthesis by (intros ?; apply Hd; by right).
    unfold mbind, result_bind.
    repeat first
      [ match goal with
        | |- context [loc ?d ?k ?c] =>
            let E := fresh "E" in
            destruct (loc d k c) eqn:E;
            [intros [= <-]; left; by apply loc_error in E|]
        end
      | match goal with
        | |- context [midpoint ?a ?b] =>
            let E := fresh "E" in
            destruct (midpoint a b) eqn:E;
            [intros [= <-]; right; by apply midpoint_error in E|]
        end ].
    discriminate.
Qed.

Lemma jointCoord_inr_columns (data : DataFrame value) (jointsJ : list string) (i j : nat)
    (v : value * value * value) (c : string) :
  jointCoord data jointsJ i j = inr v →
  c ∈ required_columns data jointsJ j → c ∈ columns data.
Proof.
  unfold required_columns.
  destruct (decide (j ≠ 0 ∨ Py.drop_last (name root) ∈ columns data)) as [Hd|Hd].
  - replace ((j =? 0) && negb (bool_decide (Py.drop_last (name root) ∈ columns data)))
      with false.
    2:{ destruct Hd as [Hd|Hd]; [by destruct j|].
        rewrite bool_decide_eq_true_2 by done. by rewrite andb_false_r. }
    destruct (jointsJ !! j) as [joint_j|] eqn:Hjj.
    2:{ unfold jointCoord, index. rewrite Hjj.
        destruct (_ && _); [|discriminate]. intros _ H. by apply elem_of_nil in H. }
    rewrite (jointCoord_direct data jointsJ i j joint_j Hd Hjj).
    unfold mbind, result_bind.
    repeat match goal with
           | |- context [loc ?d ?k ?c] =>
               let E := fresh "E" in
               destruct (loc d k c) eqn:E; [discriminate|apply loc_inr_column in E]
           end.
    intros _ Hc.
    repeat (apply elem_of_cons in Hc as [-> | Hc]; [done|]). by apply elem_of_nil in Hc.
  - assert (j = 0) as -> by (destruct j; [done|exfalso; apply Hd; by left]).
    assert (Py.drop_last (name root) ∉ columns data) as Hn
      by (intros ?; apply Hd; by right).
    rewrite jointCoord_root_synthesis by done.
    rewrite bool_decide_eq_false_2 by done.
    unfold mbind, result_bind.
    repeat first
      [ match goal with
        | |- context [loc ?d ?k ?c] =>
            let E := fresh "E" in
            destruct (loc d k c) eqn:E; [discriminate|apply loc_inr_column in E]
        end
      | match goal with
        | |- context [midpoint ?a ?b] => destruct (midpoint a b); [discriminate|]
        end ].
    intros _ Hc.
    repeat (apply elem_of_cons in Hc as [-> | Hc]; [done|]). by apply elem_of_nil in Hc.
Qed.

Lemma jointCoord_missing (data : DataFrame value) (jointsJ : list string) (i j : nat)
    (c : string) :
  j < length jointsJ → c ∈ required_columns data jointsJ j → c ∉ columns data →
  ∃ e, jointCoord data jointsJ i j = inl e ∧ lookup_error e.
Proof.
  intros Hj Hc Hn. destruct (jointCoord data jointsJ i j) as [e|v] eqn:E.
  - exists e. split; [done|]. by eapply jointCoord_error.
  - exfalso. apply Hn. by eapply jointCoord_inr_columns.
Qed.

(** A round of the placement loop returns or raises a lookup error. *)
Lemma place_joint_outcome (data : DataFrame value) (jointsJ : list string) (i j : nat)
    (h : host) :
  j < length jointsJ →
  let body := fun j : nat =>
    '(x, y, z) ← lift (jointCoord data jointsJ i j);
    joint_j ← lift (index jointsJ j);
    cmds.move x y z joint_j ;;
    joint_j ← lift (index jointsJ j);
    cmds.setKeyframe joint_j i in
  (body j h).2 = inr tt ∨ ∃ e, (body j h).2 = inl e ∧ lookup_error e.
Proof.
  intros Hlt body. unfold body.
  destruct (lookup_lt_is_Some_2 jointsJ j Hlt) as [joint_j Hjj].
  unfold mbind, M_bind, lift, index. rewrite Hjj.
  destruct (jointCoord data jointsJ i j) as [e|[[x0 y0] z0]] eqn:E; simpl.
  - right. exists e. split; [done|]. by eapply jointCoord_error.
  - by left.
Qed.

Lemma place_joints_outcome (data : DataFrame value) (jointsJ : list string)
    (i : nat) (h : host) :
  (place_joints data jointsJ i h).2 = inr tt
  ∨ ∃ e, (place_joints data jointsJ i h).2 = inl e ∧ lookup_error e.
Proof.
  unfold place_joints. apply for_each_only_in. intros j h' Hj.
  apply elem_of_seq in Hj. apply place_joint_outcome. lia.
Qed.

Lemma place_joints_raise (data : DataFrame value) (jointsJ : list string) (i j : nat)
    (h : host) :
  j < length jointsJ → (∃ e, jointCoord data jointsJ i j = inl e) →
  ∃ e, (place_joints data jointsJ i h).2 = inl e ∧ lookup_error e.
Proof.
  intros Hj [e0 Hraise]. unfold place_joints.
  apply for_each_some_raise_in with (y := j).
  - intros x h' Hx. apply elem_of_seq in Hx. apply place_joint_outcome. lia.
  - apply elem_of_seq. lia.
  - intros h'. exists e0. unfold mbind, M_bind, lift. rewrite Hraise.
    split; [done|]. by eapply jointCoord_error.
Qed.

Lemma animate_joints_raise (data : DataFrame value) (jointsJ : list string)
    (numFrames j : nat) (h : host) :
  0 < numFrames → j < length jointsJ → (∃ e, jointCoord data jointsJ 0 j = inl e) →
  ∃ e, (animate_joints data jointsJ numFrames h).2 = inl e ∧ lookup_error e.
Proof.
  intros Hn Hj Hraise. destruct numFrames as [|n]; [lia|].
  unfold animate_joints. change (range 0 (S n)) with (0 :: seq 1 n).
  cbn [for_each].
  destruct (place_joints_raise data jointsJ 0 j h Hj Hraise) as (e & H & He).
  destruct (place_joints data jointsJ 0 h) as [h1 r] eqn:E. simpl in H. subst r.
  exists e. split; [|done].
  erewrite bind_inl; [reflexivity|]. erewrite bind_inl; [reflexivity|]. exact E.
Qed.

Lemma set_skeleton_raise (data : DataFrame value) (str_cnt : string)
    (numFrames : nat) (h : host) (j : nat) :
  0 < numFrames → j < length (jointsJ_of str_cnt h) →
  (∃ e, jointCoord data (jointsJ_of str_cnt h) 0 j = inl e) →
  ∃ e, (set_skeleton data str_cnt numFrames h).2 = inl e ∧ lookup_error e.
Proof.
  intros Hn Hj Hraise. unfold set_skeleton.
  erewrite bind_inr by apply create_joints_run.
  by eapply animate_joints_raise.
Qed.

End missing.

(** C9 (as stated, refuted): with no frame to place, [set_skeleton]
    completes although the table has none of the markers. *)
Lemma set_skeleton_no_frame_completes :
  ¬ (∀ (data : DataFrame value) (str_cnt : string) (numFrames : nat) (h : host)
       (j : nat) (c : string),
       j < length (jointsJ_of str_cnt h) →
       c ∈ required_columns data (jointsJ_of str_cnt h) j →
       c ∉ columns data →
       ∃ e, (set_skeleton data str_cnt numFrames h).2 = inl e).
Proof.
  assert (0 < length (jointsJ_of "1" host0)) as H1 by (vm_compute; lia).
  assert ("RHip_Z" ∈ required_columns empty_table (jointsJ_of "1" host0) 0) as H2
    by compute_done.
  assert ("RHip_Z" ∉ columns empty_table) as H3 by compute_done.
  intros H.
  destruct (H empty_table "1" 0 host0 0 "RHip_Z" H1 H2 H3) as [e He].
  vm_compute in He. discriminate He.
Qed.

(** C9 (amended): when there is at least one frame to place and a column
    that some joint's position is read from is not in the table,
    [set_skeleton] fails: it raises the [KeyError] of a lookup, unless the
    synthesis of the root has raised a [TypeError] on text samples before
    the lookup was reached. *)
Theorem set_skeleton_missing_marker (data : DataFrame value) (str_cnt : string)
    (numFrames : nat) (h : host) (j : nat) (c : string) :
  0 < numFrames →
  j < length (jointsJ_of str_cnt h) →
  c ∈ required_columns data (jointsJ_of str_cnt h) j →
  c ∉ columns data →
  (set_skeleton data str_cnt numFrames h).2 = inl KeyError
  ∨ (set_skeleton data str_cnt numFrames h).2 = inl TypeError.
Proof.
  intros Hn Hj Hc Hmiss.
  destruct (set_skeleton_raise data str_cnt numFrames h j Hn Hj) as (e & He & [->| ->]).
  - destruct (jointCoord_missing data _ 0 j c Hj Hc Hmiss) as (e & He & _). by exists e.
  - by left.
  - by right.
Qed.

Lemma set_skeleton_missing_marker_witness :
  (set_skeleton table_with_root "1" 1 host0).2 = inl KeyError
  ∨ (set_skeleton table_with_root "1" 1 host0).2 = inl TypeError.
Proof.
  assert (2 < length (jointsJ_of "1" host0)) as H1 by (vm_compute; lia).
  assert ("RKnee_Z" ∈ required_columns table_with_root (jointsJ_of "1" host0) 2) as H2
    by compute_done.
  assert ("RKnee_Z" ∉ columns table_with_root) as H3 by compute_done.
  exact (set_skeleton_missing_marker table_with_root "1" 1 host0 2 "RKnee_Z"
           (Nat.lt_0_1) H1 H2 H3).
Defined.

(** ** The frame loop *)

(** A single command of the host logs itself. *)
Ltac logs_cmd := eapply logs_emit; [intros ?; reflexivity|reflexivity].

Section frames.

Lemma place_joints_ok (data : DataFrame value) (jointsJ : list string) (i : nat)
    (h : host) :
  (∀ j, j < length jointsJ → ∃ v, jointCoord data jointsJ i j = inr v) →
  place_joints data jointsJ i h = (emit_all (placement data jointsJ i) h, inr tt).
Proof.
  intros Hok. unfold place_joints, placement.
  apply (for_each_ok (fun _ => True)); [done| |done].
  intros x h' Hx _. apply elem_of_seq in Hx.
  assert (x < length jointsJ) as Hlt by lia.
  destruct (lookup_lt_is_Some_2 jointsJ x Hlt) as [joint_x Hjx].
  destruct (Hok x Hlt) as [[[x0 y0] z0] E].
  unfold mbind, M_bind, lift, index. rewrite E, Hjx.
  unfold cmds.move, cmds.setKeyframe, emit, emit_all. simpl.
  by rewrite <- app_assoc.
Qed.

(** A loop over the positions of a list is a loop over its elements. *)
Lemma for_each_seq_lookup {A} (l : list A) (k : nat) (f : nat → M unit) (g : A → M unit) :
  (∀ j x h, l !! j = Some x → f (k + j) h = g x h) →
  ∀ h, for_each (seq k (length l)) f h = for_each l g h.
Proof.
  revert k. induction l as [|x l IH]; intros k Hfg h; [reflexivity|].
  simpl. unfold mbind, M_bind.
  rewrite <- (Hfg 0 x h eq_refl), Nat.add_0_r.
  destruct (f k h) as [h1 [e|[]]]; [reflexivity|].
  apply IH. intros j y h' Hj. rewrite <- (Hfg (S j) y h' Hj). f_equal. lia.
Qed.

Lemma orient_joints_ok (jointsJ : list string) (i : nat) (h : host) :
  orient_joints jointsJ i h = (emit_all (orientation (nodes h) jointsJ i) h, inr tt).
Proof.
  unfold orient_joints, orientation. destruct jointsJ as [|j0 rest].
  - simpl. by rewrite emit_all_nil.
  - replace (range 1 (length (j0 :: rest))) with (seq 1 (length rest))
      by (unfold range; simpl; f_equal; lia).
    rewrite (for_each_seq_lookup rest 1 _ (fun joint_j =>
      parent ← cmds.listRelatives_parent joint_j;
      cmds.joint_orient parent ;; cmds.setKeyframe joint_j i)).
    2:{ intros j x h' Hj. unfold mbind, M_bind, lift, index.
        change ((j0 :: rest) !! (1 + j)) with (rest !! j). by rewrite Hj. }
    apply (for_each_ok (fun h' => nodes h' = nodes h)); [done| |done].
    intros x h' _ Hn.
    unfold mbind, M_bind, cmds.listRelatives_parent, cmds.joint_orient,
      cmds.setKeyframe, emit, emit_all. simpl.
    by rewrite Hn, <- app_assoc.
Qed.

(** With every joint placed at frame 0, the first round of the frame loop
    logs the placement and then the orientation pass. *)
Lemma animate_joints_frame0 (data : DataFrame value) (jointsJ : list string)
    (n : nat) (h : host) :
  (∀ j, j < length jointsJ → ∃ v, jointCoord data jointsJ 0 j = inr v) →
  animate_joints data jointsJ (S n) h
  = for_each (seq 1 n) (fun i =>
      place_joints data jointsJ i ;;
      if (i =? 0)%nat then orient_joints jointsJ i else mret tt)
      (emit_all (placement data jointsJ 0 ++ orientation (nodes h) jointsJ 0) h).
Proof.
  intros Hok. unfold animate_joints. change (range 0 (S n)) with (0 :: seq 1 n).
  cbn [for_each].
  erewrite bind_inr; [reflexivity|].
  erewrite bind_inr by (by apply place_joints_ok).
  change (0 =? 0)%nat with true. cbv iota.
  rewrite orient_joints_ok. by rewrite emit_all_app.
Qed.

Lemma logs_place_joints (data : DataFrame value) (jointsJ : list string) (i : nat) :
  logs not_orient (place_joints data jointsJ i).
Proof.
  unfold place_joints. apply logs_for_each. intros j _.
  apply logs_bind; [apply logs_lift|]. intros [[x y] z].
  apply logs_bind; [apply logs_lift|]. intros joint_j.
  apply logs_bind; [logs_cmd|]. intros _.
  apply logs_bind; [apply logs_lift|]. intros joint_j'.
  logs_cmd.
Qed.

Lemma logs_later_frames (data : DataFrame value) (jointsJ : list string) (n : nat) :
  logs not_orient (for_each (seq 1 n) (fun i =>
    place_joints data jointsJ i ;;
    if (i =? 0)%nat then orient_joints jointsJ i else mret tt)).
Proof.
  apply logs_for_each. intros i Hi. apply elem_of_seq in Hi.
  apply logs_bind; [apply logs_place_joints|]. intros _.
  destruct i; [lia|]. apply logs_ret.
Qed.

Lemma logs_create_joints (str_cnt : string) :
  logs not_orient (create_joints str_cnt).
Proof.
  unfold create_joints.
  apply logs_bind; [logs_cmd|]. intros _.
  apply logs_bind; [logs_cmd|]. intros _.
  apply logs_bind.
  { apply logs_for_each. intros [p n] _. destruct (decide _); [|apply logs_ret].
    apply logs_bind; [logs_cmd|]. intros _. logs_cmd. }
  intros _. apply logs_bind; [logs_cmd|]. intros _.
  intros h. exists []. simpl. by rewrite app_nil_r.
Qed.

Lemma moved_placement (data : DataFrame value) (jointsJ : list string) (i : nat) :
  (∀ j, j < length jointsJ → ∃ v, jointCoord data jointsJ i j = inr v) →
  moved (placement data jointsJ i) = jointsJ.
Proof.
  intros Hok. unfold placement, range. rewrite Nat.sub_0_r.
  assert (∀ (pre l : list string),
    (∀ j, j < length l → ∃ v, jointCoord data jointsJ i (length pre + j) = inr v) →
    (∀ j, l !! j = jointsJ !! (length pre + j)) →
    moved (flat_map (fun j =>
      match jointCoord data jointsJ i j, jointsJ !! j with
      | inr (x, y, z), Some joint_j => [move x y z joint_j; setKeyframe joint_j i]
      | _, _ => []
      end) (seq (length pre) (length l))) = l) as Hgen.
  { intros pre l. revert pre. induction l as [|a l IH]; intros pre Hc Hl; [reflexivity|].
    simpl. destruct (Hc 0 ltac:(simpl; lia)) as [[[x y] z] E].
    rewrite Nat.add_0_r in E. rewrite E.
    pose proof (Hl 0) as H0. rewrite Nat.add_0_r in H0. simpl in H0. rewrite <- H0.
    unfold moved. simpl. f_equal.
    specialize (IH (pre ++ [a])). rewrite length_app in IH. simpl in IH.
    rewrite Nat.add_1_r in IH. apply IH.
    - intros j Hj. destruct (Hc (S j) ltac:(simpl; lia)) as [v Hv]. exists v.
      rewrite <- Hv. f_equal. lia.
    - intros j. change (l !! j) with ((a :: l) !! S j).
      rewrite (Hl (S j)). f_equal. lia. }
  apply (Hgen [] jointsJ); [exact Hok|done].
Qed.

End frames.

Lemma is_inr_exists {A} (r : result A) :
  (if r is inl _ then False else True) → ∃ v, r = inr v.
Proof. destruct r; [done|eauto]. Qed.

Lemma orientations_app (cs1 cs2 : list call) :
  orientations (cs1 ++ cs2) = orientations cs1 + orientations cs2.
Proof. unfold orientations. by rewrite List.filter_app, length_app. Qed.

Lemma orientations_none (cs : list call) :
  Forall not_orient cs → orientations cs = 0.
Proof.
  unfold orientations. induction 1 as [|c cs Hc _ IH]; [reflexivity|].
  simpl. by rewrite Hc.
Qed.

Lemma orientations_orientation (ns : list (string * option string))
    (jointsJ : list string) (i : nat) :
  orientations (orientation ns jointsJ i) = length (tail jointsJ).
Proof.
  unfold orientation, orientations.
  induction (tail jointsJ) as [|j l IH]; [reflexivity|]. simpl. by rewrite IH.
Qed.

(** The log of a run over at least one frame whose frame-0 placement
    succeeds, for the scene [h0] and the joints [jointsJ] the creation
    returns. *)
Lemma set_skeleton_frame0_log (data : DataFrame value) (str_cnt : string) (n : nat)
    (h h0 : host) (jointsJ : list string) :
  create_joints str_cnt h = (h0, inr jointsJ) →
  (∀ j, j < length jointsJ → ∃ v, jointCoord data jointsJ 0 j = inr v) →
  ∃ create later : list call,
    run_log (set_skeleton data str_cnt (S n)) h
    = create ++ placement data jointsJ 0 ++ orientation (nodes h0) jointsJ 0 ++ later
    ∧ Forall not_orient create
    ∧ Forall not_orient (placement data jointsJ 0)
    ∧ Forall not_orient later
    ∧ moved (placement data jointsJ 0) = jointsJ
    ∧ orientations (run_log (set_skeleton data str_cnt (S n)) h)
      = length (tail jointsJ).
Proof.
  intros Hcreate Hok.
  destruct (logs_create_joints str_cnt h) as (create & Ecreate & Qcreate).
  rewrite Hcreate in Ecreate. cbn [fst] in Ecreate.
  set (h1 := emit_all (placement data jointsJ 0 ++ orientation (nodes h0) jointsJ 0) h0).
  destruct (logs_later_frames data jointsJ n h1) as (later & Elater & Qlater).
  assert (Forall not_orient (placement data jointsJ 0)) as Qplace.
  { destruct (logs_place_joints data jointsJ 0 h0) as (cs & E & Q).
    rewrite place_joints_ok in E by done. cbn [fst] in E.
    rewrite log_emit_all in E. by apply app_inv_head in E as <-. }
  assert (run_log (set_skeleton data str_cnt (S n)) h
          = create ++ placement data jointsJ 0
            ++ orientation (nodes h0) jointsJ 0 ++ later) as Erun.
  { unfold run_log, set_skeleton.
    erewrite bind_inr by exact Hcreate.
    rewrite animate_joints_frame0 by done. fold h1.
    rewrite Elater. unfold h1. rewrite log_emit_all, Ecreate.
    rewrite <- !app_assoc. by rewrite drop_app_length. }
  exists create, later.
  split; [exact Erun|]. split; [exact Qcreate|]. split; [exact Qplace|].
  split; [exact Qlater|]. split; [by apply moved_placement|].
  rewrite Erun, !orientations_app, orientations_orientation.
  rewrite !orientations_none by done. lia.
Qed.

(** C8 (as stated, refuted): a run over no frame issues no orientation at
    all, so it is not true of every run that each non-root joint is
    oriented once. *)
Lemma no_frame_no_orientation :
  ¬ (∀ (data : DataFrame value) (str_cnt : string) (numFrames : nat) (h : host),
       orientations (run_log (set_skeleton data str_cnt numFrames) h)
       = length (tail (jointsJ_of str_cnt h))).
Proof.
  intros H. specialize (H empty_table "1" 0 host0).
  vm_compute in H. discriminate H.
Qed.

(** C8 (amended): in a run with at least one frame in which every joint
    gets its frame-0 position, the log is: the creation of the joints, the
    frame-0 placement that moves every joint once in order, then the
    orientation pass (one orientation and one keyframe at frame 0 for each
    joint but the root), then the later frames; there is no orientation
    command outside the pass. *)
Theorem orientation_pass_once (data : DataFrame value) (str_cnt : string)
    (numFrames : nat) (h : host) :
  0 < numFrames →
  (∀ j, j < length (jointsJ_of str_cnt h) →
        ∃ v, jointCoord data (jointsJ_of str_cnt h) 0 j = inr v) →
  ∃ create later : list call,
    run_log (set_skeleton data str_cnt numFrames) h
    = create
      ++ placement data (jointsJ_of str_cnt h) 0
      ++ orientation (nodes (created str_cnt h)) (jointsJ_of str_cnt h) 0
      ++ later
    ∧ Forall not_orient create
    ∧ Forall not_orient (placement data (jointsJ_of str_cnt h) 0)
    ∧ Forall not_orient later
    ∧ moved (placement data (jointsJ_of str_cnt h) 0) = jointsJ_of str_cnt h
    ∧ orientations (run_log (set_skeleton data str_cnt numFrames) h)
      = length (tail (jointsJ_of str_cnt h)).
Proof.
  intros Hn Hok. destruct numFrames as [|n]; [lia|].
  exact (set_skeleton_frame0_log data str_cnt n h _ _ (create_joints_run str_cnt h) Hok).
Qed.

Lemma orientation_pass_once_witness :
  ∃ create later : list call,
    run_log (set_skeleton body_25b_table "1" 2) host0
    = create
      ++ placement body_25b_table (jointsJ_of "1" host0) 0
      ++ orientation (nodes (created "1" host0)) (jointsJ_of "1" host0) 0
      ++ later
    ∧ Forall not_orient create
    ∧ Forall not_orient (placement body_25b_table (jointsJ_of "1" host0) 0)
    ∧ Forall not_orient later
    ∧ moved (placement body_25b_table (jointsJ_of "1" host0) 0) = jointsJ_of "1" host0
    ∧ orientations (run_log (set_skeleton body_25b_table "1" 2) host0)
      = length (tail (jointsJ_of "1" host0)).
Proof.
  apply (orientation_pass_once body_25b_table "1" 2 host0).
  - lia.
  - intros j Hj.
    assert (length (jointsJ_of "1" host0) = 22) as E by (vm_compute; reflexivity).
    rewrite E in Hj.
    do 22 (destruct j as [|j]; [apply is_inr_exists; vm_compute; exact I|]). lia.
Defined.

(** ** Reading a trajectory file *)

Section tokens.

Lemma split_tab_free (f : string) : tab_free f = true → Csv.split_tab f = [f].
Proof.
  induction f as [|c f IH]; [reflexivity|]. simpl.
  intros [Hc Hf]%andb_true_iff. apply negb_true_iff in Hc. by rewrite Hc, IH.
Qed.

Lemma split_tab_cons (f rest : string) :
  tab_free f = true →
  Csv.split_tab (f +:+ String Csv.tab rest) = f :: Csv.split_tab rest.
Proof.
  induction f as [|c f IH]; [reflexivity|]. rewrite append_String. simpl.
  intros [Hc Hf]%andb_true_iff. apply negb_true_iff in Hc. by rewrite Hc, IH.
Qed.

Lemma split_tab_join (fs : list string) :
  fs ≠ [] → Forall (fun f => tab_free f = true) fs →
  Csv.split_tab (join_tab fs) = fs.
Proof.
  intros Hne Hfs. induction Hfs as [|f fs Hf Hfs IH]; [done|].
  destruct fs as [|g fs]; [by apply split_tab_free|].
  change (join_tab (f :: g :: fs)) with (f +:+ String Csv.tab (join_tab (g :: fs))).
  rewrite split_tab_cons by done. by rewrite IH.
Qed.

Lemma blank_tab (f rest : string) : Csv.blank (f +:+ String Csv.tab rest) = false.
Proof.
  induction f as [|c f IH]; [reflexivity|]. rewrite append_String. simpl.
  by rewrite IH, andb_false_r.
Qed.

Lemma blank_join (fs : list string) : 2 ≤ length fs → Csv.blank (join_tab fs) = false.
Proof.
  destruct fs as [|f [|g fs]]; simpl; try lia. intros _. apply blank_tab.
Qed.

(** A name not counted yet is kept as it is. *)
Lemma dedup_fresh (fuel : nat) (counts : gmap string nat) (nm : string) :
  counts !! nm = None → Csv.dedup fuel counts nm = (nm, counts).
Proof. intros H. destruct fuel; simpl; by rewrite ?H. Qed.

Lemma mangle_go_fresh (fs : list string) (i : nat) (counts : gmap string nat) :
  NoDup (imap (fun k => Csv.unnamed (i + k)) fs) →
  (∀ k f, fs !! k = Some f → counts !! Csv.unnamed (i + k) f = None) →
  Csv.mangle_go i counts fs = imap (fun k => Csv.unnamed (i + k)) fs.
Proof.
  revert i counts. induction fs as [|f fs IH]; intros i counts Hnd Hfresh; [reflexivity|].
  pose proof (Hfresh 0 f eq_refl) as H0. rewrite Nat.add_0_r in H0.
  cbn [Csv.mangle_go imap]. cbn [imap] in Hnd. rewrite Nat.add_0_r in *.
  rewrite dedup_fresh by done. rewrite H0. cbn [default].
  apply NoDup_cons in Hnd as [Hnotin Hnd].
  assert (imap ((fun k => Csv.unnamed (i + k)) ∘ S) fs
          = imap (fun k => Csv.unnamed (S i + k)) fs) as Hext.
  { apply imap_ext. intros k x _. simpl. f_equal. lia. }
  rewrite Hext in *. f_equal. apply IH; [done|].
  intros k g Hk. rewrite lookup_insert_ne.
  - specialize (Hfresh (S k) g Hk). by replace (S i + k) with (i + S k) by lia.
  - intros Heq. apply Hnotin. rewrite Heq.
    apply list_elem_of_lookup. exists k. by rewrite list_lookup_imap, Hk.
Qed.

(** Distinct header names are the names pandas uses. *)
Lemma mangle_fresh (fs : list string) :
  NoDup (imap Csv.unnamed fs) → Csv.mangle fs = imap Csv.unnamed fs.
Proof.
  intros Hnd. unfold Csv.mangle. rewrite mangle_go_fresh; [done|done|].
  intros k f _. apply lookup_empty.
Qed.

End tokens.

Section labels.

Lemma removelast_cons2 {A} (a b : A) (xs : list A) :
  xs ≠ [] → removelast (a :: b :: xs) = a :: b :: removelast xs.
Proof. by destruct xs. Qed.

Lemma every_third_removelast (labels xs : list string) :
  length xs = 3 * length labels →
  (∀ k l, labels !! k = Some l → xs !! (3 * k) = Some l) →
  Py.every_third (removelast xs) = labels.
Proof.
  revert xs. induction labels as [|l ls IH]; intros xs Hlen Hxs.
  - by destruct xs.
  - destruct xs as [|a [|b [|c xs]]]; simpl in Hlen; try lia.
    pose proof (Hxs 0 l eq_refl) as Ha. simpl in Ha. injection Ha as ->.
    destruct ls as [|l2 ls].
    + destruct xs; [reflexivity|simpl in Hlen; lia].
    + destruct xs as [|x xs]; [simpl in Hlen; lia|].
      change (removelast (l :: b :: c :: x :: xs))
        with (l :: b :: c :: removelast (x :: xs)).
      cbn [Py.every_third]. f_equal. apply IH.
      * simpl in *. lia.
      * intros k m Hk. specialize (Hxs (S k) m Hk).
        by replace (3 * S k) with (S (S (S (3 * k)))) in Hxs by lia.
Qed.

Lemma triples_lookup (labels : list string) (k : nat) (l : string) :
  labels !! k = Some l →
  flat_map (fun l => [l; ""; ""]) labels !! (3 * k) = Some l.
Proof.
  revert k. induction labels as [|m ls IH]; intros k Hk; [done|].
  destruct k as [|k]; simpl in *; [done|].
  replace (k + S (k + S (k + 0))) with (S (S (3 * k))) by lia. by apply IH.
Qed.

Lemma triples_length (labels : list string) :
  length (flat_map (fun l => [l; ""; ""]) labels) = 3 * length labels.
Proof. induction labels as [|m ls IH]; simpl in *; lia. Qed.

Lemma unnamed_nonempty (i : nat) (l : string) : l ≠ "" → Csv.unnamed i l = l.
Proof. intros H. unfold Csv.unnamed. by rewrite decide_False. Qed.

(** The labels are read back from the header names. *)
Lemma labels_of_header_names (labels : list string) :
  "" ∉ labels → Py.slice_2_m1_step3 (header_names labels) = labels.
Proof.
  intros Hne. unfold Py.slice_2_m1_step3, header_names, header_fields.
  cbn [imap]. remember (imap _ (flat_map _ labels)) as xs eqn:E.
  assert (length xs = 3 * length labels) as Hlen
    by (rewrite E; by rewrite length_imap, triples_length).
  assert (∀ k l, labels !! k = Some l → xs !! (3 * k) = Some l) as Hxs.
  { intros k l Hk. rewrite E, list_lookup_imap, (triples_lookup labels k l Hk).
    simpl. f_equal. apply unnamed_nonempty. intros ->. apply Hne.
    by eapply list_elem_of_lookup_2. }
  clear E. destruct xs as [|x xs'].
  - destruct labels; [reflexivity|simpl in Hlen; lia].
  - rewrite removelast_cons2 by done. cbn [drop].
    by apply every_third_removelast.
Qed.

Lemma length_labels_XYZ (labels : list string) :
  length (labels_XYZ labels) = 3 * length labels.
Proof. unfold labels_XYZ. induction labels as [|m ls IH]; simpl in *; lia. Qed.

Lemma elem_of_labels_XYZ (labels : list string) (c : string) :
  c ∈ labels_XYZ labels → ∃ m s, m ∈ labels ∧ axis_suffix s ∧ c = m +:+ s.
Proof.
  unfold labels_XYZ. intros H. apply list_elem_of_In, in_flat_map in H.
  destruct H as (m & Hm & Hc). apply list_elem_of_In in Hm.
  simpl in Hc. unfold axis_suffix.
  destruct Hc as [<- | [<- | [<- | []]]]; eauto 10.
Qed.

Lemma NoDup_labels_XYZ (labels : list string) :
  NoDup labels → NoDup (labels_XYZ labels).
Proof.
  induction 1 as [|l ls Hl Hnd IH]; [constructor|].
  change (labels_XYZ (l :: ls))
    with ((l +:+ "_X") :: (l +:+ "_Y") :: (l +:+ "_Z") :: labels_XYZ ls).
  assert (∀ s, axis_suffix s → l +:+ s ∉ labels_XYZ ls) as Hout.
  { intros s Hs Hin. apply elem_of_labels_XYZ in Hin as (m & t & Hm & Ht & Heq).
    apply axis_label_inj in Heq as [-> _]; done. }
  assert (∀ s t, axis_suffix s → axis_suffix t → s ≠ t → l +:+ s ≠ l +:+ t) as Hd.
  { intros s t Hs Ht Hne H. by apply axis_label_inj in H as [_ ?]. }
  repeat apply NoDup_cons_2; try done.
  - rewrite !not_elem_of_cons.
    repeat split; try (apply Hd; unfold axis_suffix; auto; discriminate).
    apply Hout. unfold axis_suffix. auto.
  - rewrite !not_elem_of_cons.
    repeat split; try (apply Hd; unfold axis_suffix; auto; discriminate).
    apply Hout. unfold axis_suffix. auto.
  - apply Hout. unfold axis_suffix. auto.
Qed.

Lemma NoDup_labels_FTXYZ (labels : list string) :
  NoDup labels → NoDup (["Frame#"; "Time"] ++ labels_XYZ labels).
Proof.
  intros Hnd.
  assert (∀ a b : string, String.length b = 2 → ¬ axis_suffix b →
            a +:+ b ∉ labels_XYZ labels) as Hout.
  { intros a b Hb Hax Hin.
    apply elem_of_labels_XYZ in Hin as (m & t & Hm & Ht & Heq).
    apply append_inj_len in Heq as [_ ->]; [done|].
    rewrite Hb. by destruct Ht as [-> | [-> | ->]]. }
  simpl. repeat apply NoDup_cons_2.
  - rewrite not_elem_of_cons. split; [discriminate|].
    apply (Hout "Fram" "e#"); [reflexivity|].
    unfold axis_suffix. intros [H | [H | H]]; discriminate H.
  - apply (Hout "Ti" "me"); [reflexivity|].
    unfold axis_suffix. intros [H | [H | H]]; discriminate H.
  - by apply NoDup_labels_XYZ.
Qed.

End labels.

Section reading.

Lemma records_skip (k : nat) (l : string) (file : list string) :
  Csv.records (S k) (l :: file) = Csv.records k file.
Proof. reflexivity. Qed.

Lemma records_0_cons (l : string) (file : list string) :
  Csv.blank l = false →
  Csv.records 0 (l :: file) = Csv.split_tab l :: Csv.records 0 file.
Proof.
  intros Hl. unfold Csv.records. rewrite !drop_0.
  by rewrite filter_cons_True.
Qed.

Lemma too_wide_same (w : nat) (recs : list (list string)) :
  Forall (fun r => length r ≤ w) recs → Csv.too_wide w recs = false.
Proof.
  unfold Csv.too_wide. induction 1 as [|r recs Hr _ IH]; [reflexivity|].
  simpl. rewrite IH, orb_false_r. apply Nat.ltb_ge. lia.
Qed.

Lemma to_row_full (w : nat) (r : list string) :
  length r = w → Csv.to_row w r = map Csv.Field r.
Proof.
  intros <-. unfold Csv.to_row.
  rewrite <- (List.length_map Csv.Field r). apply resize_all.
Qed.

(** Lines 94-95 on two non-blank metadata lines, the second no wider
    than the first: the pairs of their fields. *)
Lemma trc_header_ok (banner keys vals : string) (rest : list string) :
  Csv.blank keys = false → Csv.blank vals = false →
  length (Csv.split_tab vals) ≤ length (Csv.split_tab keys) →
  trc_header (banner :: keys :: vals :: rest)
  = inr (zip (Csv.to_row (length (Csv.split_tab keys)) (Csv.split_tab keys))
             (Csv.to_row (length (Csv.split_tab keys)) (Csv.split_tab vals))).
Proof.
  intros Hk Hv Hw. unfold trc_header, Csv.read_header_rows.
  rewrite records_skip, !records_0_cons by done. cbn [take].
  rewrite too_wide_same by (repeat constructor; lia). reflexivity.
Qed.

(** Lines 98-104 do not read the first three lines. *)
Lemma trc_data_skips_metadata (banner keys vals banner' keys' vals' : string)
    (rest : list string) :
  trc_data (banner :: keys :: vals :: rest) = trc_data (banner' :: keys' :: vals' :: rest).
Proof. reflexivity. Qed.

Lemma records_frames (data : list string) (frames : list (list string)) :
  filter (fun l => Csv.blank l = false) data = map join_tab frames →
  Forall (fun r => r ≠ [] ∧ Forall (fun f => tab_free f = true) r) frames →
  Csv.records 0 data = frames.
Proof.
  intros Hdata Hframes. unfold Csv.records. rewrite drop_0, Hdata.
  clear Hdata. rewrite List.map_map.
  induction Hframes as [|r frames [Hr Hfs] _ IH]; [reflexivity|].
  simpl. rewrite split_tab_join by done. by rewrite IH.
Qed.

(** Lines 98-104 on a header line with the labels and on frame lines of
    [2 + 3N] fields each. *)
Lemma trc_data_ok (banner keys vals sub : string) (data : list string)
    (labels : list string) (frames : list (list string)) :
  Forall (fun l => tab_free l = true) labels → "" ∉ labels →
  NoDup labels → NoDup (header_names labels) →
  filter (fun l => Csv.blank l = false) data = map join_tab frames →
  Forall (fun r => length r = 2 + 3 * length labels
                   ∧ Forall (fun f => tab_free f = true) r) frames →
  trc_data (banner :: keys :: vals :: join_tab (header_fields labels) :: sub :: data)
  = inr (mkDataFrame (labels_XYZ labels) (map (fun r => map Csv.Field (drop 2 r)) frames)).
Proof.
  intros Htab Hne Hnd Hnames Hdata Hframes.
  unfold trc_data, Csv.read_columns, Csv.read_data.
  rewrite !records_skip.
  assert (Forall (fun f => tab_free f = true) (header_fields labels)) as Hhf.
  { unfold header_fields. repeat (constructor; [reflexivity|]).
    apply Forall_forall. intros f Hf. apply list_elem_of_In, in_flat_map in Hf.
    destruct Hf as (l & Hl & Hf). apply list_elem_of_In in Hl.
    rewrite Forall_forall in Htab. simpl in Hf.
    destruct Hf as [<- | [<- | [<- | []]]]; [by apply Htab|reflexivity|reflexivity]. }
  rewrite records_0_cons by (apply blank_join; simpl; lia).
  rewrite split_tab_join by done.
  change (result_bind _ _ ?f (mret ?x)) with (f x).
  cbn [mbind result_bind mret result_ret].
  rewrite mangle_fresh by done. fold (header_names labels).
  rewrite labels_of_header_names by done.
  rewrite bool_decide_eq_true_2 by (by apply NoDup_labels_FTXYZ).
  assert (Csv.records 0 data = frames) as ->.
  { apply records_frames; [done|]. eapply Forall_impl; [exact Hframes|].
    intros r [Hlen Hr]. split; [|done]. intros ->. simpl in Hlen. lia. }
  assert (∀ r, length r = 2 + 3 * length labels →
               Csv.to_row (length (["Frame#"; "Time"] ++ labels_XYZ labels)) r
               = map Csv.Field r) as Hrow.
  { intros r Hr. apply to_row_full. rewrite Hr. simpl. by rewrite length_labels_XYZ. }
  assert (map (Csv.to_row (length (["Frame#"; "Time"] ++ labels_XYZ labels))) frames
          = map (map Csv.Field) frames) as Hrows.
  { apply List.map_ext_in. intros r Hr. apply Hrow.
    rewrite Forall_forall in Hframes. by apply Hframes, list_elem_of_In. }
  destruct frames as [|r1 rest] eqn:E; [reflexivity|].
  rewrite too_wide_same.
  2:{ apply Forall_cons in Hframes as [[Hr1 _] Hrest].
      eapply Forall_impl; [exact Hrest|]. intros r [Hr _]. lia. }
  rewrite Hrows. unfold iloc_cols_from2. cbn [mbind result_bind mret result_ret columns rows].
  f_equal. f_equal. rewrite List.map_map. apply List.map_ext.
  intros r. apply List.skipn_map.
Qed.

End reading.

(** C3 (as stated, refuted): with row 4 blank, row 5 the column headers
    and row 6 the sub-labels, [skiprows=5] leaves the sub-label row in
    the data: the file has one frame and the table has two rows. *)
Lemma df_from_trc_blank_row4 :
  ∃ header table,
    df_from_trc blank_row4_file = inr (header, table)
    ∧ rows table = [[Csv.Field "X1"; Csv.Field "Y1"; Csv.Field "Z1"];
                    [Csv.Field "0.1"; Csv.Field "0.2"; Csv.Field "0.3"]]
    ∧ shape0 table ≠ 1.
Proof.
  eexists _, _. split; [vm_compute; reflexivity|]. split; [reflexivity|].
  intros H. vm_compute in H. discriminate H.
Qed.

(** C3 (amended): for a file whose row 1 is the banner, rows 2-3 the
    metadata keys and values, row 4 the column headers ([Frame#], [Time],
    one label per marker over three columns), row 5 the sub-labels, and
    whose non-blank rows from row 6 on are the F frames, each of
    [2 + 3N] fields, the parser returns a table of exactly F rows with
    the 3N columns [label_X], [label_Y], [label_Z] in header order; each
    row holds the fields of its frame without the first two. *)
Theorem df_from_trc_shape (banner keys vals sub : string) (data : list string)
    (labels : list string) (frames : list (list string)) :
  Csv.blank keys = false → Csv.blank vals = false →
  length (Csv.split_tab vals) ≤ length (Csv.split_tab keys) →
  Forall (fun l => tab_free l = true) labels → "" ∉ labels →
  NoDup labels → NoDup (header_names labels) →
  filter (fun l => Csv.blank l = false) data = map join_tab frames →
  Forall (fun r => length r = 2 + 3 * length labels
                   ∧ Forall (fun f => tab_free f = true) r) frames →
  ∃ header table,
    df_from_trc (banner :: keys :: vals :: join_tab (header_fields labels) :: sub :: data)
    = inr (header, table)
    ∧ shape0 table = length frames
    ∧ columns table = labels_XYZ labels
    ∧ length (columns table) = 3 * length labels
    ∧ rows table = map (fun r => map Csv.Field (drop 2 r)) frames
    ∧ Forall (fun row => length row = 3 * length labels) (rows table).
Proof.
  intros Hk Hv Hw Htab Hne Hnd Hnames Hdata Hframes.
  eexists _, _. split.
  { unfold df_from_trc. rewrite trc_header_ok by done.
    erewrite trc_data_ok by done. reflexivity. }
  unfold shape0. cbn [columns rows].
  split; [by rewrite List.length_map|]. split; [done|].
  split; [apply length_labels_XYZ|]. split; [done|].
  apply Forall_forall. intros row Hrow.
  apply list_elem_of_In, in_map_iff in Hrow as (r & <- & Hr).
  rewrite Forall_forall in Hframes.
  destruct (Hframes r) as [Hlen _]; [by apply list_elem_of_In|].
  rewrite List.length_map, length_drop. lia.
Qed.

Lemma df_from_trc_shape_witness :
  ∃ header table,
    df_from_trc (one_marker_file keys_line (values_line "2" "1")) = inr (header, table)
    ∧ shape0 table = 2
    ∧ columns table = ["M1_X"; "M1_Y"; "M1_Z"]
    ∧ length (columns table) = 3
    ∧ rows table = [[Csv.Field "0.1"; Csv.Field "0.2"; Csv.Field "0.3"];
                    [Csv.Field "1.1"; Csv.Field "1.2"; Csv.Field "1.3"]]
    ∧ Forall (fun row => length row = 3) (rows table).
Proof.
  apply (df_from_trc_shape banner_line keys_line (values_line "2" "1")
           (join_tab [""; ""; "X1"; "Y1"; "Z1"])
           [""; join_tab ["1"; "0.0"; "0.1"; "0.2"; "0.3"];
                join_tab ["2"; "0.5"; "1.1"; "1.2"; "1.3"]]
           ["M1"]
           [["1"; "0.0"; "0.1"; "0.2"; "0.3"]; ["2"; "0.5"; "1.1"; "1.2"; "1.3"]]).
  - reflexivity.
  - reflexivity.
  - vm_compute. lia.
  - repeat constructor.
  - compute_done.
  - compute_done.
  - compute_done.
  - reflexivity.
  - repeat constructor.
Defined.

(** C4 (as stated, refuted): a file announcing seven markers and holding
    one, and a file without the expected metadata keys, are both parsed. *)
Lemma df_from_trc_no_validation :
  (∃ header table,
     df_from_trc (one_marker_file keys_line (values_line "2" "7")) = inr (header, table)
     ∧ (Csv.Field "NumMarkers", Csv.Field "7") ∈ header
     ∧ columns table = ["M1_X"; "M1_Y"; "M1_Z"])
  ∧ (∃ table,
       df_from_trc bad_metadata_file
       = inr ([(Csv.Field "Rate", Csv.Field "60"); (Csv.Field "Markers", Csv.Field "7")],
              table)).
Proof.
  split.
  - eexists _, _. split; [vm_compute; reflexivity|]. split; [compute_done|reflexivity].
  - eexists. vm_compute. reflexivity.
Qed.

(** C4 (amended): the parser does not look at what the metadata rows
    say. Whatever non-blank rows 2 and 3 are put in place of those of a
    file that parses (the value row no wider than the key row), the file
    still parses, to the same table, and the header is the pairing of the
    new rows' fields. *)
Theorem df_from_trc_ignores_metadata (banner keys vals keys' vals' : string)
    (rest : list string) (header : list (Csv.cell * Csv.cell))
    (table : DataFrame Csv.cell) :
  df_from_trc (banner :: keys :: vals :: rest) = inr (header, table) →
  Csv.blank keys' = false → Csv.blank vals' = false →
  length (Csv.split_tab vals') ≤ length (Csv.split_tab keys') →
  df_from_trc (banner :: keys' :: vals' :: rest)
  = inr (zip (Csv.to_row (length (Csv.split_tab keys')) (Csv.split_tab keys'))
             (Csv.to_row (length (Csv.split_tab keys')) (Csv.split_tab vals')),
         table).
Proof.
  intros Hparse Hk Hv Hw. unfold df_from_trc in *.
  rewrite trc_header_ok by done.
  rewrite (trc_data_skips_metadata banner keys' vals' banner keys vals).
  unfold mbind, mret, result_bind, result_ret in *.
  destruct (trc_header (banner :: keys :: vals :: rest)) as [e|hdr]; [discriminate|].
  destruct (trc_data (banner :: keys :: vals :: rest)) as [e|t]; [discriminate|].
  congruence.
Qed.

Lemma df_from_trc_ignores_metadata_witness :
  ∃ table,
    df_from_trc (one_marker_file keys_line (values_line "2" "1"))
    = inr (zip (Csv.to_row 8 (Csv.split_tab keys_line))
               (Csv.to_row 8 (Csv.split_tab (values_line "2" "1"))), table)
    ∧ df_from_trc bad_metadata_file
      = inr ([(Csv.Field "Rate", Csv.Field "60"); (Csv.Field "Markers", Csv.Field "7")],
             table).
Proof.
  eexists. split; [vm_compute; reflexivity|].
  apply (df_from_trc_ignores_metadata banner_line keys_line (values_line "2" "1")
           (join_tab ["Rate"; "Markers"]) (join_tab ["60"; "7"]) _
           (zip (Csv.to_row 8 (Csv.split_tab keys_line))
                (Csv.to_row 8 (Csv.split_tab (values_line "2" "1"))))).
  - vm_compute. reflexivity.
  - reflexivity.
  - reflexivity.
  - vm_compute. lia.
Defined.

(** ** The joints of a fresh scene *)

Section fresh_scene.

Lemma append_inj_l (s a b : string) : a +:+ s = b +:+ s → a = b.
Proof. intros H. by apply append_inj_len in H as [? _]. Qed.

Lemma children_of_suffixed (s : string) (ns : list (string * option string))
    (n : string) :
  cmds.children_of (map (suffixed s) ns) (n +:+ s)
  = map (fun c => c +:+ s) (cmds.children_of ns n).
Proof.
  unfold cmds.children_of. induction ns as [|[x p] ns IH]; [reflexivity|].
  cbn [map]. destruct (decide (p = Some n)) as [->|Hne].
  - rewrite !filter_cons_True by done. cbn [map fst]. by rewrite IH.
  - rewrite !filter_cons_False; [done|done|].
    unfold suffixed. simpl. destruct p as [q|]; simpl; [|done].
    intros [= H]. apply append_inj_l in H. congruence.
Qed.

Lemma hierarchy_suffixed (s : string) (fuel : nat) (ns : list (string * option string))
    (n : string) :
  cmds.hierarchy fuel (map (suffixed s) ns) (n +:+ s)
  = map (fun c => c +:+ s) (cmds.hierarchy fuel ns n).
Proof.
  revert n. induction fuel as [|fuel IH]; intros n; [reflexivity|].
  cbn [cmds.hierarchy map]. f_equal.
  rewrite children_of_suffixed.
  induction (cmds.children_of ns n) as [|c cs IHc]; [reflexivity|].
  cbn [map flat_map]. by rewrite List.map_app, IH, IHc.
Qed.

Lemma jointsJ_of_hierarchy (str_cnt : string) (h : host) :
  jointsJ_of str_cnt h
  = cmds.hierarchy (length (nodes (created str_cnt h))) (nodes (created str_cnt h))
      ("CHipJ" +:+ str_cnt).
Proof.
  unfold jointsJ_of, created.
  destruct (create_joints_selection str_cnt h) as [h3 ->]. reflexivity.
Qed.

Lemma created_nodes_host0 (str_cnt : string) :
  nodes (created str_cnt host0) = map (suffixed str_cnt) tree_scene.
Proof. unfold created. lazy. reflexivity. Qed.

(** In a scene without joints, the joints listed after the creation are
    the joints of the hierarchy in pre-order, each with the suffix of the
    import. *)
Lemma jointsJ_of_host0 (str_cnt : string) :
  jointsJ_of str_cnt host0 = map (fun n => n +:+ str_cnt) joint_names.
Proof.
  rewrite jointsJ_of_hierarchy, created_nodes_host0.
  rewrite List.length_map, hierarchy_suffixed. f_equal.
Qed.

Lemma jnt_of_suffixed (n : string) (cnt : nat) :
  Py.no_digit n = true → jnt_of (n +:+ Py.str cnt) = Py.drop_last n.
Proof.
  intros Hn. unfold jnt_of.
  by rewrite re_sub_digits_app, re_sub_digits_str, app_empty_r, re_sub_digits_no_digit.
Qed.

Lemma joint_names_no_digit : Forall (fun n => Py.no_digit n = true) joint_names.
Proof. repeat constructor. Qed.

(** In a scene without joints and with at least one frame to place, a
    joint below the root whose marker lacks one of its three columns makes
    [set_skeleton] raise: the marker of joint [n] is [n] without its
    final [J]. *)
Lemma fresh_scene_missing_marker (data : DataFrame value) (cnt numFrames j : nat)
    (n c : string) :
  0 < numFrames → j ≠ 0 → joint_names !! j = Some n →
  c ∈ [Py.drop_last n +:+ "_Z"; Py.drop_last n +:+ "_X"; Py.drop_last n +:+ "_Y"] →
  c ∉ columns data →
  ∃ e, (set_skeleton data (Py.str cnt) numFrames host0).2 = inl e ∧ lookup_error e.
Proof.
  intros Hn Hj Hjn Hc Hmiss.
  assert (jointsJ_of (Py.str cnt) host0 !! j = Some (n +:+ Py.str cnt)) as Hjj.
  { rewrite jointsJ_of_host0.
    change (map ?f joint_names) with (f <$> joint_names).
    by rewrite list_lookup_fmap, Hjn. }
  apply (set_skeleton_raise data (Py.str cnt) numFrames host0 j Hn).
  { by eapply lookup_lt_Some. }
  cut (∃ e, jointCoord data (jointsJ_of (Py.str cnt) host0) 0 j = inl e ∧ lookup_error e).
  { intros (e & He & _). by exists e. }
  apply (jointCoord_missing data _ 0 j c); [by eapply lookup_lt_Some| |exact Hmiss].
  unfold required_columns. destruct j as [|j]; [exfalso; exact (Hj eq_refl)|].
  cbn [Nat.eqb andb].
  rewrite Hjj, jnt_of_suffixed; [exact Hc|].
  pose proof joint_names_no_digit as Hnd. rewrite Forall_forall in Hnd.
  apply Hnd. by eapply list_elem_of_lookup_2.
Qed.

(** In a scene without joints, a run that places its first frame orients
    the 21 joints below the root, once each. *)
Lemma fresh_scene_orientations (data : DataFrame value) (str_cnt : string) (n : nat) :
  (∀ j, j < 22 →
        ∃ v, jointCoord data (map (fun x => x +:+ str_cnt) joint_names) 0 j = inr v) →
  orientations (run_log (set_skeleton data str_cnt (S n)) host0) = 21.
Proof.
  intros Hok.
  destruct (set_skeleton_frame0_log data str_cnt n host0 _ _
              (create_joints_run str_cnt host0)) as (create & later & H).
  - rewrite jointsJ_of_host0, List.length_map. exact Hok.
  - destruct H as (_ & _ & _ & _ & _ & ->).
    by rewrite jointsJ_of_host0.
Qed.

End fresh_scene.

(** ** From the parsed table to the labels *)

Section analysis.

Lemma append_assoc (a b c : string) : (a +:+ b) +:+ c = a +:+ (b +:+ c).
Proof.
  induction a as [|x a IH]; [reflexivity|]. by rewrite !append_String, IH.
Qed.

Lemma drop_last2_axis (l : string) : Py.drop_last2 (l +:+ "_Z") = l.
Proof.
  unfold Py.drop_last2. rewrite append_length.
  replace (String.length l + String.length "_Z") with (S (S (String.length l)))
    by (simpl; lia).
  change (l +:+ "_Z") with (l +:+ ("_" +:+ "Z")).
  rewrite <- append_assoc. by rewrite !drop_last_snoc.
Qed.

Lemma every_third_cons3 {A} (a b c : A) (l : list A) :
  Py.every_third (a :: b :: c :: l) = a :: Py.every_third l.
Proof. reflexivity. Qed.

Lemma every_third_labels_XYZ (z : string) (labels : list string) :
  Py.every_third (z :: labels_XYZ labels) = z :: map (fun l => l +:+ "_Z") labels.
Proof.
  revert z. induction labels as [|l ls IH]; intros z; [reflexivity|].
  change (labels_XYZ (l :: ls))
    with ((l +:+ "_X") :: (l +:+ "_Y") :: (l +:+ "_Z") :: labels_XYZ ls).
  rewrite every_third_cons3, IH. reflexivity.
Qed.

(** [analyze_data] on a table laid out by [labels_XYZ] finds the labels
    again, in order, and gives each the counter of [increment_labels]. *)
Lemma analyze_data_parsed {A} (objs : list string) (data : DataFrame A)
    (labels : list string) :
  columns data = labels_XYZ labels →
  analyze_data objs data
  = ((increment_labels objs labels).2, (increment_labels objs labels).1, shape0 data).
Proof.
  intros Hcols. unfold analyze_data. rewrite Hcols.
  assert (map Py.drop_last2 (Py.slice_2_step3 (labels_XYZ labels)) = labels) as ->.
  { unfold Py.slice_2_step3. destruct labels as [|l ls]; [reflexivity|].
    change (drop 2 (labels_XYZ (l :: ls))) with ((l +:+ "_Z") :: labels_XYZ ls).
    rewrite every_third_labels_XYZ.
    change (map Py.drop_last2 (?a :: ?b)) with (Py.drop_last2 a :: map Py.drop_last2 b).
    rewrite drop_last2_axis, List.map_map. f_equal.
    transitivity (map id ls); [|apply List.map_id].
    apply List.map_ext. intros m. apply drop_last2_axis. }
  reflexivity.
Qed.

End analysis.

(** * Further properties of the import pipeline *)

(** ** The counter after earlier imports *)

Section earlier_imports.

Lemma probe_counts (objs labels : list string) (k cnt : nat) :
  (∀ l c, l ∈ labels → cnt ≤ c ≤ cnt + length labels →
          collides objs l c = bool_decide (c ≤ k)) →
  probe objs labels cnt
  = if bool_decide (cnt ≤ k) then S k `min` (cnt + length labels) else cnt.
Proof.
  revert cnt. induction labels as [|l ls IH]; intros cnt Hobjs.
  - cbn [probe length]. case_bool_decide; lia.
  - cbn [probe]. rewrite (Hobjs l cnt) by first [by left | cbn [length]; lia].
    assert (∀ c0, cnt ≤ c0 → ∀ l' c, l' ∈ ls → c0 ≤ c ≤ c0 + length ls →
              c0 + length ls ≤ cnt + length (l :: ls) →
              collides objs l' c = bool_decide (c ≤ k)) as Hsub.
    { intros c0 Hc0 l' c Hl' Hc Hle. apply Hobjs; [by right|lia]. }
    cbn [length] in *.
    case_bool_decide as Hk.
    + rewrite IH by (intros l' c Hl' Hc; apply (Hsub (S cnt)); (done || lia)).
      case_bool_decide; lia.
    + rewrite IH by (intros l' c Hl' Hc; apply (Hsub cnt); (done || lia)).
      rewrite bool_decide_eq_false_2 by done. reflexivity.
Qed.

End earlier_imports.

(** X1: when the scene holds, for every label, the names of the counters
    1 to [k] and no other probed one (it has seen [k] imports of these
    labels), the counter returned is [1 + min k (len labels)]; the
    returned names are free exactly when [k <= len labels]. *)
Theorem increment_labels_after_imports (objs labels : list string) (k : nat) :
  (∀ l c, l ∈ labels → 1 ≤ c ≤ 1 + length labels →
          collides objs l c = bool_decide (c ≤ k)) →
  (increment_labels objs labels).1 = Py.str (1 + k `min` length labels)
  ∧ (k ≤ length labels →
       ∀ l, l ∈ labels → collides objs l (1 + k `min` length labels) = false)
  ∧ (length labels < k →
       ∀ l, l ∈ labels → collides objs l (1 + k `min` length labels) = true).
Proof.
  intros Hobjs.
  assert (probe objs labels 1 = 1 + k `min` length labels) as Hprobe.
  { rewrite (probe_counts objs labels k 1 Hobjs). case_bool_decide; lia. }
  split; [unfold increment_labels; simpl; by rewrite Hprobe|].
  split; intros Hk l Hl; rewrite Hobjs by (done || lia).
  - apply bool_decide_eq_false_2. lia.
  - apply bool_decide_eq_true_2. lia.
Qed.

Lemma increment_labels_after_imports_witness :
  (increment_labels ["A1"; "B1"; "A2"; "BJ2"] ["A"; "B"]).1 = Py.str (1 + 2 `min` 2)
  ∧ (2 ≤ 2 → ∀ l, l ∈ ["A"; "B"] →
       collides ["A1"; "B1"; "A2"; "BJ2"] l (1 + 2 `min` 2) = false)
  ∧ (2 < 2 → ∀ l, l ∈ ["A"; "B"] →
       collides ["A1"; "B1"; "A2"; "BJ2"] l (1 + 2 `min` 2) = true).
Proof.
  apply (increment_labels_after_imports ["A1"; "B1"; "A2"; "BJ2"] ["A"; "B"] 2).
  intros l c Hl Hc. simpl in Hc.
  assert (c = 1 ∨ c = 2 ∨ c = 3) as Hcases by lia.
  apply elem_of_cons in Hl as [-> | Hl];
    [|apply elem_of_cons in Hl as [-> | Hl]; [|by apply elem_of_nil in Hl]];
    destruct Hcases as [-> | [-> | ->]]; reflexivity.
Defined.

(** X2: distinct labels get distinct names, one per label and in the
    order of the labels. *)
Theorem increment_labels_NoDup (objs labels : list string) :
  NoDup labels →
  NoDup (increment_labels objs labels).2
  ∧ length (increment_labels objs labels).2 = length labels.
Proof.
  intros Hnd. unfold increment_labels. cbn [snd].
  split; [|apply List.length_map].
  change (map ?f labels) with (f <$> labels).
  apply NoDup_fmap_2; [|done]. intros a b H. by apply append_inj_l in H.
Qed.

Lemma increment_labels_NoDup_witness :
  NoDup (increment_labels ["A1"] ["A"; "B"]).2
  ∧ length (increment_labels ["A1"] ["A"; "B"]).2 = length ["A"; "B"].
Proof. apply (increment_labels_NoDup ["A1"] ["A"; "B"]). compute_done. Defined.

(** ** What every parsed table looks like *)

Section parsed_tables.

Lemma to_row_length (w : nat) (r : list string) : length (Csv.to_row w r) = w.
Proof. unfold Csv.to_row. apply length_resize. Qed.

Lemma records_length (k : nat) (file : list string) :
  length (Csv.records k file)
  = length (filter (fun l => Csv.blank l = false) (drop k file)).
Proof. unfold Csv.records. apply List.length_map. Qed.

(** Lines 98-104, when they return: the columns come from the header
    names alone, and every record after the fifth line is one row, cut
    or padded to the width of the columns. *)
Lemma trc_data_inv (file : list string) (t : DataFrame Csv.cell) :
  trc_data file = inr t →
  ∃ cols,
    Csv.read_columns file = inr cols
    ∧ columns t = labels_XYZ (Py.slice_2_m1_step3 cols)
    ∧ NoDup (columns t)
    ∧ shape0 t = length (Csv.records 5 file)
    ∧ Forall (fun row => length row = length (columns t)) (rows t).
Proof.
  unfold trc_data. destruct (Csv.read_columns file) as [e|cols]; [discriminate|].
  unfold mbind, mret, result_bind, result_ret, Csv.read_data.
  set (labels := Py.slice_2_m1_step3 cols).
  case_bool_decide as Hnd; [|discriminate].
  assert (NoDup (labels_XYZ labels)) as Hnd'.
  { by apply NoDup_cons in Hnd as [_ [_ ?]%NoDup_cons]. }
  assert (∀ recs : list (list string),
    Forall (fun row => length row = length (labels_XYZ labels))
      (map (drop 2)
         (map (Csv.to_row (length (["Frame#"; "Time"] ++ labels_XYZ labels))) recs)))
    as Hrows.
  { intros recs. apply Forall_forall. intros row Hrow.
    apply list_elem_of_In, in_map_iff in Hrow as (r & <- & Hr).
    apply in_map_iff in Hr as (r0 & <- & _).
    rewrite length_drop, to_row_length. simpl. lia. }
  destruct (Csv.records 5 file) as [|r1 rest] eqn:Hrec.
  - intros [= <-]. exists cols. unfold shape0. simpl. repeat split; try done.
  - destruct (Csv.too_wide _ _); [discriminate|].
    intros [= <-]. exists cols. unfold shape0, iloc_cols_from2. cbn [columns rows drop app].
    split; [done|]. split; [done|]. split; [done|].
    split; [simpl; by rewrite !List.length_map|]. exact (Hrows (r1 :: rest)).
Qed.

Lemma df_from_trc_inr (file : list string) (header : list (Csv.cell * Csv.cell))
    (t : DataFrame Csv.cell) :
  df_from_trc file = inr (header, t) → trc_header file = inr header ∧ trc_data file = inr t.
Proof.
  unfold df_from_trc, mbind, mret, result_bind, result_ret.
  destruct (trc_header file) as [e|hdr]; [discriminate|].
  destruct (trc_data file) as [e|t']; [discriminate|]. by intros [= -> ->].
Qed.

Lemma filter_all_blank (lines : list string) :
  Forall (fun l => Csv.blank l = true) lines →
  filter (fun l => Csv.blank l = false) lines = [].
Proof.
  induction 1 as [|l lines Hl _ IH]; [reflexivity|].
  rewrite filter_cons_False by congruence. exact IH.
Qed.

End parsed_tables.

(** X3: whatever file it was read from, a table [df_from_trc] returns is
    rectangular; its columns are the three columns [l_X], [l_Y], [l_Z] of
    some labels, in order and pairwise distinct, and it has one row for
    each non-blank line after the fifth line of the file. *)
Theorem df_from_trc_table_invariant (file : list string)
    (header : list (Csv.cell * Csv.cell)) (t : DataFrame Csv.cell) :
  df_from_trc file = inr (header, t) →
  ∃ labels,
    columns t = labels_XYZ labels
    ∧ NoDup (columns t)
    ∧ Forall (fun row => length row = 3 * length labels) (rows t)
    ∧ shape0 t = length (filter (fun l => Csv.blank l = false) (drop 5 file)).
Proof.
  intros [_ Hdata]%df_from_trc_inr.
  apply trc_data_inv in Hdata as (cols & _ & Hcols & Hnd & Hshape & Hrows).
  exists (Py.slice_2_m1_step3 cols).
  split; [done|]. split; [done|]. split; [|by rewrite Hshape, records_length].
  by rewrite <- length_labels_XYZ, <- Hcols.
Qed.

Lemma df_from_trc_table_invariant_witness :
  ∃ labels,
    columns one_marker_table = labels_XYZ labels
    ∧ NoDup (columns one_marker_table)
    ∧ Forall (fun row => length row = 3 * length labels) (rows one_marker_table)
    ∧ shape0 one_marker_table
      = length (filter (fun l => Csv.blank l = false) (drop 5 bad_metadata_file)).
Proof.
  apply (df_from_trc_table_invariant bad_metadata_file
           [(Csv.Field "Rate", Csv.Field "60"); (Csv.Field "Markers", Csv.Field "7")]).
  vm_compute. reflexivity.
Defined.

(** X4: [df_from_trc] followed by [analyze_data]: the labels are the
    header names at positions 2, 5, 8, ... before the last one, each with
    the counter of [increment_labels], and the number of frames is the
    number of non-blank lines after the fifth line of the file. *)
Theorem analyze_data_of_parsed (file objs : list string)
    (header : list (Csv.cell * Csv.cell)) (t : DataFrame Csv.cell) :
  df_from_trc file = inr (header, t) →
  ∃ cols,
    Csv.read_columns file = inr cols
    ∧ analyze_data objs t
      = ((increment_labels objs (Py.slice_2_m1_step3 cols)).2,
         (increment_labels objs (Py.slice_2_m1_step3 cols)).1,
         length (filter (fun l => Csv.blank l = false) (drop 5 file))).
Proof.
  intros [_ Hdata]%df_from_trc_inr.
  apply trc_data_inv in Hdata as (cols & Hread & Hcols & _ & Hshape & _).
  exists cols. split; [done|].
  rewrite (analyze_data_parsed objs t _ Hcols). by rewrite Hshape, records_length.
Qed.

Lemma analyze_data_of_parsed_witness :
  ∃ cols,
    Csv.read_columns bad_metadata_file = inr cols
    ∧ analyze_data ["M11"] one_marker_table
      = ((increment_labels ["M11"] (Py.slice_2_m1_step3 cols)).2,
         (increment_labels ["M11"] (Py.slice_2_m1_step3 cols)).1,
         length (filter (fun l => Csv.blank l = false) (drop 5 bad_metadata_file))).
Proof.
  apply (analyze_data_of_parsed bad_metadata_file ["M11"]
           [(Csv.Field "Rate", Csv.Field "60"); (Csv.Field "Markers", Csv.Field "7")]).
  vm_compute. reflexivity.
Defined.

(** X5: a file with nothing but blank lines after its third line (a file
    of three lines or fewer among them) has no column header line, and
    [df_from_trc] raises. *)
Theorem df_from_trc_no_header_line (file : list string) :
  Forall (fun l => Csv.blank l = true) (drop 3 file) →
  trc_data file = inl EmptyDataError ∧ ∃ e, df_from_trc file = inl e.
Proof.
  intros Hblank.
  assert (trc_data file = inl EmptyDataError) as Hdata.
  { unfold trc_data, Csv.read_columns, Csv.records.
    by rewrite filter_all_blank. }
  split; [done|]. unfold df_from_trc. rewrite Hdata.
  unfold mbind, result_bind. destruct (trc_header file) as [e|hdr]; eauto.
Qed.

Lemma df_from_trc_no_header_line_witness :
  trc_data [banner_line; keys_line; values_line "0" "0"; ""] = inl EmptyDataError
  ∧ ∃ e, df_from_trc [banner_line; keys_line; values_line "0" "0"; ""] = inl e.
Proof.
  apply (df_from_trc_no_header_line [banner_line; keys_line; values_line "0" "0"; ""]).
  repeat constructor.
Defined.

(** ** A header line that ends with its last label *)

Section short_header.

Lemma every_third_triples (labels xs : list string) :
  length xs = 3 * length labels →
  (∀ k l, labels !! k = Some l → xs !! (3 * k) = Some l) →
  Py.every_third xs = labels.
Proof.
  revert xs. induction labels as [|l ls IH]; intros xs Hlen Hxs.
  - by destruct xs.
  - destruct xs as [|a [|b [|c xs]]]; simpl in Hlen; try lia.
    pose proof (Hxs 0 l eq_refl) as Ha. simpl in Ha. injection Ha as ->.
    rewrite every_third_cons3. f_equal. apply IH; [lia|].
    intros k m Hk. specialize (Hxs (S k) m Hk).
    by replace (3 * S k) with (S (S (S (3 * k)))) in Hxs by lia.
Qed.

(** The labels found when the header line has no field after its last
    label: that label is not among them. *)
Lemma labels_of_short_header (labels : list string) (z : string) :
  "" ∉ labels →
  Py.slice_2_m1_step3 (imap Csv.unnamed (header_fields labels ++ [z])) = labels.
Proof.
  intros Hne. unfold Py.slice_2_m1_step3, header_fields.
  change (("Frame#" :: "Time" :: ?ys) ++ [z]) with ("Frame#" :: "Time" :: (ys ++ [z])).
  cbn [imap]. rewrite imap_app. cbn [imap].
  rewrite removelast_cons2 by (by destruct (imap _ _)).
  rewrite removelast_last. cbn [skipn]. rewrite drop_0.
  apply every_third_triples; [by rewrite length_imap, triples_length|].
  intros k l Hk. rewrite list_lookup_imap, (triples_lookup labels k l Hk).
  simpl. f_equal. apply unnamed_nonempty. intros ->. apply Hne.
  by eapply list_elem_of_lookup_2.
Qed.

Lemma read_columns_header (banner keys vals hdr : string) (rest : list string) :
  Csv.blank hdr = false →
  Csv.read_columns (banner :: keys :: vals :: hdr :: rest)
  = inr (Csv.mangle (Csv.split_tab hdr)).
Proof.
  intros Hhdr. unfold Csv.read_columns.
  by rewrite !records_skip, records_0_cons.
Qed.

End short_header.

(** X6: when the column header line ends with its last label (no empty
    field follows it), [df_from_trc] leaves that marker out: the table
    has the columns of the other labels only, and its rows are cut to
    them. *)
Theorem df_from_trc_drops_last_label (banner keys vals : string) (rest : list string)
    (labels : list string) (z : string)
    (header : list (Csv.cell * Csv.cell)) (t : DataFrame Csv.cell) :
  Forall (fun l => tab_free l = true) labels → tab_free z = true →
  "" ∉ labels →
  NoDup (imap Csv.unnamed (header_fields labels ++ [z])) →
  df_from_trc (banner :: keys :: vals :: join_tab (header_fields labels ++ [z]) :: rest)
  = inr (header, t) →
  columns t = labels_XYZ labels
  ∧ Forall (fun row => length row = 3 * length labels) (rows t).
Proof.
  intros Htab Hz Hne Hnd [_ Hdata]%df_from_trc_inr.
  apply trc_data_inv in Hdata as (cols & Hread & Hcols & _ & _ & Hrows).
  assert (Forall (fun f => tab_free f = true) (header_fields labels ++ [z])) as Hhf.
  { apply Forall_app. split; [|by repeat constructor].
    unfold header_fields. repeat (constructor; [reflexivity|]).
    apply Forall_forall. intros f Hf. apply list_elem_of_In, in_flat_map in Hf.
    destruct Hf as (l & Hl & Hf). apply list_elem_of_In in Hl.
    rewrite Forall_forall in Htab. simpl in Hf.
    destruct Hf as [<- | [<- | [<- | []]]]; [by apply Htab|reflexivity|reflexivity]. }
  rewrite read_columns_header in Hread.
  2:{ apply blank_join. rewrite length_app. simpl. lia. }
  rewrite split_tab_join in Hread by (done || by destruct labels).
  rewrite mangle_fresh in Hread by done.
  assert (cols = imap Csv.unnamed (header_fields labels ++ [z])) as -> by congruence.
  rewrite labels_of_short_header in Hcols by done.
  split; [done|]. by rewrite <- length_labels_XYZ, <- Hcols.
Qed.

Lemma df_from_trc_drops_last_label_witness :
  columns short_header_table = labels_XYZ ["A"]
  ∧ Forall (fun row => length row = 3 * length ["A"]) (rows short_header_table).
Proof.
  apply (df_from_trc_drops_last_label banner_line keys_line (values_line "1" "2")
           [join_tab [""; ""; "X1"; "Y1"; "Z1"; "X2"; "Y2"; "Z2"];
            join_tab ["1"; "0.0"; "1"; "2"; "3"; "4"; "5"; "6"]]
           ["A"] "B"
           (zip (Csv.to_row 8 (Csv.split_tab keys_line))
                (Csv.to_row 8 (Csv.split_tab (values_line "1" "2"))))).
  - repeat constructor.
  - reflexivity.
  - compute_done.
  - compute_done.
  - vm_compute. reflexivity.
Defined.

(** ** Marker placement as a whole *)

Section markers.

Lemma for_each_only {A} (xs : list A) (body : A → M unit) (e : exn) :
  (∀ x h, x ∈ xs → (body x h).2 = inr tt ∨ (body x h).2 = inl e) →
  ∀ h, (for_each xs body h).2 = inr tt ∨ (for_each xs body h).2 = inl e.
Proof.
  induction xs as [|x xs IH]; intros Hall h; [by left|].
  simpl. unfold mbind, M_bind.
  destruct (Hall x h ltac:(by left)) as [Hx|Hx];
    destruct (body x h) as [h1 [e'|[]]]; simpl in Hx; try discriminate.
  - apply IH. intros y h' Hy. apply Hall. by right.
  - right. simpl. congruence.
Qed.

Lemma only_logs_ret {A} (x : A) : only_logs (mret x).
Proof. intros h. exists []. simpl. by rewrite emit_all_nil. Qed.

Lemma only_logs_lift {A} (r : result A) : only_logs (lift r).
Proof. intros h. exists []. simpl. by rewrite emit_all_nil. Qed.

Lemma only_logs_bind {A B} (m : M A) (f : A → M B) :
  only_logs m → (∀ x, only_logs (f x)) → only_logs (m ≫= f).
Proof.
  intros Hm Hf h. destruct (Hm h) as (cs1 & E1).
  unfold mbind, M_bind. destruct (m h) as [h1 [e|x]]; simpl in *.
  - by exists cs1.
  - destruct (Hf x h1) as (cs2 & E2). exists (cs1 ++ cs2).
    by rewrite E2, E1, emit_all_app.
Qed.

Lemma only_logs_for_each {A} (xs : list A) (body : A → M unit) :
  (∀ x, only_logs (body x)) → only_logs (for_each xs body).
Proof.
  intros H. induction xs as [|x xs IH]; simpl; [apply only_logs_ret|].
  apply only_logs_bind; [apply H|]. intros _. apply IH.
Qed.

Lemma only_logs_emit (c : call) (m : M unit) :
  (∀ h, (m h).1 = emit c h) → only_logs m.
Proof. intros Hm h. exists [c]. apply Hm. Qed.

Lemma only_logs_place_marker (data : DataFrame value) (labels : list string) (i j : nat) :
  only_logs (place_marker data labels i j).
Proof.
  unfold place_marker.
  repeat first
    [ apply only_logs_bind; [apply only_logs_lift|intros ?]
    | apply only_logs_bind; [by eapply only_logs_emit|intros ?] ].
  by eapply only_logs_emit.
Qed.

Lemma iloc_error {A} (data : DataFrame A) (i k : nat) (e : exn) :
  iloc data i k = inl e → e = IndexError.
Proof.
  unfold iloc, raise. destruct (rows data !! i) as [r|]; [|congruence].
  destruct (r !! k); congruence.
Qed.

Lemma place_marker_only_IndexError (data : DataFrame value) (labels : list string)
    (i j : nat) (h : host) :
  (place_marker data labels i j h).2 = inr tt
  ∨ (place_marker data labels i j h).2 = inl IndexError.
Proof.
  unfold place_marker, mbind, M_bind, lift, index, raise.
  destruct (labels !! j) as [l|]; [|by right].
  repeat match goal with
         | |- context [iloc ?d ?a ?b] =>
             let E := fresh "E" in
             destruct (iloc d a b) eqn:E;
             [apply iloc_error in E; subst; by right|]
         end.
  by left.
Qed.

Lemma instances_run (l_0 : string) (rest : list string) (h : host) :
  ∃ h', for_each rest (cmds.instance l_0) h = (h', inr tt)
        ∧ nodes h' = nodes h ++ map (fun n => (n, None)) rest
        ∧ log h' = log h ++ map (instance l_0) rest.
Proof.
  revert h. induction rest as [|n rest IH]; intros h.
  - exists h. simpl. by rewrite !app_nil_r.
  - destruct (IH (cmds.instance l_0 n h).1) as (h' & Hrun & Hnodes & Hlog).
    exists h'. split; [|split].
    + cbn [for_each]. erewrite bind_inr; [exact Hrun|reflexivity].
    + rewrite Hnodes. simpl. by rewrite <- app_assoc.
    + rewrite Hlog. simpl. by rewrite <- app_assoc.
Qed.

(** Lines 143-147 never raise: one object per label is added to the
    scene, the first a sphere and the others instances of it. *)
Lemma create_markers_run (labels : list string) (h : host) :
  ∃ h', create_markers labels h = (h', inr tt)
        ∧ nodes h' = nodes h ++ map (fun n => (n, None)) labels
        ∧ log h' = log h ++ creation_calls labels.
Proof.
  unfold create_markers. destruct labels as [|l_0 rest].
  - exists h. simpl. by rewrite !app_nil_r.
  - replace (range 0 (length (l_0 :: rest))) with (0 :: seq 1 (length rest))
      by reflexivity.
    destruct (instances_run l_0 rest (cmds.polySphere l_0 h).1)
      as (h' & Hrun & Hnodes & Hlog).
    exists h'. split; [|split].
    + cbn [for_each]. erewrite bind_inr; [|reflexivity].
      rewrite (for_each_seq_lookup rest 1 _ (cmds.instance l_0)); [exact Hrun|].
      intros j x h1 Hj. unfold mbind, M_bind, lift, index.
      change ((l_0 :: rest) !! (1 + j)) with (rest !! j). by rewrite Hj.
    + rewrite Hnodes. simpl. by rewrite <- app_assoc.
    + rewrite Hlog. simpl. by rewrite <- app_assoc.
Qed.

Lemma place_marker_ok (data : DataFrame value) (labels : list string) (i j : nat)
    (h : host) :
  j < length labels →
  (∀ k, k < 3 * length labels → ∃ v, iloc data i k = inr v) →
  place_marker data labels i j h
  = (emit_all
       match labels !! j, iloc data i (3 * j + 2), iloc data i (3 * j),
             iloc data i (3 * j + 1) with
       | Some l_j, inr x, inr y, inr z =>
           [setKeyframe_at l_j i "translateX" x;
            setKeyframe_at l_j i "translateY" y;
            setKeyframe_at l_j i "translateZ" z]
       | _, _, _, _ => []
       end h, inr tt).
Proof.
  intros Hj Hcells.
  destruct (lookup_lt_is_Some_2 labels j Hj) as [l Hl].
  destruct (Hcells (3 * j + 2) ltac:(lia)) as [x Hx].
  destruct (Hcells (3 * j) ltac:(lia)) as [y Hy].
  destruct (Hcells (3 * j + 1) ltac:(lia)) as [z Hz].
  unfold place_marker, index. rewrite Hl, Hx, Hy, Hz.
  unfold mbind, M_bind, lift, cmds.setKeyframe_at, emit, emit_all. simpl.
  by rewrite <- !app_assoc.
Qed.

(** With a cell for every column of every label at every frame, nothing
    raises, and every round of the loops logs its three keyframes. *)
Lemma set_markers_ok (data : DataFrame value) (labels : list string)
    (numFrames : nat) (h : host) :
  (∀ i k, i < numFrames → k < 3 * length labels → ∃ v, iloc data i k = inr v) →
  ∃ h', nodes h' = nodes h ++ map (fun n => (n, None)) labels
        ∧ log h' = log h ++ creation_calls labels
        ∧ set_markers data labels numFrames h
          = (emit_all (flat_map (marker_keys data labels) (range 0 numFrames)) h', inr tt).
Proof.
  intros Hcells.
  destruct (create_markers_run labels h) as (h' & Hrun & Hnodes & Hlog).
  exists h'. split; [exact Hnodes|]. split; [exact Hlog|].
  unfold set_markers. erewrite bind_inr by exact Hrun.
  apply (for_each_ok (fun _ => True)); [done| |done].
  intros i h1 Hi _. apply elem_of_seq in Hi.
  apply (for_each_ok (fun _ => True)); [done| |done].
  intros j h2 Hj _. apply elem_of_seq in Hj.
  apply place_marker_ok; [lia|]. intros k Hk. apply Hcells; lia.
Qed.

Lemma set_markers_only_logs (data : DataFrame value) (labels : list string)
    (numFrames : nat) (h : host) :
  ∃ h' cs, nodes h' = nodes h ++ map (fun n => (n, None)) labels
           ∧ log h' = log h ++ creation_calls labels
           ∧ (set_markers data labels numFrames h).1 = emit_all cs h'.
Proof.
  destruct (create_markers_run labels h) as (h' & Hrun & Hnodes & Hlog).
  assert (only_logs (for_each (range 0 numFrames) (fun i =>
            for_each (range 0 (length labels)) (fun j => place_marker data labels i j))))
    as Honly.
  { apply only_logs_for_each. intros i. apply only_logs_for_each. intros j.
    apply only_logs_place_marker. }
  destruct (Honly h') as (cs & Hcs).
  exists h', cs. split; [exact Hnodes|]. split; [exact Hlog|].
  unfold set_markers. erewrite bind_inr by exact Hrun. exact Hcs.
Qed.

(** The objects created for the labels are in the scene after any run. *)
Lemma set_markers_nodes (data : DataFrame value) (labels : list string)
    (numFrames : nat) (h : host) :
  nodes (set_markers data labels numFrames h).1
  = nodes h ++ map (fun n => (n, None)) labels.
Proof.
  destruct (set_markers_only_logs data labels numFrames h) as (h' & cs & Hn & _ & ->).
  exact Hn.
Qed.

End markers.

(** X7: when the table has a cell for each of the three columns of every
    label at every frame below [numFrames], [set_markers] returns
    normally; it has added one object per label to the scene, and its log
    is the creation of the objects followed, frame after frame and marker
    after marker, by the three keyframes of the marker. *)
Theorem set_markers_log (data : DataFrame value) (labels : list string)
    (numFrames : nat) (h : host) :
  (∀ i k, i < numFrames → k < 3 * length labels → ∃ v, iloc data i k = inr v) →
  (set_markers data labels numFrames h).2 = inr tt
  ∧ run_log (set_markers data labels numFrames) h
    = creation_calls labels ++ flat_map (marker_keys data labels) (range 0 numFrames)
  ∧ nodes (set_markers data labels numFrames h).1
    = nodes h ++ map (fun n => (n, None)) labels.
Proof.
  intros Hcells.
  destruct (set_markers_ok data labels numFrames h Hcells) as (h' & Hnodes & Hlog & Hall).
  unfold run_log. rewrite Hall. cbn [fst snd].
  split; [done|]. split; [|exact Hnodes].
  rewrite log_emit_all, Hlog, <- app_assoc. by rewrite drop_app_length.
Qed.

Lemma set_markers_log_witness :
  let data := mkDataFrame (labels_XYZ ["A"; "B"]) [map F64 [1; 2; 3; 4; 5; 6]%float] in
  (set_markers data ["A1"; "B1"] 1 host0).2 = inr tt
  ∧ run_log (set_markers data ["A1"; "B1"] 1) host0
    = creation_calls ["A1"; "B1"] ++ flat_map (marker_keys data ["A1"; "B1"]) (range 0 1)
  ∧ nodes (set_markers data ["A1"; "B1"] 1 host0).1
    = nodes host0 ++ map (fun n => (n, None)) ["A1"; "B1"].
Proof.
  apply (set_markers_log (mkDataFrame (labels_XYZ ["A"; "B"]) [map F64 [1; 2; 3; 4; 5; 6]%float])
           ["A1"; "B1"] 1 host0).
  intros i k Hi Hk.
  assert (i = 0) as -> by lia.
  do 6 (destruct k as [|k]; [eexists; reflexivity|]).
  simpl in Hk. lia.
Defined.

(** X8: [set_markers] raises nothing but [IndexError]; and whether it
    returns or raises, the objects it created for the labels stay in the
    scene: nothing is removed after a failure, and the log starts with
    their creation. *)
Theorem set_markers_outcome (data : DataFrame value) (labels : list string)
    (numFrames : nat) (h : host) :
  ((set_markers data labels numFrames h).2 = inr tt
   ∨ (set_markers data labels numFrames h).2 = inl IndexError)
  ∧ nodes (set_markers data labels numFrames h).1
    = nodes h ++ map (fun n => (n, None)) labels
  ∧ ∃ cs, run_log (set_markers data labels numFrames) h = creation_calls labels ++ cs.
Proof.
  split; [|split; [apply set_markers_nodes|]].
  - destruct (create_markers_run labels h) as (h' & Hrun & _).
    unfold set_markers. erewrite bind_inr by exact Hrun.
    apply for_each_only. intros i h1 _. apply for_each_only. intros j h2 _.
    apply place_marker_only_IndexError.
  - destruct (set_markers_only_logs data labels numFrames h)
      as (h' & cs & _ & Hlog & Hcs).
    exists cs. unfold run_log.
    rewrite Hcs, log_emit_all, Hlog, <- app_assoc. by rewrite drop_app_length.
Qed.

(** X9: when there is a label and [numFrames] exceeds the number of rows
    of the table, [set_markers] raises [IndexError] after the markers
    have been created. *)
Theorem set_markers_frames_beyond_table (data : DataFrame value) (labels : list string)
    (numFrames : nat) (h : host) :
  labels ≠ [] → shape0 data < numFrames →
  (set_markers data labels numFrames h).2 = inl IndexError
  ∧ nodes (set_markers data labels numFrames h).1
    = nodes h ++ map (fun n => (n, None)) labels.
Proof.
  intros Hlabels Hframes.
  destruct (create_markers_run labels h) as (h' & Hrun & Hnodes & Hlog).
  pose (frames := for_each (range 0 numFrames) (fun i =>
          for_each (range 0 (length labels)) (fun j => place_marker data labels i j))).
  assert (set_markers data labels numFrames h = frames h') as Hall
    by (unfold set_markers; by erewrite bind_inr by exact Hrun).
  rewrite Hall. split.
  - apply (for_each_some_raise _ _ IndexError (shape0 data)).
    + intros i h1 _. apply for_each_only. intros j h2 _.
      apply place_marker_only_IndexError.
    + apply elem_of_seq. lia.
    + intros h1. apply (for_each_some_raise _ _ IndexError 0).
      * intros j h2 _. apply place_marker_only_IndexError.
      * apply elem_of_seq. destruct labels; [done|simpl; lia].
      * intros h2. destruct labels as [|l_0 rest]; [done|].
        unfold place_marker, mbind, M_bind, lift, index, iloc, shape0. simpl.
        by rewrite lookup_ge_None_2 by lia.
  - rewrite <- Hall. apply set_markers_nodes.
Qed.

Lemma set_markers_frames_beyond_table_witness :
  let data := mkDataFrame (labels_XYZ ["A"]) [map F64 [1; 2; 3]%float] in
  (set_markers data ["A1"] 2 host0).2 = inl IndexError
  ∧ nodes (set_markers data ["A1"] 2 host0).1
    = nodes host0 ++ map (fun n => (n, None)) ["A1"].
Proof.
  apply (set_markers_frames_beyond_table
           (mkDataFrame (labels_XYZ ["A"]) [map F64 [1; 2; 3]%float]) ["A1"] 2 host0);
    [done|unfold shape0; simpl; lia].
Defined.

(** ** The skeleton in any scene *)

Section skeleton_scene.

Lemma joints_loop_nodes (s : string) (xs : list (option Node * Node)) (h : host) :
  nodes (for_each xs (fun '(parent, node) =>
           if decide (name node ≠ name root) then
             cmds.select (Some (from_option name "" parent +:+ s)) false ;;
             cmds.joint (name node +:+ s)
           else mret tt) h).1
  = nodes h ++ flat_map (fun '(parent, node) =>
      if decide (name node ≠ name root) then
        [(name node +:+ s, Some (from_option name "" parent +:+ s))]
      else []) xs.
Proof.
  revert h. induction xs as [|[parent node] xs IH]; intros h.
  - simpl. by rewrite app_nil_r.
  - cbn [for_each flat_map]. destruct (decide (name node ≠ name root)).
    + rewrite bind_total by reflexivity. rewrite IH.
      cbn [fst nodes]. unfold mbind, M_bind. simpl. by rewrite <- app_assoc.
    + rewrite bind_total by reflexivity. rewrite IH. reflexivity.
Qed.

Lemma tree_scene_created (s : string) :
  [(name root +:+ s, None)]
  ++ flat_map (fun '(parent, node) =>
       if decide (name node ≠ name root) then
         [(name node +:+ s, Some (from_option name "" parent +:+ s))]
       else []) (RenderTree root)
  = map (suffixed s) tree_scene.
Proof. lazy. reflexivity. Qed.

(** Lines 170-175 in any scene: one joint per node of the tree is added,
    in pre-order, each below the joint of its tree parent. *)
Lemma create_joints_loop (s : string) (h : host) :
  ∃ h3 : host,
    create_joints s h
    = (mkHost (nodes h3)
         (cmds.hierarchy (length (nodes h3)) (nodes h3) ("CHipJ" +:+ s))
         (log h3 ++ [select (Some ("CHipJ" +:+ s)) true]),
       inr (cmds.hierarchy (length (nodes h3)) (nodes h3) ("CHipJ" +:+ s)))
    ∧ nodes h3 = nodes h ++ map (suffixed s) tree_scene.
Proof.
  unfold create_joints.
  rewrite bind_total by reflexivity.
  rewrite bind_total by reflexivity.
  rewrite bind_total.
  2:{ apply for_each_total. intros [p n] h' _. by destruct (decide _). }
  rewrite bind_total by reflexivity.
  eexists. split; [reflexivity|].
  rewrite joints_loop_nodes.
  rewrite <- tree_scene_created, app_assoc. reflexivity.
Qed.

Lemma created_nodes (s : string) (h : host) :
  nodes (created s h) = nodes h ++ map (suffixed s) tree_scene.
Proof.
  unfold created. destruct (create_joints_loop s h) as (h3 & -> & Hn). exact Hn.
Qed.

Lemma children_of_app (ns ms : list (string * option string)) (p : string) :
  cmds.children_of (ns ++ ms) p = cmds.children_of ns p ++ cmds.children_of ms p.
Proof. unfold cmds.children_of. by rewrite filter_app, List.map_app. Qed.

Lemma children_of_none (ns : list (string * option string)) (p : string) :
  (∀ x, x ∈ ns → x.2 ≠ Some p) → cmds.children_of ns p = [].
Proof.
  intros H. unfold cmds.children_of.
  induction ns as [|x ns IH]; [reflexivity|].
  rewrite filter_cons_False by (apply H; by left).
  apply IH. intros y Hy. apply H. by right.
Qed.

Lemma children_of_elem (ms : list (string * option string)) (p c : string) :
  c ∈ cmds.children_of ms p → c ∈ map fst ms.
Proof.
  unfold cmds.children_of. intros H.
  change (map fst ?l) with (fst <$> l) in *.
  apply list_elem_of_fmap in H as (x & -> & Hx).
  apply list_elem_of_filter in Hx as [_ Hx].
  apply list_elem_of_fmap. by exists x.
Qed.

Lemma flat_map_ext_in {A B} (f g : A → list B) (l : list A) :
  (∀ x, x ∈ l → f x = g x) → flat_map f l = flat_map g l.
Proof.
  intros H. induction l as [|x l IH]; [reflexivity|].
  cbn [flat_map]. rewrite (H x) by (by left). f_equal.
  apply IH. intros y Hy. apply H. by right.
Qed.

(** Objects that are no children of the listed names do not show in the
    hierarchy below one of these names. *)
Lemma hierarchy_app (old new : list (string * option string)) (names : list string)
    (fuel : nat) (n : string) :
  (∀ x p, x ∈ old → x.2 = Some p → p ∉ names) →
  (∀ c, c ∈ map fst new → c ∈ names) →
  n ∈ names →
  cmds.hierarchy fuel (old ++ new) n = cmds.hierarchy fuel new n.
Proof.
  intros Hold Hnew. revert n. induction fuel as [|fuel IH]; intros n Hn; [reflexivity|].
  cbn [cmds.hierarchy]. f_equal.
  rewrite children_of_app, children_of_none.
  2:{ intros x Hx Hp. by apply (Hold x n Hx Hp). }
  cbn [app]. apply flat_map_ext_in. intros c Hc.
  apply IH, Hnew. by eapply children_of_elem.
Qed.

Lemma tree_scene_parents (x : string * option string) (p : string) :
  x ∈ tree_scene → x.2 = Some p → p ∈ joint_names.
Proof.
  intros Hx Hp.
  assert (forallb (fun x : string * option string =>
            match x.2 with
            | Some p => bool_decide (p ∈ joint_names)
            | None => true
            end) tree_scene = true) as Hall by (vm_compute; reflexivity).
  rewrite List.forallb_forall in Hall.
  apply list_elem_of_In, Hall in Hx. rewrite Hp in Hx.
  by apply bool_decide_eq_true in Hx.
Qed.

(** The tree is five levels deep: more fuel lists the same joints. *)
Lemma hierarchy_tree_stable (n : string) :
  cmds.hierarchy 5 tree_scene n = cmds.hierarchy 6 tree_scene n.
Proof.
  destruct (decide (n ∈ joint_names)) as [Hn|Hn].
  - unfold joint_names in Hn. cbn in Hn.
    repeat (apply elem_of_cons in Hn as [Hn|Hn]; [by rewrite Hn|]).
    by apply elem_of_nil in Hn.
  - assert (cmds.children_of tree_scene n = []) as Hch.
    { apply children_of_none. intros x Hx Hp. apply Hn.
      by eapply tree_scene_parents. }
    cbn [cmds.hierarchy]. by rewrite Hch.
Qed.

Lemma hierarchy_tree_fuel (k : nat) (n : string) :
  cmds.hierarchy (k + 5) tree_scene n = cmds.hierarchy 5 tree_scene n.
Proof.
  revert n. induction k as [|k IH]; intros n; [reflexivity|].
  rewrite (hierarchy_tree_stable n).
  change (S k + 5) with (S (k + 5)).
  change (cmds.hierarchy (S (k + 5)) tree_scene n)
    with (n :: flat_map (cmds.hierarchy (k + 5) tree_scene) (cmds.children_of tree_scene n)).
  change (cmds.hierarchy 6 tree_scene n)
    with (n :: flat_map (cmds.hierarchy 5 tree_scene) (cmds.children_of tree_scene n)).
  f_equal. apply flat_map_ext_in. intros c _. apply IH.
Qed.

(** In a scene where no object is a child of one of the names the joints
    get, the joints listed after the creation are the joints of the tree
    in pre-order, as in the empty scene. *)
Lemma jointsJ_of_clash_free (s : string) (h : host) :
  (∀ x p, x ∈ nodes h → x.2 = Some p → p ∉ map (fun n => n +:+ s) joint_names) →
  jointsJ_of s h = map (fun n => n +:+ s) joint_names.
Proof.
  intros Hfree.
  rewrite jointsJ_of_hierarchy, created_nodes.
  rewrite (hierarchy_app _ _ (map (fun n => n +:+ s) joint_names)).
  - rewrite length_app, List.length_map.
    change "CHipJ" with (name root).
    rewrite hierarchy_suffixed. f_equal.
    assert (5 ≤ length tree_scene) as Hlen by (vm_compute; lia).
    replace (length (nodes h) + length tree_scene)
      with ((length (nodes h) + length tree_scene - 5) + 5) by lia.
    by rewrite hierarchy_tree_fuel.
  - exact Hfree.
  - intros c Hc. rewrite List.map_map in Hc.
    replace (map (fun n => n +:+ s) joint_names)
      with (map (fun x => (suffixed s x).1) tree_scene); [exact Hc|].
    unfold joint_names, tree_scene. rewrite !List.map_map.
    apply List.map_ext. by intros [p n].
  - left.
Qed.

End skeleton_scene.

(** ** Skeleton reconstruction as a whole *)

Section skeleton_outcome.

Lemma place_joints_rounds (data : DataFrame value) (jointsJ : list string) (i : nat) :
  place_joints data jointsJ i
  = for_each (range 0 (length jointsJ)) (place_joint data jointsJ i).
Proof. reflexivity. Qed.

Lemma animate_joints_rounds (data : DataFrame value) (jointsJ : list string)
    (numFrames : nat) :
  animate_joints data jointsJ numFrames
  = for_each (range 0 numFrames) (animate_frame data jointsJ).
Proof. reflexivity. Qed.

Lemma only_logs_place_joint (data : DataFrame value) (jointsJ : list string) (i j : nat) :
  only_logs (place_joint data jointsJ i j).
Proof.
  unfold place_joint.
  apply only_logs_bind; [apply only_logs_lift|]. intros [[x y] z].
  apply only_logs_bind; [apply only_logs_lift|]. intros joint_j.
  apply only_logs_bind; [by eapply only_logs_emit|]. intros _.
  apply only_logs_bind; [apply only_logs_lift|]. intros joint_j'.
  by eapply only_logs_emit.
Qed.

Lemma only_logs_place_joints (data : DataFrame value) (jointsJ : list string) (i : nat) :
  only_logs (place_joints data jointsJ i).
Proof.
  rewrite place_joints_rounds. apply only_logs_for_each. intros j.
  apply only_logs_place_joint.
Qed.

Lemma only_logs_animate_frame (data : DataFrame value) (jointsJ : list string) (i : nat) :
  only_logs (animate_frame data jointsJ i).
Proof.
  unfold animate_frame.
  apply only_logs_bind; [apply only_logs_place_joints|]. intros _.
  destruct (i =? 0)%nat; [|apply only_logs_ret].
  intros h. rewrite orient_joints_ok. by eexists.
Qed.

Lemma only_logs_animate_joints (data : DataFrame value) (jointsJ : list string)
    (numFrames : nat) :
  only_logs (animate_joints data jointsJ numFrames).
Proof.
  rewrite animate_joints_rounds. apply only_logs_for_each. intros i.
  apply only_logs_animate_frame.
Qed.

(** A command that only logs, run after a command whose log is known. *)
Lemma only_logs_bind_state {A B} (m : M A) (k : A → M B) (h : host) (cs : list call) :
  (m h).1 = emit_all cs h → (∀ x, only_logs (k x)) →
  ∃ cs', ((m ≫= k) h).1 = emit_all (cs ++ cs') h.
Proof.
  intros Hm Hk. unfold mbind, M_bind.
  destruct (m h) as [h1 [e|x]]; simpl in Hm; subst h1.
  - exists []. simpl. by rewrite app_nil_r.
  - destruct (Hk x (emit_all cs h)) as (cs' & ->). exists cs'. by rewrite emit_all_app.
Qed.

(** A loop whose rounds before [y] log [calls] and return, and whose
    round [y] starts by logging [cs]: whatever happens next, the log
    starts with the calls of these rounds and [cs]. *)
Lemma for_each_reach {A} (P : host → Prop) (xs zs : list A) (y : A)
    (body : A → M unit) (calls : A → list call) (cs : list call) :
  (∀ h cs, P h → P (emit_all cs h)) →
  (∀ x h, x ∈ xs → P h → body x h = (emit_all (calls x) h, inr tt)) →
  (∀ h, P h → ∃ cs', (body y h).1 = emit_all (cs ++ cs') h) →
  (∀ x, only_logs (body x)) →
  ∀ h, P h →
    ∃ post, (for_each (xs ++ y :: zs) body h).1
            = emit_all (flat_map calls xs ++ cs ++ post) h.
Proof.
  intros HP Hxs Hy Honly h Hh.
  rewrite for_each_app.
  erewrite bind_inr by (by apply (for_each_ok P)).
  cbn [for_each].
  destruct (Hy (emit_all (flat_map calls xs) h) (HP _ _ Hh)) as (cs' & Hcs').
  destruct (only_logs_bind_state (body y) (fun _ => for_each zs body) _ _ Hcs')
    as (cs'' & Hcs'').
  { intros _. by apply only_logs_for_each. }
  exists (cs' ++ cs''). rewrite Hcs'', emit_all_app.
  f_equal. by rewrite <- !app_assoc.
Qed.

Lemma range_split (n i : nat) :
  i < n → range 0 n = range 0 i ++ i :: seq (S i) (n - S i).
Proof.
  intros Hi. unfold range. rewrite !Nat.sub_0_r.
  replace n with (i + S (n - S i)) at 1 by lia.
  by rewrite seq_app.
Qed.

Lemma flat_map_split {B} (f : nat → list B) (n i : nat) :
  i < n →
  flat_map f (range 0 n) = flat_map f (range 0 i) ++ f i ++ flat_map f (seq (S i) (n - S i)).
Proof. intros Hi. by rewrite (range_split n i Hi), flat_map_app. Qed.

(** One round of the placement loop with coordinates for its joint. *)
Lemma place_joint_ok (data : DataFrame value) (jointsJ : list string) (i j : nat)
    (h : host) :
  j < length jointsJ → (∃ v, jointCoord data jointsJ i j = inr v) →
  place_joint data jointsJ i j h = (emit_all (joint_calls data jointsJ i j) h, inr tt).
Proof.
  intros Hlt [[[x y] z] E].
  destruct (lookup_lt_is_Some_2 jointsJ j Hlt) as [joint_j Hjj].
  unfold place_joint, joint_calls, mbind, M_bind, lift, index. rewrite E, Hjj.
  unfold cmds.move, cmds.setKeyframe, emit, emit_all. simpl.
  by rewrite <- app_assoc.
Qed.

Lemma animate_frame_ok (data : DataFrame value) (jointsJ : list string) (i : nat)
    (h : host) :
  (∀ j, j < length jointsJ → ∃ v, jointCoord data jointsJ i j = inr v) →
  animate_frame data jointsJ i h
  = (emit_all (frame_log data jointsJ (nodes h) i) h, inr tt).
Proof.
  intros Hok. unfold animate_frame, frame_log.
  erewrite bind_inr by (by apply place_joints_ok).
  destruct (i =? 0)%nat eqn:E.
  - apply Nat.eqb_eq in E as ->. rewrite orient_joints_ok.
    cbn [nodes emit_all]. by rewrite emit_all_app.
  - by rewrite app_nil_r.
Qed.

(** With coordinates for every joint at every frame, the frame loop logs
    the placement of each frame, with the orientation pass after the
    placement of frame 0. *)
Lemma animate_joints_ok (data : DataFrame value) (jointsJ : list string)
    (numFrames : nat) (h : host) :
  (∀ i j, i < numFrames → j < length jointsJ →
          ∃ v, jointCoord data jointsJ i j = inr v) →
  animate_joints data jointsJ numFrames h
  = (emit_all (flat_map (frame_log data jointsJ (nodes h)) (range 0 numFrames)) h,
     inr tt).
Proof.
  intros Hok. rewrite animate_joints_rounds.
  apply (for_each_ok (fun h' => nodes h' = nodes h)); [done| |done].
  intros i h' Hi Hn. apply elem_of_seq in Hi.
  rewrite <- Hn. apply animate_frame_ok. intros j Hj. apply Hok; [lia|done].
Qed.

(** The placement loop up to joint [j]. *)
Lemma place_joints_reach (data : DataFrame value) (jointsJ : list string) (i j : nat)
    (joint : string) (x y z : value) (h : host) :
  jointsJ !! j = Some joint →
  (∀ j', j' < j → ∃ v, jointCoord data jointsJ i j' = inr v) →
  jointCoord data jointsJ i j = inr (x, y, z) →
  ∃ post, (place_joints data jointsJ i h).1
          = emit_all (flat_map (joint_calls data jointsJ i) (range 0 j)
                      ++ [move x y z joint; setKeyframe joint i] ++ post) h.
Proof.
  intros Hjj Hbefore Hcoord.
  pose proof (lookup_lt_Some _ _ _ Hjj) as Hlt.
  rewrite place_joints_rounds, (range_split _ j Hlt).
  apply (for_each_reach (fun _ => True)); [done| | |apply only_logs_place_joint|done].
  - intros j' h' Hj' _. apply elem_of_seq in Hj'.
    apply place_joint_ok; [lia|]. apply Hbefore. lia.
  - intros h' _. exists [].
    rewrite place_joint_ok by (by eauto).
    unfold joint_calls. by rewrite Hcoord, Hjj, app_nil_r.
Qed.

(** The frame loop up to joint [j] of frame [i]. *)
Lemma animate_joints_reach (data : DataFrame value) (jointsJ : list string)
    (numFrames i j : nat) (joint : string) (x y z : value) (h : host) :
  i < numFrames → jointsJ !! j = Some joint →
  (∀ i' j', i' < i → j' < length jointsJ → ∃ v, jointCoord data jointsJ i' j' = inr v) →
  (∀ j', j' < j → ∃ v, jointCoord data jointsJ i j' = inr v) →
  jointCoord data jointsJ i j = inr (x, y, z) →
  ∃ post, (animate_joints data jointsJ numFrames h).1
          = emit_all (flat_map (frame_log data jointsJ (nodes h)) (range 0 i)
                      ++ flat_map (joint_calls data jointsJ i) (range 0 j)
                      ++ move x y z joint :: setKeyframe joint i :: post) h.
Proof.
  intros Hi Hjj Hframes Hbefore Hcoord.
  rewrite animate_joints_rounds, (range_split _ i Hi).
  destruct (for_each_reach (fun h' => nodes h' = nodes h) (range 0 i)
              (seq (S i) (numFrames - S i)) i (animate_frame data jointsJ)
              (frame_log data jointsJ (nodes h))
              (flat_map (joint_calls data jointsJ i) (range 0 j)
               ++ [move x y z joint; setKeyframe joint i])) with (h := h)
    as (post & Hpost); [done| | |apply only_logs_animate_frame|done|].
  - intros i' h' Hi' Hn. apply elem_of_seq in Hi'.
    rewrite <- Hn. apply animate_frame_ok. intros j' Hj'. apply Hframes; [lia|done].
  - intros h' _.
    destruct (place_joints_reach data jointsJ i j joint x y z h' Hjj Hbefore Hcoord)
      as (post1 & Hpost1).
    destruct (only_logs_bind_state (place_joints data jointsJ i)
                (fun _ => if (i =? 0)%nat then orient_joints jointsJ i else mret tt)
                h' _ Hpost1) as (post2 & Hpost2).
    { intros _. destruct (i =? 0)%nat; [|apply only_logs_ret].
      intros h''. rewrite orient_joints_ok. by eexists. }
    exists (post1 ++ post2). unfold animate_frame. rewrite Hpost2.
    f_equal. by rewrite <- !app_assoc.
  - exists post. rewrite Hpost. f_equal. by rewrite <- !app_assoc.
Qed.

Lemma run_log_set_skeleton (data : DataFrame value) (s : string) (numFrames : nat)
    (h : host) (cs : list call) :
  (animate_joints data (jointsJ_of s h) numFrames (created s h)).1
  = emit_all cs (created s h) →
  run_log (set_skeleton data s numFrames) h = run_log (create_joints s) h ++ cs.
Proof.
  intros Hcs. unfold run_log, set_skeleton.
  erewrite bind_inr by apply create_joints_run.
  rewrite Hcs, log_emit_all.
  destruct (logs_create_joints s h) as (cs0 & Hlog & _).
  unfold created. rewrite Hlog, <- app_assoc.
  by rewrite !drop_app_length.
Qed.

(** [set_skeleton] up to joint [j] of frame [i]. *)
Lemma set_skeleton_reaches (data : DataFrame value) (s : string)
    (numFrames i j : nat) (joint : string) (x y z : value) (h : host) :
  i < numFrames → jointsJ_of s h !! j = Some joint →
  (∀ i' j', i' < i → j' < length (jointsJ_of s h) →
            ∃ v, jointCoord data (jointsJ_of s h) i' j' = inr v) →
  (∀ j', j' < j → ∃ v, jointCoord data (jointsJ_of s h) i j' = inr v) →
  jointCoord data (jointsJ_of s h) i j = inr (x, y, z) →
  joint_placed data s numFrames h i j x y z joint.
Proof.
  intros Hi Hjj Hframes Hbefore Hcoord.
  destruct (animate_joints_reach data (jointsJ_of s h) numFrames i j joint x y z
              (created s h) Hi Hjj Hframes Hbefore Hcoord) as (post & Hpost).
  exists post. exact (run_log_set_skeleton data s numFrames h _ Hpost).
Qed.

(** *** Exceptions *)

Lemma hips_numeric_midpoint (data : DataFrame value) (i : nat) (c d : string)
    (a b : value) :
  hips_numeric data →
  c ∈ ["RHip_Z"; "LHip_Z"; "RHip_X"; "LHip_X"; "RHip_Y"; "LHip_Y"] →
  d ∈ ["RHip_Z"; "LHip_Z"; "RHip_X"; "LHip_X"; "RHip_Y"; "LHip_Y"] →
  loc data i c = inr a → loc data i d = inr b →
  ∃ f, midpoint a b = inr (F64 f).
Proof.
  intros Hnum Hc Hd Ha Hb.
  apply midpoint_numeric; [exact (Hnum c i a Hc Ha)|exact (Hnum d i b Hd Hb)].
Qed.

(** With numbers as hip samples, the coordinate lookup raises nothing
    but [KeyError]. *)
Lemma jointCoord_error_numeric (data : DataFrame value) (jointsJ : list string)
    (i j : nat) (e : exn) :
  hips_numeric data → j < length jointsJ →
  jointCoord data jointsJ i j = inl e → e = KeyError.
Proof.
  intros Hnum Hj. destruct (lookup_lt_is_Some_2 jointsJ j Hj) as [joint_j Hjj].
  destruct (decide (j ≠ 0 ∨ Py.drop_last (name root) ∈ columns data)) as [Hd|Hd].
  - rewrite (jointCoord_direct data jointsJ i j joint_j Hd Hjj).
    unfold mbind, result_bind.
    repeat match goal with
           | |- context [loc ?d ?k ?c] =>
               let E := fresh "E" in
               destruct (loc d k c) eqn:E;
               [intros [= <-]; by apply loc_error in E|]
           end.
    discriminate.
  - assert (j = 0) as -> by (destruct j; [done|exfalso; apply Hd; by left]).
    rewrite jointCoord_root_synthesis by (intros ?; apply Hd; by right).
    unfold mbind, result_bind.
    destruct (loc data i "RHip_Z") as [e1|rz] eqn:E1;
      [intros [= <-]; by apply loc_error in E1|].
    destruct (loc data i "LHip_Z") as [e2|lz] eqn:E2;
      [intros [= <-]; by apply loc_error in E2|].
    destruct (hips_numeric_midpoint data i "RHip_Z" "LHip_Z" rz lz Hnum) as [fx ->];
      [by repeat constructor|by repeat constructor|done|done|].
    destruct (loc data i "RHip_X") as [e3|rx] eqn:E3;
      [intros [= <-]; by apply loc_error in E3|].
    destruct (loc data i "LHip_X") as [e4|lx] eqn:E4;
      [intros [= <-]; by apply loc_error in E4|].
    destruct (hips_numeric_midpoint data i "RHip_X" "LHip_X" rx lx Hnum) as [fy ->];
      [by repeat constructor|by repeat constructor|done|done|].
    destruct (loc data i "RHip_Y") as [e5|ry] eqn:E5;
      [intros [= <-]; by apply loc_error in E5|].
    destruct (loc data i "LHip_Y") as [e6|ly] eqn:E6;
      [intros [= <-]; by apply loc_error in E6|].
    destruct (hips_numeric_midpoint data i "RHip_Y" "LHip_Y" ry ly Hnum) as [fz ->];
      [by repeat constructor|by repeat constructor|done|done|].
    discriminate.
Qed.

Lemma place_joint_outcome_numeric (data : DataFrame value) (jointsJ : list string)
    (i j : nat) (h : host) :
  hips_numeric data → j < length jointsJ →
  (place_joint data jointsJ i j h).2 = inr tt
  ∨ (place_joint data jointsJ i j h).2 = inl KeyError.
Proof.
  intros Hnum Hlt.
  destruct (lookup_lt_is_Some_2 jointsJ j Hlt) as [joint_j Hjj].
  unfold place_joint, mbind, M_bind, lift, index. rewrite Hjj.
  destruct (jointCoord data jointsJ i j) as [e|[[x0 y0] z0]] eqn:E; simpl.
  - right. f_equal. by eapply jointCoord_error_numeric.
  - by left.
Qed.

Lemma animate_frame_outcome (data : DataFrame value) (jointsJ : list string)
    (i : nat) (h : host) :
  (animate_frame data jointsJ i h).2 = inr tt
  ∨ ∃ e, (animate_frame data jointsJ i h).2 = inl e ∧ lookup_error e.
Proof.
  unfold animate_frame, mbind, M_bind.
  destruct (place_joints_outcome data jointsJ i h) as [H|(e & H & He)];
    destruct (place_joints data jointsJ i h) as [h1 [e'|[]]]; simpl in H;
    try discriminate.
  - destruct (i =? 0)%nat; [|by left]. rewrite orient_joints_ok. by left.
  - right. exists e. simpl. split; [congruence|done].
Qed.

Lemma animate_frame_outcome_numeric (data : DataFrame value) (jointsJ : list string)
    (i : nat) (h : host) :
  hips_numeric data →
  (animate_frame data jointsJ i h).2 = inr tt
  ∨ (animate_frame data jointsJ i h).2 = inl KeyError.
Proof.
  intros Hnum. unfold animate_frame, mbind, M_bind.
  assert ((place_joints data jointsJ i h).2 = inr tt
          ∨ (place_joints data jointsJ i h).2 = inl KeyError) as [H|H].
  { rewrite place_joints_rounds. apply for_each_only. intros j h' Hj.
    apply elem_of_seq in Hj. apply place_joint_outcome_numeric; [done|lia]. }
  all: destruct (place_joints data jointsJ i h) as [h1 [e'|[]]]; simpl in H;
    try discriminate.
  - destruct (i =? 0)%nat; [|by left]. rewrite orient_joints_ok. by left.
  - right. simpl. congruence.
Qed.

Lemma animate_joints_outcome (data : DataFrame value) (jointsJ : list string)
    (numFrames : nat) (h : host) :
  (animate_joints data jointsJ numFrames h).2 = inr tt
  ∨ ∃ e, (animate_joints data jointsJ numFrames h).2 = inl e ∧ lookup_error e.
Proof.
  rewrite animate_joints_rounds. apply for_each_only_in. intros i h' _.
  apply animate_frame_outcome.
Qed.

Lemma animate_joints_outcome_numeric (data : DataFrame value) (jointsJ : list string)
    (numFrames : nat) (h : host) :
  hips_numeric data →
  (animate_joints data jointsJ numFrames h).2 = inr tt
  ∨ (animate_joints data jointsJ numFrames h).2 = inl KeyError.
Proof.
  intros Hnum. rewrite animate_joints_rounds. apply for_each_only. intros i h' _.
  by apply animate_frame_outcome_numeric.
Qed.

Lemma loc_no_row {A} (data : DataFrame A) (i : nat) (c : string) :
  rows data !! i = None → loc data i c = inl KeyError.
Proof.
  intros Hi. unfold loc. rewrite Hi. by destruct (get_loc (columns data) c).
Qed.

(** A frame the table has no row for gives no coordinates. *)
Lemma jointCoord_no_row (data : DataFrame value) (jointsJ : list string) (i j : nat) :
  rows data !! i = None → j < length jointsJ →
  jointCoord data jointsJ i j = inl KeyError.
Proof.
  intros Hi Hj. destruct (lookup_lt_is_Some_2 jointsJ j Hj) as [joint_j Hjj].
  unfold jointCoord.
  destruct ((j =? 0)%nat && negb (bool_decide (Py.drop_last (name root) ∈ columns data))).
  - change (index (children root) 0) with (inr (mkNode "RHipJ" [
      mkNode "RKneeJ" [mkNode "RAnkleJ" [mkNode "RBigToeJ" [mkNode "RSmallToeJ" []];
                                          mkNode "RHeelJ" []]]]) : result Node).
    unfold mbind, result_bind. rewrite loc_no_row by done. reflexivity.
  - unfold index. rewrite Hjj. unfold mbind, result_bind.
    rewrite loc_no_row by done. reflexivity.
Qed.

(** A first round that raises ends the frame. *)
Lemma animate_frame_first_raise (data : DataFrame value) (jointsJ : list string)
    (i : nat) (h : host) (e : exn) :
  jointsJ ≠ [] → jointCoord data jointsJ i 0 = inl e →
  animate_frame data jointsJ i h = (h, inl e).
Proof.
  intros Hj He. destruct jointsJ as [|j0 tl]; [done|].
  unfold animate_frame. erewrite bind_inl; [reflexivity|].
  rewrite place_joints_rounds.
  change (range 0 (length (j0 :: tl))) with (0 :: seq 1 (length tl)).
  cbn [for_each]. erewrite bind_inl; [reflexivity|].
  unfold place_joint. erewrite bind_inl; [reflexivity|].
  unfold lift. by rewrite He.
Qed.

Lemma animate_frame_no_row (data : DataFrame value) (jointsJ : list string)
    (i : nat) (h : host) :
  jointsJ ≠ [] → rows data !! i = None →
  (animate_frame data jointsJ i h).2 = inl KeyError.
Proof.
  intros Hj Hi.
  rewrite (animate_frame_first_raise data jointsJ i h KeyError); [done|done|].
  apply jointCoord_no_row; [done|]. destruct jointsJ; [done|simpl; lia].
Qed.

Lemma animate_joints_no_row (data : DataFrame value) (jointsJ : list string)
    (numFrames : nat) (h : host) :
  jointsJ ≠ [] → shape0 data < numFrames →
  ∃ e, (animate_joints data jointsJ numFrames h).2 = inl e ∧ lookup_error e.
Proof.
  intros Hj Hframes. rewrite animate_joints_rounds.
  apply (for_each_some_raise_in _ _ _ (shape0 data)).
  - intros i h' _. apply animate_frame_outcome.
  - apply elem_of_seq. lia.
  - intros h'. exists KeyError. split; [|by left].
    apply animate_frame_no_row; [done|]. by apply lookup_ge_None_2.
Qed.

Lemma animate_joints_no_row_numeric (data : DataFrame value) (jointsJ : list string)
    (numFrames : nat) (h : host) :
  hips_numeric data → jointsJ ≠ [] → shape0 data < numFrames →
  (animate_joints data jointsJ numFrames h).2 = inl KeyError.
Proof.
  intros Hnum Hj Hframes. rewrite animate_joints_rounds.
  apply (for_each_some_raise _ _ KeyError (shape0 data)).
  - intros i h' _. by apply animate_frame_outcome_numeric.
  - apply elem_of_seq. lia.
  - intros h'. apply animate_frame_no_row; [done|]. by apply lookup_ge_None_2.
Qed.

(** The first round of the first frame decides when it raises. *)
Lemma animate_joints_first_raise (data : DataFrame value) (jointsJ : list string)
    (numFrames : nat) (h : host) (e : exn) :
  0 < numFrames → jointsJ ≠ [] → jointCoord data jointsJ 0 0 = inl e →
  animate_joints data jointsJ numFrames h = (h, inl e).
Proof.
  intros Hn Hj He. destruct numFrames as [|n]; [lia|].
  rewrite animate_joints_rounds. change (range 0 (S n)) with (0 :: seq 1 n).
  cbn [for_each]. erewrite bind_inl; [reflexivity|].
  by apply animate_frame_first_raise.
Qed.

(** *** Tables with every marker *)

(** In a table with the three columns of every label, the samples of a
    label are found at every row that has a cell for every column. *)
Lemma loc_well_shaped (data : DataFrame value) (labels : list string) (i : nat)
    (row : list value) (m : string) :
  columns data = labels_XYZ labels → NoDup labels →
  rows data !! i = Some row → length row = 3 * length labels →
  m ∈ labels →
  ∃ a b c, loc data i (m +:+ "_X") = inr a
           ∧ loc data i (m +:+ "_Y") = inr b
           ∧ loc data i (m +:+ "_Z") = inr c.
Proof.
  intros Hcols Hnd Hrow Hlen Hm.
  apply list_elem_of_lookup in Hm as [k Hk].
  pose proof (lookup_lt_Some _ _ _ Hk) as Hlt.
  destruct (lookup_lt_is_Some_2 row (3 * k) ltac:(lia)) as [a Ha].
  destruct (lookup_lt_is_Some_2 row (3 * k + 1) ltac:(lia)) as [b Hb].
  destruct (lookup_lt_is_Some_2 row (3 * k + 2) ltac:(lia)) as [c Hc].
  exists a, b, c. by eapply loc_sample.
Qed.

(** The coordinates of a joint below the root are the sample of its
    marker, the label being the joint name without its final [J]. *)
Lemma jointCoord_marker (data : DataFrame value) (labels : list string)
    (cnt i j k : nat) (n : string) (row : list value) (a b c : value) :
  columns data = labels_XYZ labels → NoDup labels →
  rows data !! i = Some row →
  j ≠ 0 → joint_names !! j = Some n → labels !! k = Some (Py.drop_last n) →
  row !! (3 * k) = Some a → row !! (3 * k + 1) = Some b → row !! (3 * k + 2) = Some c →
  jointCoord data (map (fun n => n +:+ Py.str cnt) joint_names) i j = inr (c, a, b).
Proof.
  intros Hcols Hnd Hrow Hj Hn Hk Ha Hb Hc.
  assert (Py.no_digit n = true) as Hnd'.
  { pose proof joint_names_no_digit as H. rewrite Forall_forall in H.
    apply H. apply list_elem_of_lookup. by exists j. }
  rewrite (jointCoord_direct _ _ _ _ (n +:+ Py.str cnt)); [|by left|].
  2:{ change (map ?f ?l) with (f <$> l). by rewrite list_lookup_fmap, Hn. }
  rewrite jnt_of_suffixed by done.
  destruct (loc_sample data labels i k (Py.drop_last n) row a b c)
    as (-> & -> & ->); done.
Qed.

(** Where the sums are exact, [np.add(a, b) / 2] is the average. *)
Lemma midpoint_average (a b : value) (x : float) :
  average a b = Some x → exact_sum a b → midpoint a b = inr (F64 x).
Proof.
  destruct a as [p|p|p|p|p], b as [q|q|q|q|q]; try discriminate.
  - intros [= <-] Hfit. cbn [exact_sum] in Hfit.
    unfold midpoint. cbn [np.add mbind result_bind mret result_ret].
    unfold np.wrap_int64.
    replace (((p + q + 2 ^ 63) `mod` 2 ^ 64 - 2 ^ 63)%Z) with (p + q)%Z; [reflexivity|].
    rewrite Z.mod_small by lia. lia.
  - by intros [= <-] _.
Qed.

(** The coordinates of the root in a table laid out by [labels_XYZ]. *)
Lemma jointCoord_root_average (data : DataFrame value) (labels jointsJ : list string)
    (i r l : nat) (row : list value) (r0 r1 r2 l0 l1 l2 x y z : value) :
  columns data = labels_XYZ labels → NoDup labels →
  labels !! r = Some "RHip" → labels !! l = Some "LHip" →
  rows data !! i = Some row →
  row !! (3 * r) = Some r0 → row !! (3 * r + 1) = Some r1 → row !! (3 * r + 2) = Some r2 →
  row !! (3 * l) = Some l0 → row !! (3 * l + 1) = Some l1 → row !! (3 * l + 2) = Some l2 →
  midpoint r2 l2 = inr x → midpoint r0 l0 = inr y → midpoint r1 l1 = inr z →
  jointCoord data jointsJ i 0 = inr (x, y, z).
Proof.
  intros Hcols Hnd Hr Hl Hrow Hr0 Hr1 Hr2 Hl0 Hl1 Hl2 Hx Hy Hz.
  rewrite (root_always_synthesized data labels) by done.
  destruct (loc_sample data labels i r "RHip" row r0 r1 r2) as (RX & RY & RZ); try done.
  destruct (loc_sample data labels i l "LHip" row l0 l1 l2) as (LX & LY & LZ); try done.
  change ("RHip" +:+ "_X") with "RHip_X" in RX. change ("RHip" +:+ "_Y") with "RHip_Y" in RY.
  change ("RHip" +:+ "_Z") with "RHip_Z" in RZ. change ("LHip" +:+ "_X") with "LHip_X" in LX.
  change ("LHip" +:+ "_Y") with "LHip_Y" in LY. change ("LHip" +:+ "_Z") with "LHip_Z" in LZ.
  rewrite RZ, LZ. cbn [mbind result_bind]. rewrite Hx. cbn [mbind result_bind].
  rewrite RX, LX. cbn [mbind result_bind]. rewrite Hy. cbn [mbind result_bind].
  rewrite RY, LY. cbn [mbind result_bind]. rewrite Hz. reflexivity.
Qed.

(** In a table [set_skeleton] can animate, every joint has coordinates
    at every row. *)
Lemma jointCoord_animable (data : DataFrame value) (labels : list string)
    (cnt i j : nat) :
  animable data labels → i < shape0 data → j < length joint_names →
  ∃ v, jointCoord data (map (fun n => n +:+ Py.str cnt) joint_names) i j = inr v.
Proof.
  intros (Hcols & Hnd & Hrows & Hall & Hnum) Hi Hj.
  destruct (lookup_lt_is_Some_2 (rows data) i Hi) as [row Hrow].
  pose proof (Hrows row (list_elem_of_lookup_2 _ _ _ Hrow)) as Hlen.
  destruct (decide (j = 0)) as [->|Hj0].
  - assert ("RHip" ∈ labels) as HR by (apply (Hall "RHipJ"); compute_done).
    assert ("LHip" ∈ labels) as HL by (apply (Hall "LHipJ"); compute_done).
    apply list_elem_of_lookup in HR as [r Hr]. apply list_elem_of_lookup in HL as [l Hl].
    pose proof (lookup_lt_Some _ _ _ Hr) as Hrlt.
    pose proof (lookup_lt_Some _ _ _ Hl) as Hllt.
    destruct (lookup_lt_is_Some_2 row (3 * r) ltac:(lia)) as [r0 Hr0].
    destruct (lookup_lt_is_Some_2 row (3 * r + 1) ltac:(lia)) as [r1 Hr1].
    destruct (lookup_lt_is_Some_2 row (3 * r + 2) ltac:(lia)) as [r2 Hr2].
    destruct (lookup_lt_is_Some_2 row (3 * l) ltac:(lia)) as [l0 Hl0].
    destruct (lookup_lt_is_Some_2 row (3 * l + 1) ltac:(lia)) as [l1 Hl1].
    destruct (lookup_lt_is_Some_2 row (3 * l + 2) ltac:(lia)) as [l2 Hl2].
    destruct (loc_sample data labels i r "RHip" row r0 r1 r2) as (RX & RY & RZ); try done.
    destruct (loc_sample data labels i l "LHip" row l0 l1 l2) as (LX & LY & LZ); try done.
    destruct (hips_numeric_midpoint data i "RHip_Z" "LHip_Z" r2 l2 Hnum) as [fx Hx];
      [by repeat constructor|by repeat constructor|exact RZ|exact LZ|].
    destruct (hips_numeric_midpoint data i "RHip_X" "LHip_X" r0 l0 Hnum) as [fy Hy];
      [by repeat constructor|by repeat constructor|exact RX|exact LX|].
    destruct (hips_numeric_midpoint data i "RHip_Y" "LHip_Y" r1 l1 Hnum) as [fz Hz];
      [by repeat constructor|by repeat constructor|exact RY|exact LY|].
    exists (F64 fx, F64 fy, F64 fz).
    by apply (jointCoord_root_average data labels _ i r l row r0 r1 r2 l0 l1 l2).
  - destruct (lookup_lt_is_Some_2 joint_names j Hj) as [n Hn].
    assert (n ∈ tail joint_names) as Htl.
    { destruct j as [|j']; [done|]. apply list_elem_of_lookup. by exists j'. }
    pose proof (Hall n Htl) as Hm. apply list_elem_of_lookup in Hm as [k Hk].
    pose proof (lookup_lt_Some _ _ _ Hk) as Hklt.
    destruct (lookup_lt_is_Some_2 row (3 * k) ltac:(lia)) as [a Ha].
    destruct (lookup_lt_is_Some_2 row (3 * k + 1) ltac:(lia)) as [b Hb].
    destruct (lookup_lt_is_Some_2 row (3 * k + 2) ltac:(lia)) as [c Hc].
    exists (c, a, b). by apply (jointCoord_marker data labels cnt i j k n row).
Qed.

(** A table without text has numbers as hip samples. *)
Lemma numeric_table_hips (data : DataFrame value) :
  Forall (Forall (fun v => numeric v = true)) (rows data) → hips_numeric data.
Proof.
  intros Hall c i v _. unfold loc.
  destruct (get_loc (columns data) c) as [k|]; [|discriminate].
  destruct (rows data !! i) as [row|] eqn:Hrow; [|discriminate].
  destruct (row !! k) as [w|] eqn:Hw; [|discriminate].
  intros [= <-]. rewrite Forall_forall in Hall.
  pose proof (Hall row (list_elem_of_lookup_2 _ _ _ Hrow)) as Hr.
  rewrite Forall_forall in Hr. exact (Hr w (list_elem_of_lookup_2 _ _ _ Hw)).
Qed.

Lemma animable_body_25b_table : animable body_25b_table body_25b_labels.
Proof.
  split; [reflexivity|]. split; [compute_done|]. split; [|split].
  - intros row Hrow.
    apply elem_of_cons in Hrow as [->|Hrow]; [reflexivity|].
    apply elem_of_cons in Hrow as [->|Hrow]; [reflexivity|].
    by apply elem_of_nil in Hrow.
  - intros n Hn. cbn in Hn.
    repeat (apply elem_of_cons in Hn as [->|Hn]; [compute_done|]).
    by apply elem_of_nil in Hn.
  - apply numeric_table_hips. repeat constructor.
Qed.

Lemma animable_body_25b_table_CHip : animable body_25b_table_CHip body_25b_labels.
Proof.
  split; [reflexivity|]. split; [compute_done|]. split; [|split].
  - intros row Hrow.
    apply elem_of_cons in Hrow as [->|Hrow]; [reflexivity|].
    by apply elem_of_nil in Hrow.
  - intros n Hn. cbn in Hn.
    repeat (apply elem_of_cons in Hn as [->|Hn]; [compute_done|]).
    by apply elem_of_nil in Hn.
  - apply numeric_table_hips. repeat constructor.
Qed.

Lemma clash_free_host0 (s : string) : clash_free s host0.
Proof. intros x p Hx. by apply elem_of_nil in Hx. Qed.

End skeleton_outcome.

(** X10: in a scene where no object is a child of one of the names the
    joints get, creating the joints returns the joints of the hierarchy in
    pre-order with the suffix of the import, and adds one scene object per
    node of the tree, each below the joint of its tree parent; what was in
    the scene stays. *)
Theorem create_joints_scene (s : string) (h : host) :
  (∀ x p, x ∈ nodes h → x.2 = Some p → p ∉ map (fun n => n +:+ s) joint_names) →
  create_joints s h = (created s h, inr (map (fun n => n +:+ s) joint_names))
  ∧ nodes (created s h) = nodes h ++ map (suffixed s) tree_scene.
Proof.
  intros Hfree. split; [|apply created_nodes].
  etransitivity; [apply create_joints_run|].
  by rewrite jointsJ_of_clash_free.
Qed.

Lemma create_joints_scene_witness :
  let h := mkHost [("Nose1", None); ("LEye1", None)] ["LEye1"] [] in
  create_joints "1" h = (created "1" h, inr (map (fun n => n +:+ "1") joint_names))
  ∧ nodes (created "1" h) = nodes h ++ map (suffixed "1") tree_scene.
Proof.
  apply (create_joints_scene "1" (mkHost [("Nose1", None); ("LEye1", None)] ["LEye1"] [])).
  intros x p Hx Hp.
  apply elem_of_cons in Hx as [->|Hx]; [discriminate|].
  apply elem_of_cons in Hx as [->|Hx]; [discriminate|].
  by apply elem_of_nil in Hx.
Defined.

Lemma nodes_emit_all (cs : list call) (h : host) : nodes (emit_all cs h) = nodes h.
Proof. reflexivity. Qed.

Lemma set_skeleton_outcome_gen (data : DataFrame value) (s : string) (numFrames : nat)
    (h h0 : host) (jointsJ : list string) :
  create_joints s h = (h0, inr jointsJ) →
  ((set_skeleton data s numFrames h).2 = inr tt
   ∨ ∃ e, (set_skeleton data s numFrames h).2 = inl e ∧ lookup_error e)
  ∧ (hips_numeric data →
       (set_skeleton data s numFrames h).2 = inr tt
       ∨ (set_skeleton data s numFrames h).2 = inl KeyError)
  ∧ ∃ cs, (set_skeleton data s numFrames h).1 = emit_all cs h0
          ∧ (animate_joints data jointsJ numFrames h0).1 = emit_all cs h0.
Proof.
  intros Hrun. unfold set_skeleton. erewrite bind_inr by exact Hrun.
  split; [|split].
  - apply animate_joints_outcome.
  - intros Hnum. by apply animate_joints_outcome_numeric.
  - destruct (only_logs_animate_joints data jointsJ numFrames h0) as (cs & Hcs).
    exists cs. split; exact Hcs.
Qed.

(** The joints are in the scene after any run. *)
Lemma set_skeleton_nodes (data : DataFrame value) (s : string) (numFrames : nat)
    (h : host) :
  nodes (set_skeleton data s numFrames h).1 = nodes h ++ map (suffixed s) tree_scene.
Proof.
  destruct (set_skeleton_outcome_gen data s numFrames h _ _ (create_joints_run s h))
    as (_ & _ & cs & Hcs & _).
  rewrite Hcs, nodes_emit_all. exact (created_nodes s h).
Qed.

(** X11: [set_skeleton] returns, or raises a [KeyError] or a
    [TypeError], and nothing else; the [TypeError] comes from the
    synthesis of the root only, so that a table whose hip samples are
    numbers raises nothing but [KeyError].  Whether it returns or raises,
    the joints it created stay in the scene, and its log starts with the
    log of their creation. *)
Theorem set_skeleton_outcome (data : DataFrame value) (s : string) (numFrames : nat)
    (h : host) :
  ((set_skeleton data s numFrames h).2 = inr tt
   ∨ (set_skeleton data s numFrames h).2 = inl KeyError
   ∨ (set_skeleton data s numFrames h).2 = inl TypeError)
  ∧ (hips_numeric data → (set_skeleton data s numFrames h).2 ≠ inl TypeError)
  ∧ nodes (set_skeleton data s numFrames h).1 = nodes h ++ map (suffixed s) tree_scene
  ∧ ∃ cs, run_log (set_skeleton data s numFrames) h = run_log (create_joints s) h ++ cs.
Proof.
  destruct (set_skeleton_outcome_gen data s numFrames h _ _ (create_joints_run s h))
    as (Hres & Hnum & cs & Hcs & Hanim).
  split; [|split; [|split]].
  - destruct Hres as [Hres|(e & Hres & [->| ->])]; [by left|right; by left|right; by right].
  - intros Hn. destruct (Hnum Hn) as [Hr|Hr]; rewrite Hr; discriminate.
  - apply set_skeleton_nodes.
  - exists cs. exact (run_log_set_skeleton data s numFrames h cs Hanim).
Qed.

Lemma set_skeleton_beyond_gen (data : DataFrame value) (s : string) (numFrames : nat)
    (h h0 : host) (jointsJ : list string) :
  create_joints s h = (h0, inr jointsJ) → jointsJ ≠ [] →
  shape0 data < numFrames →
  (∃ e, (set_skeleton data s numFrames h).2 = inl e ∧ lookup_error e)
  ∧ (hips_numeric data → (set_skeleton data s numFrames h).2 = inl KeyError).
Proof.
  intros Hrun Hj Hframes. unfold set_skeleton. erewrite bind_inr by exact Hrun.
  split.
  - by apply animate_joints_no_row.
  - intros Hnum. by apply animate_joints_no_row_numeric.
Qed.

(** X12: when [numFrames] exceeds the number of rows of the table,
    [set_skeleton] raises, in any scene and whatever the columns of the
    table: a [KeyError] at the latest at the first frame without a row, or
    the [TypeError] of a root synthesis on text before that; with numbers
    as hip samples it is the [KeyError]. *)
Theorem set_skeleton_frames_beyond_table (data : DataFrame value) (s : string)
    (numFrames : nat) (h : host) :
  shape0 data < numFrames →
  ((set_skeleton data s numFrames h).2 = inl KeyError
   ∨ (set_skeleton data s numFrames h).2 = inl TypeError)
  ∧ (hips_numeric data → (set_skeleton data s numFrames h).2 = inl KeyError).
Proof.
  intros Hframes.
  destruct (set_skeleton_beyond_gen data s numFrames h _ _ (create_joints_run s h))
    as ((e & He & Herr) & Hnum); [|done|].
  { destruct (jointsJ_of_head s h) as [tl ->]. done. }
  split; [|exact Hnum].
  destruct Herr as [-> | ->]; [by left|by right].
Qed.

Lemma set_skeleton_frames_beyond_table_witness :
  ((set_skeleton body_25b_table "1" 3 host0).2 = inl KeyError
   ∨ (set_skeleton body_25b_table "1" 3 host0).2 = inl TypeError)
  ∧ (hips_numeric body_25b_table →
     (set_skeleton body_25b_table "1" 3 host0).2 = inl KeyError).
Proof.
  apply (set_skeleton_frames_beyond_table body_25b_table "1" 3 host0).
  unfold shape0. simpl. lia.
Defined.

Lemma set_skeleton_complete_gen (data : DataFrame value) (s : string)
    (numFrames : nat) (h h0 : host) (jointsJ : list string)
    (ns : list (string * option string)) :
  create_joints s h = (h0, inr jointsJ) → nodes h0 = ns →
  (∀ i j, i < numFrames → j < length jointsJ →
          ∃ v, jointCoord data jointsJ i j = inr v) →
  (set_skeleton data s numFrames h).2 = inr tt
  ∧ (animate_joints data jointsJ numFrames h0).1
    = emit_all (flat_map (frame_log data jointsJ ns) (range 0 numFrames)) h0.
Proof.
  intros Hrun <- Hok. unfold set_skeleton. erewrite bind_inr by exact Hrun.
  rewrite (animate_joints_ok data jointsJ numFrames h0 Hok).
  split; reflexivity.
Qed.

(** X13: a table with the three columns of each of its labels, a cell for
    every column in every row, among its labels the marker of every joint
    below the root, and numbers as hip samples, is animated without an
    exception for any number of frames up to its number of rows, in any
    scene where no object is a child of one of the new joint names.  The
    log is the creation of the joints followed, frame after frame, by the
    placement of every joint, with the orientation pass after the
    placement of frame 0. *)
Theorem set_skeleton_complete (data : DataFrame value) (labels : list string)
    (cnt numFrames : nat) (h : host) :
  animable data labels →
  numFrames ≤ shape0 data →
  clash_free (Py.str cnt) h →
  let jointsJ := map (fun n => n +:+ Py.str cnt) joint_names in
  (set_skeleton data (Py.str cnt) numFrames h).2 = inr tt
  ∧ run_log (set_skeleton data (Py.str cnt) numFrames) h
    = run_log (create_joints (Py.str cnt)) h
      ++ flat_map (frame_log data jointsJ
                     (nodes h ++ map (suffixed (Py.str cnt)) tree_scene))
           (range 0 numFrames).
Proof.
  intros Hanimable Hframes Hfree jointsJ.
  pose proof (jointsJ_of_clash_free (Py.str cnt) h Hfree) as HJ.
  fold jointsJ in HJ.
  pose proof (create_joints_run (Py.str cnt) h) as Hrun. rewrite HJ in Hrun.
  destruct (set_skeleton_complete_gen data (Py.str cnt) numFrames h _ jointsJ _
              Hrun (created_nodes (Py.str cnt) h)) as [Hres Hanim].
  { intros i j Hi Hj. unfold jointsJ in Hj. rewrite List.length_map in Hj.
    apply (jointCoord_animable data labels cnt i j Hanimable); [lia|exact Hj]. }
  split; [exact Hres|].
  apply run_log_set_skeleton. rewrite HJ. exact Hanim.
Qed.

Lemma set_skeleton_complete_witness :
  let jointsJ := map (fun n => n +:+ Py.str 1) joint_names in
  (set_skeleton body_25b_table (Py.str 1) 2 host0).2 = inr tt
  ∧ run_log (set_skeleton body_25b_table (Py.str 1) 2) host0
    = run_log (create_joints (Py.str 1)) host0
      ++ flat_map (frame_log body_25b_table jointsJ
                     (nodes host0 ++ map (suffixed (Py.str 1)) tree_scene))
           (range 0 2).
Proof.
  apply (set_skeleton_complete body_25b_table body_25b_labels 1 2 host0).
  - exact animable_body_25b_table.
  - unfold shape0. simpl. lia.
  - exact (clash_free_host0 (Py.str 1)).
Defined.

(** X18: when the first frame's RHip or LHip sample read for the scene X
    of the root is text, as in a table read from a file whose first data
    line is a line of sub-labels, [set_skeleton] raises [TypeError] at the
    root of frame 0: the joints are created and none is moved. *)
Theorem set_skeleton_text_hips (data : DataFrame value) (labels : list string)
    (s : string) (numFrames : nat) (h : host) (a b : value) :
  columns data = labels_XYZ labels → 0 < numFrames →
  loc data 0 "RHip_Z" = inr a → loc data 0 "LHip_Z" = inr b →
  numeric a = false ∨ numeric b = false →
  (set_skeleton data s numFrames h).2 = inl TypeError
  ∧ run_log (set_skeleton data s numFrames) h = run_log (create_joints s) h.
Proof.
  intros Hcols Hn Ha Hb Htext.
  assert (jointCoord data (jointsJ_of s h) 0 0 = inl TypeError) as Hcoord.
  { rewrite (root_always_synthesized data labels) by done.
    rewrite Ha, Hb. cbn [mbind result_bind].
    assert (midpoint a b = inl TypeError) as ->; [|done].
    destruct Htext as [Ht|Ht]; [by destruct a, b|by destruct b, a]. }
  assert (jointsJ_of s h ≠ []) as HJ
    by (destruct (jointsJ_of_head s h) as [tl ->]; done).
  pose proof (animate_joints_first_raise data (jointsJ_of s h) numFrames (created s h)
                TypeError Hn HJ Hcoord) as Hanim.
  split.
  - unfold set_skeleton. erewrite bind_inr by apply create_joints_run.
    by rewrite Hanim.
  - rewrite <- (app_nil_r (run_log (create_joints s) h)).
    apply run_log_set_skeleton. rewrite Hanim. cbn [fst]. by rewrite emit_all_nil.
Qed.

Lemma set_skeleton_text_hips_witness :
  (set_skeleton text_hips_table "1" 1 host0).2 = inl TypeError
  ∧ run_log (set_skeleton text_hips_table "1" 1) host0
    = run_log (create_joints "1") host0.
Proof.
  apply (set_skeleton_text_hips text_hips_table ["RHip"; "LHip"] "1" 1 host0
           (Str "Z1") (Str "Z2")); try reflexivity; [lia|by left].
Defined.

(** ** The coordinates the two engines apply *)







(** ** From the table to the scene, and the next import *)

Section imports.

Lemma probe_nil (labels : list string) (cnt : nat) : probe [] labels cnt = cnt.
Proof.
  induction labels as [|l labels IH]; [reflexivity|].
  cbn [probe]. unfold collides.
  rewrite !bool_decide_eq_false_2 by apply not_elem_of_nil. exact IH.
Qed.

Lemma append_last_ne (a b : string) : a +:+ "2" ≠ b +:+ "1".
Proof.
  revert b. induction a as [|c a IH]; intros [|d b]; try discriminate.
  - rewrite append_String. intros [= _ H]. by destruct b.
  - rewrite append_String. intros [= _ H]. by destruct a.
  - rewrite !append_String. intros [= _ H]. by apply IH in H.
Qed.

(** Names that end in 1 collide with no label at the counter 2. *)
Lemma collides_2 (objs : list string) (l : string) :
  (∀ o, o ∈ objs → ∃ b, o = b +:+ "1") → collides objs l 2 = false.
Proof.
  intros Hobjs. unfold collides. change (Py.str 2) with "2".
  rewrite !bool_decide_eq_false_2; [done| |].
  - intros [b Hb]%Hobjs. by apply append_last_ne in Hb.
  - intros [b Hb]%Hobjs. by apply append_last_ne in Hb.
Qed.

Lemma probe_2 (objs labels : list string) :
  (∀ o, o ∈ objs → ∃ b, o = b +:+ "1") → probe objs labels 2 = 2.
Proof.
  intros Hobjs. induction labels as [|l labels IH]; [reflexivity|].
  cbn [probe]. by rewrite collides_2.
Qed.

Lemma probe_after_first_import (objs labels : list string) :
  (∀ o, o ∈ objs → ∃ b, o = b +:+ "1") →
  probe objs labels 1 = if existsb (fun l => collides objs l 1) labels then 2 else 1.
Proof.
  intros Hobjs. induction labels as [|l labels IH]; [reflexivity|].
  cbn [probe existsb]. destruct (collides objs l 1); [|exact IH].
  by apply probe_2.
Qed.

Lemma suffixed_ends (s : string) (ns : list (string * option string)) (o : string) :
  o ∈ map fst (map (suffixed s) ns) → ∃ b, o = b +:+ s.
Proof.
  rewrite List.map_map. change (map ?f ?l) with (f <$> l).
  intros (x & -> & _)%list_elem_of_fmap. by exists x.1.
Qed.

Lemma markers_end (s : string) (labels : list string) (o : string) :
  o ∈ map fst (map (fun n : string => (n, @None string)) (map (fun l => l +:+ s) labels)) →
  ∃ b, o = b +:+ s.
Proof.
  rewrite !List.map_map. change (map ?f ?l) with (f <$> l).
  intros (x & -> & _)%list_elem_of_fmap. by exists x.
Qed.

(** Once every object name ends in 1 and a label collides at 1, the
    labels get the counter 2. *)
Lemma increment_labels_m_second (labels : list string) (h : host) (l : string) :
  (∀ o, o ∈ map fst (nodes h) → ∃ b, o = b +:+ "1") →
  l ∈ labels → collides (map fst (nodes h)) l 1 = true →
  (increment_labels_m labels h).2 = inr ("2", map (fun l => l +:+ "2") labels).
Proof.
  intros Hobjs Hl Hc.
  unfold increment_labels_m, mbind, M_bind, cmds.ls_transforms, mret, M_ret.
  cbn [snd]. unfold increment_labels.
  rewrite (probe_after_first_import _ labels Hobjs).
  replace (existsb _ labels) with true; [done|].
  symmetry. apply List.existsb_exists. exists l. split; [by apply list_elem_of_In|done].
Qed.

End imports.

(** X14: [analyze_data] followed by [set_markers], as the import runs
    them: for a table with the three columns of each of its labels and a
    cell for every column in every row, the names and the frame count
    [analyze_data] returns make [set_markers] return normally, in any
    scene; the names are the labels with the counter, one object is
    created for each, and every row of the table is keyed. *)
Theorem set_markers_of_analyzed (data : DataFrame value) (labels names : list string)
    (str_cnt : string) (numFrames : nat) (h : host) :
  columns data = labels_XYZ labels →
  (∀ row, row ∈ rows data → length row = 3 * length labels) →
  analyze_data (map fst (nodes h)) data = (names, str_cnt, numFrames) →
  names = map (fun l => l +:+ str_cnt) labels
  ∧ numFrames = shape0 data
  ∧ (set_markers data names numFrames h).2 = inr tt
  ∧ run_log (set_markers data names numFrames) h
    = creation_calls names ++ flat_map (marker_keys data names) (range 0 (shape0 data)).
Proof.
  intros Hcols Hrows Han.
  rewrite (analyze_data_parsed _ data labels Hcols) in Han.
  assert (names = map (fun l => l +:+ str_cnt) labels ∧ numFrames = shape0 data)
    as [-> ->].
  { unfold increment_labels in Han. cbn [fst snd] in Han.
    injection Han as <- <- <-. by split. }
  split; [done|]. split; [done|].
  destruct (set_markers_ok data (map (fun l => l +:+ str_cnt) labels) (shape0 data) h)
    as (h' & Hnodes & Hlog & Hall).
  { intros i k Hi Hk. rewrite List.length_map in Hk.
    destruct (lookup_lt_is_Some_2 (rows data) i Hi) as [row Hrow].
    pose proof (Hrows row (list_elem_of_lookup_2 _ _ _ Hrow)) as Hlen.
    destruct (lookup_lt_is_Some_2 row k ltac:(lia)) as [v Hv].
    exists v. unfold iloc. by rewrite Hrow, Hv. }
  unfold run_log. rewrite Hall. cbn [fst snd]. split; [done|].
  rewrite log_emit_all, Hlog, <- app_assoc. by rewrite drop_app_length.
Qed.

Lemma set_markers_of_analyzed_witness :
  let data := mkDataFrame (labels_XYZ ["A"; "B"]) [map F64 [1; 2; 3; 4; 5; 6]%float] in
  ["A1"; "B1"] = map (fun l => l +:+ "1") ["A"; "B"]
  ∧ 1 = shape0 data
  ∧ (set_markers data ["A1"; "B1"] 1 host0).2 = inr tt
  ∧ run_log (set_markers data ["A1"; "B1"] 1) host0
    = creation_calls ["A1"; "B1"]
      ++ flat_map (marker_keys data ["A1"; "B1"]) (range 0 (shape0 data)).
Proof.
  apply (set_markers_of_analyzed
           (mkDataFrame (labels_XYZ ["A"; "B"]) [map F64 [1; 2; 3; 4; 5; 6]%float])
           ["A"; "B"] ["A1"; "B1"] "1" 1 host0).
  - reflexivity.
  - intros row Hrow. apply elem_of_cons in Hrow as [->|Hrow]; [reflexivity|].
    by apply elem_of_nil in Hrow.
  - reflexivity.
Defined.

(** X15: in a scene where every object name ends in 1, as after a first
    import, [increment_labels] returns the counter 2 when one of the
    labels collides at the counter 1 (its marker or its joint is in the
    scene), and the counter 1 otherwise. *)
Theorem increment_labels_second_import (objs labels : list string) :
  (∀ o, o ∈ objs → ∃ b, o = b +:+ "1") →
  increment_labels objs labels
  = if existsb (fun l => collides objs l 1) labels
    then ("2", map (fun l => l +:+ "2") labels)
    else ("1", map (fun l => l +:+ "1") labels).
Proof.
  intros Hobjs. unfold increment_labels.
  rewrite (probe_after_first_import objs labels Hobjs).
  by destruct (existsb _ labels).
Qed.

Lemma increment_labels_second_import_witness :
  increment_labels ["Nose1"; "CHipJ1"; "RHipJ1"] ["LEye"; "RHip"]
  = if existsb (fun l => collides ["Nose1"; "CHipJ1"; "RHipJ1"] l 1) ["LEye"; "RHip"]
    then ("2", map (fun l => l +:+ "2") ["LEye"; "RHip"])
    else ("1", map (fun l => l +:+ "1") ["LEye"; "RHip"]).
Proof.
  apply (increment_labels_second_import ["Nose1"; "CHipJ1"; "RHipJ1"] ["LEye"; "RHip"]).
  intros o Ho.
  apply elem_of_cons in Ho as [->|Ho]; [by exists "Nose"|].
  apply elem_of_cons in Ho as [->|Ho]; [by exists "CHipJ"|].
  apply elem_of_cons in Ho as [->|Ho]; [by exists "RHipJ"|].
  by apply elem_of_nil in Ho.
Defined.

(** X16: two imports of the same labels.  In the empty scene the labels
    get the counter 1; once [set_markers] has run with these names, and
    also once [set_skeleton] has run after it, whether they returned or
    raised, [increment_labels] gives the same labels the counter 2. *)
Theorem second_import_after_markers (data : DataFrame value) (labels : list string)
    (numFrames : nat) :
  labels ≠ [] →
  let names := map (fun l => l +:+ "1") labels in
  let h1 := (set_markers data names numFrames host0).1 in
  let h2 := (set_skeleton data "1" numFrames h1).1 in
  increment_labels_m labels host0 = (host0, inr ("1", names))
  ∧ (increment_labels_m labels h1).2 = inr ("2", map (fun l => l +:+ "2") labels)
  ∧ (increment_labels_m labels h2).2 = inr ("2", map (fun l => l +:+ "2") labels).
Proof.
  destruct labels as [|l_0 rest]; [done|]. intros _. cbv zeta.
  split; [|split].
  - unfold increment_labels_m, mbind, M_bind, cmds.ls_transforms, mret, M_ret.
    cbn [nodes host0 map]. unfold increment_labels. by rewrite probe_nil.
  - apply (increment_labels_m_second _ _ l_0); [| by left |];
      rewrite set_markers_nodes; cbn [nodes host0 app].
    + apply markers_end.
    + unfold collides. apply orb_true_iff. left.
      apply bool_decide_eq_true_2. cbn [map]. left.
  - apply (increment_labels_m_second _ _ l_0); [| by left |];
      rewrite set_skeleton_nodes, set_markers_nodes; cbn [nodes host0 app].
    + intros o Ho. rewrite List.map_app in Ho. apply elem_of_app in Ho as [Ho|Ho].
      * by apply markers_end in Ho.
      * by apply suffixed_ends in Ho.
    + unfold collides. apply orb_true_iff. left.
      apply bool_decide_eq_true_2. cbn [map app]. left.
Qed.

Lemma second_import_after_markers_witness :
  let data := mkDataFrame (labels_XYZ ["A"; "B"]) [map F64 [1; 2; 3; 4; 5; 6]%float] in
  let names := map (fun l => l +:+ "1") ["A"; "B"] in
  let h1 := (set_markers data names 1 host0).1 in
  let h2 := (set_skeleton data "1" 1 h1).1 in
  increment_labels_m ["A"; "B"] host0 = (host0, inr ("1", names))
  ∧ (increment_labels_m ["A"; "B"] h1).2 = inr ("2", map (fun l => l +:+ "2") ["A"; "B"])
  ∧ (increment_labels_m ["A"; "B"] h2).2 = inr ("2", map (fun l => l +:+ "2") ["A"; "B"]).
Proof.
  apply (second_import_after_markers
           (mkDataFrame (labels_XYZ ["A"; "B"]) [map F64 [1; 2; 3; 4; 5; 6]%float])
           ["A"; "B"] 1).
  discriminate.
Defined.

(** X17: an import that only built the skeleton also moves the counter:
    after [set_skeleton] with the counter 1 in the empty scene, whether
    it returned or raised, labels among which is the marker of a joint of
    the hierarchy get the counter 2. *)
Theorem second_import_after_skeleton (data : DataFrame value) (labels : list string)
    (numFrames : nat) (l : string) :
  l ∈ labels → l +:+ "J" ∈ joint_names →
  (increment_labels_m labels (set_skeleton data "1" numFrames host0).1).2
  = inr ("2", map (fun l => l +:+ "2") labels).
Proof.
  intros Hl HJ.
  apply (increment_labels_m_second _ _ l); [| exact Hl |];
    rewrite set_skeleton_nodes; cbn [nodes host0 app].
  - apply suffixed_ends.
  - unfold collides. apply orb_true_iff. right.
    apply bool_decide_eq_true_2. change (Py.str 1) with "1".
    rewrite List.map_map. change (map ?f ?l) with (f <$> l).
    apply list_elem_of_fmap. unfold joint_names in HJ.
    change (map ?f ?l) with (f <$> l) in HJ.
    apply list_elem_of_fmap in HJ as (pn & HJ & Hpn).
    exists (name pn.2, name <$> pn.1). split; [by rewrite HJ|].
    unfold tree_scene. change (map ?f ?l) with (f <$> l).
    apply list_elem_of_fmap. exists pn. split; [by destruct pn|done].
Qed.

Lemma second_import_after_skeleton_witness :
  (increment_labels_m ["Nose"; "RHip"]
     (set_skeleton body_25b_table "1" 2 host0).1).2
  = inr ("2", map (fun l => l +:+ "2") ["Nose"; "RHip"]).
Proof.
  apply (second_import_after_skeleton body_25b_table ["Nose"; "RHip"] 2 "RHip");
    compute_done.
Defined.
